(** * convert.py: extraction of a .saber bundle into a ReeSaber preset

    A shallow embedding of [src/convert.py].  The script is a straight
    line of three extraction loops over the objects of a Unity bundle
    followed by the construction of a JSON preset.  The bundle parser
    (UnityPy), the image encoder (PIL) and the Unicode character
    database are not part of the repository: the first two appear as
    data carried by the objects of the bundle, the third as the
    variables of the section below.

    The script is described twice.  First with every call of [print]
    returning ([mesh_step], [extraction], [run]): the script on a
    console that accepts every line.  Then with [print] raising where
    the console cannot encode the line ([mesh_step_on],
    [extraction_on], [script_on]): the exception goes through the
    handlers of the loops and ends the script where no handler encloses
    the call.  The second description is the first when the console
    accepts every line ([script_on_accepting]).

    The file system accepts every write: a mesh file is written in
    full, and saving an image fails only inside the image library,
    which by then may have opened the file. *)

From Stdlib Require Import ZArith NArith QArith String Ascii List Lia DecimalString.
From Stdlib Require Strings.Byte.
From stdpp Require Import gmap list.

Set Warnings "-register-all".

Local Open Scope N_scope.

(** ** Python strings

    A [str] is a sequence of Unicode code points. *)

Definition pystr : Type := list N.

Definition codes (s : string) : pystr :=
  List.map N_of_ascii (list_ascii_of_string s).

Notation "'u' s" := (codes s%string) (at level 1, s at level 0, only parsing).

(** ASCII part of the character predicates of CPython: [str.isalnum]
    on one character, and the white space removed by [str.strip]. *)

Definition ascii_isalnum (c : N) : bool :=
  ((48 <=? c) && (c <=? 57)) || ((65 <=? c) && (c <=? 90)) || ((97 <=? c) && (c <=? 122)).

Definition ascii_isspace (c : N) : bool :=
  ((9 <=? c) && (c <=? 13)) || ((28 <=? c) && (c <=? 32)).

Definition ascii_lower (c : N) : N :=
  if (65 <=? c) && (c <=? 90) then c + 32 else c.

(** [f"{n}"] for an integer [n]. *)

Definition str_of_int (z : Z) : pystr :=
  codes (NilEmpty.string_of_int (Z.to_int z)).

Fixpoint lstrip_with (sp : N -> bool) (s : pystr) : pystr :=
  match s with
  | [] => []
  | c :: r => if sp c then lstrip_with sp r else s
  end.

Definition rstrip_with (sp : N -> bool) (s : pystr) : pystr :=
  rev (lstrip_with sp (rev s)).

Fixpoint startswith (k s : pystr) : bool :=
  match k, s with
  | [], _ => true
  | _ :: _, [] => false
  | a :: k', b :: s' => (a =? b) && startswith k' s'
  end.

(** [k in s] on strings. *)

Fixpoint contains (k s : pystr) : bool :=
  startswith k s ||
  match s with
  | [] => false
  | _ :: s' => contains k s'
  end.

(** ** Bytes, UTF-8 and base64 *)

Definition bytes : Type := list Byte.byte.

Definition byte_of_N (n : N) : Byte.byte :=
  match Byte.of_N n with
  | Some b => b
  | None => Byte.x00
  end.

(** The outcome of a call that may raise: the value returned or the
    text of the exception. *)

Inductive pyresult (A : Type) : Type :=
  | Returns (a : A)
  | Raises (msg : pystr).

Arguments Returns {A} a.
Arguments Raises {A} msg.

(** [str.encode('utf-8')] on one code point; lone surrogates have no
    encoding. *)

Definition utf8_char (c : N) : option bytes :=
  if c <? 128 then Some [byte_of_N c]
  else if c <? 2048 then
    Some [byte_of_N (192 + c / 64); byte_of_N (128 + c mod 64)]
  else if c <? 65536 then
    if (55296 <=? c) && (c <=? 57343) then None
    else Some [byte_of_N (224 + c / 4096); byte_of_N (128 + (c / 64) mod 64);
               byte_of_N (128 + c mod 64)]
  else if c <? 1114112 then
    Some [byte_of_N (240 + c / 262144); byte_of_N (128 + (c / 4096) mod 64);
          byte_of_N (128 + (c / 64) mod 64); byte_of_N (128 + c mod 64)]
  else None.

Fixpoint utf8 (s : pystr) : option bytes :=
  match s with
  | [] => Some []
  | c :: r =>
      match utf8_char c, utf8 r with
      | Some b, Some br => Some (b ++ br)
      | _, _ => None
      end
  end.

(** The base64 alphabet of RFC 4648, as code points. *)

Definition b64_char (n : N) : N :=
  if n <? 26 then 65 + n
  else if n <? 52 then 97 + (n - 26)
  else if n <? 62 then 48 + (n - 52)
  else if n =? 62 then 43
  else 47.

Definition b64_index (c : N) : option N :=
  if (65 <=? c) && (c <=? 90) then Some (c - 65)
  else if (97 <=? c) && (c <=? 122) then Some (c - 97 + 26)
  else if (48 <=? c) && (c <=? 57) then Some (c - 48 + 52)
  else if c =? 43 then Some 62
  else if c =? 47 then Some 63
  else None.

Definition b64_pad : N := 61.

(** [base64.b64encode(b).decode('utf-8')] *)

Fixpoint b64encode (bs : bytes) : pystr :=
  match bs with
  | [] => []
  | [a] =>
      let a := Byte.to_N a in
      [b64_char (a / 4); b64_char ((a mod 4) * 16); b64_pad; b64_pad]
  | [a; b] =>
      let a := Byte.to_N a in
      let b := Byte.to_N b in
      [b64_char (a / 4); b64_char ((a mod 4) * 16 + b / 16);
       b64_char ((b mod 16) * 4); b64_pad]
  | a :: b :: c :: r =>
      let a := Byte.to_N a in
      let b := Byte.to_N b in
      let c := Byte.to_N c in
      [b64_char (a / 4); b64_char ((a mod 4) * 16 + b / 16);
       b64_char ((b mod 16) * 4 + c / 64); b64_char (c mod 64)] ++ b64encode r
  end.

(** A strict decoder: groups of four characters of the alphabet, padding
    only in the last group. *)

Definition b64_last (c1 c2 c3 c4 : N) : option bytes :=
  match b64_index c1, b64_index c2 with
  | Some i1, Some i2 =>
      let a := byte_of_N (i1 * 4 + i2 / 16) in
      if c3 =? b64_pad then
        if c4 =? b64_pad then Some [a] else None
      else
        match b64_index c3 with
        | Some i3 =>
            let b := byte_of_N ((i2 mod 16) * 16 + i3 / 4) in
            if c4 =? b64_pad then Some [a; b]
            else
              match b64_index c4 with
              | Some i4 => Some [a; b; byte_of_N ((i3 mod 4) * 64 + i4)]
              | None => None
              end
        | None => None
        end
  | _, _ => None
  end.

Fixpoint b64decode (s : pystr) : option bytes :=
  match s with
  | [] => Some []
  | c1 :: c2 :: c3 :: c4 :: r =>
      match r with
      | [] => b64_last c1 c2 c3 c4
      | _ :: _ =>
          match b64_index c1, b64_index c2, b64_index c3, b64_index c4, b64decode r with
          | Some i1, Some i2, Some i3, Some i4, Some br =>
              Some (byte_of_N (i1 * 4 + i2 / 16)
                    :: byte_of_N ((i2 mod 16) * 16 + i3 / 4)
                    :: byte_of_N ((i3 mod 4) * 64 + i4) :: br)
          | _, _, _, _, _ => None
          end
      end
  | _ => None
  end.

(** ** The objects of a bundle

    What [obj.read()] gives: the optional [name] attribute, what
    [data.export()] does on a mesh, and what [data.image] does on a
    texture or a sprite.  An image is saved twice, to the file
    ([img.save(tex_file)], lines 126 and 167) and to a buffer
    ([img.save(buffer, format='PNG')], lines 130 and 171), and each
    call has its own outcome.  Saving to the file opens the file before
    the image is encoded: when the call raises it has left the file
    alone, or left some bytes under its name, or left some bytes under
    its name only if a file was there before (a library that removes
    the file it has just created). *)

Inductive exported : Type :=
  | ExpStr (s : pystr)
  | ExpBytes (b : bytes)
  | ExpFalse.

Inductive left_behind : Type :=
  | Untouched
  | Holding (content : bytes)
  | HoldingIfThere (content : bytes).

Inductive file_save : Type :=
  | FileSaved (content : bytes)
  | FileRaises (remains : left_behind) (msg : pystr).

Record Image : Type := {
  save_file : file_save;
  save_buffer : pyresult bytes
}.

Record Data : Type := {
  name : option pystr;
  export : pyresult exported;
  image : pyresult Image
}.

Record ObjectReader : Type := {
  type_name : pystr;
  path_id : Z;
  read : pyresult Data
}.

(** The dictionaries appended to [mesh_data] and [texture_data]. *)

Record asset : Type := {
  asset_name : pystr;
  asset_filename : pystr;
  asset_data : pystr;
  asset_original_name : pystr
}.

(** The state the three loops act on: the two lists, the two output
    folders (file name to content) and what was printed so far, one
    text for each call of [print]. *)

Record state : Type := {
  mesh_data : list asset;
  texture_data : list asset;
  OUTPUT_GEO : gmap pystr bytes;
  OUTPUT_TEX : gmap pystr bytes;
  stdout : list pystr
}.

(** [print(line)] on a console that accepts the line: the line joins
    the output. *)

Definition print (line : pystr) (st : state) : state :=
  {| mesh_data := mesh_data st; texture_data := texture_data st;
     OUTPUT_GEO := OUTPUT_GEO st; OUTPUT_TEX := OUTPUT_TEX st;
     stdout := stdout st ++ [line] |}.

Definition log (msg : pystr) (st : state) : state :=
  print (u"[INFO] " ++ msg) st.

Definition warn (msg : pystr) (st : state) : state :=
  print (u"[WARN] " ++ msg) st.

Definition write_geo (file : pystr) (content : bytes) (st : state) : state :=
  {| mesh_data := mesh_data st; texture_data := texture_data st;
     OUTPUT_GEO := <[file := content]> (OUTPUT_GEO st); OUTPUT_TEX := OUTPUT_TEX st;
     stdout := stdout st |}.

Definition write_tex (file : pystr) (content : bytes) (st : state) : state :=
  {| mesh_data := mesh_data st; texture_data := texture_data st;
     OUTPUT_GEO := OUTPUT_GEO st; OUTPUT_TEX := <[file := content]> (OUTPUT_TEX st);
     stdout := stdout st |}.

(** What a failed save leaves under the name of its file, [before]
    being what was there, and the folder after it. *)

Definition leave (remains : left_behind) (before : option bytes) : option bytes :=
  match remains with
  | Untouched => before
  | Holding content => Some content
  | HoldingIfThere content =>
      match before with
      | Some _ => Some content
      | None => None
      end
  end.

Definition fail_tex (file : pystr) (remains : left_behind) (st : state) : state :=
  {| mesh_data := mesh_data st; texture_data := texture_data st;
     OUTPUT_GEO := OUTPUT_GEO st;
     OUTPUT_TEX := partial_alter (leave remains) file (OUTPUT_TEX st);
     stdout := stdout st |}.

Definition append_mesh (a : asset) (st : state) : state :=
  {| mesh_data := mesh_data st ++ [a]; texture_data := texture_data st;
     OUTPUT_GEO := OUTPUT_GEO st; OUTPUT_TEX := OUTPUT_TEX st;
     stdout := stdout st |}.

Definition append_texture (a : asset) (st : state) : state :=
  {| mesh_data := mesh_data st; texture_data := texture_data st ++ [a];
     OUTPUT_GEO := OUTPUT_GEO st; OUTPUT_TEX := OUTPUT_TEX st;
     stdout := stdout st |}.

Fixpoint str_eqb (a b : pystr) : bool :=
  match a, b with
  | [], [] => true
  | x :: a', y :: b' => (x =? y) && str_eqb a' b'
  | _, _ => false
  end.

(** [data.name if hasattr(data, 'name') and data.name else fallback] *)

Definition name_or (data : Data) (fallback : pystr) : pystr :=
  match name data with
  | Some (c :: n) => c :: n
  | Some [] | None => fallback
  end.

(** [obj_data and len(obj_data) > 0] *)

Definition nonempty_export (obj_data : exported) : bool :=
  match obj_data with
  | ExpStr (_ :: _) | ExpBytes (_ :: _) => true
  | _ => false
  end.

Definition len_str {A} (l : list A) : pystr :=
  str_of_int (Z.of_nat (length l)).

Section Script.

Set Default Proof Using "Type".

(** The character database beyond ASCII: alphanumeric code points,
    white space code points, and the lower-case expansion of a code
    point, which may depend on the text before and after it. *)

Variable uni_isalnum : N -> bool.
Variable uni_isspace : N -> bool.
Variable uni_lower : pystr -> N -> pystr -> pystr.

Definition isalnum (c : N) : bool :=
  if c <? 128 then ascii_isalnum c else uni_isalnum c.

Definition isspace (c : N) : bool :=
  if c <? 128 then ascii_isspace c else uni_isspace c.

(** [str.strip()]: the index moves in from the left, then from the right. *)

Definition strip (s : pystr) : pystr :=
  rstrip_with isspace (lstrip_with isspace s).

(** [str.lower()], [before] holding the code points already passed,
    nearest first. *)

Fixpoint lower_from (before s : pystr) : pystr :=
  match s with
  | [] => []
  | c :: r =>
      (if c <? 128 then [ascii_lower c] else uni_lower before c r)
        ++ lower_from (c :: before) r
  end.

Definition lower (s : pystr) : pystr := lower_from [] s.

(** ** Name sanitisation (lines 68-70, 115-117, 156-158)

    [c.isalnum() or c in (' ', '-', '_')] *)

Definition keep (c : N) : bool :=
  isalnum c || (c =? 32) || (c =? 45) || (c =? 95).

(** The three loops hold the same two statements and differ in the
    f-string assigned when the cleaned name is empty. *)

Definition sanitize (name fallback : pystr) : pystr :=
  let name_clean := strip (List.filter keep name) in
  match name_clean with
  | [] => fallback
  | _ :: _ => name_clean
  end.

(** ** categorize_mesh (lines 197-210) *)

Definition hilt_keywords : list pystr :=
  [u"hilt"; u"handle"; u"grip"; u"guard"; u"pommel"; u"emitter"].

Definition blade_keywords : list pystr :=
  [u"blade"; u"beam"; u"glow"; u"laser"].

Definition categorize_mesh (name : pystr) : pystr :=
  let name_lower := lower name in
  if existsb (fun k => contains k name_lower) hilt_keywords then u"hilt"
  else if existsb (fun k => contains k name_lower) blade_keywords then u"blade"
  else u"hilt".


(** ** The extraction loops (lines 56-184) *)

(** The text of the [UnicodeEncodeError] raised for a string that has
    no UTF-8 encoding. *)

Variable utf8_error : pystr -> pystr.

Definition encode_utf8 (s : pystr) : pyresult bytes :=
  match utf8 s with
  | Some b => Returns b
  | None => Raises (utf8_error s)
  end.

(** [obj_data.encode('utf-8') if isinstance(obj_data, str) else obj_data] *)

Definition to_bytes (obj_data : exported) : pyresult bytes :=
  match obj_data with
  | ExpStr s => encode_utf8 s
  | ExpBytes b => Returns b
  | ExpFalse => Returns []
  end.

(** Line 65 and lines 68-70. *)

Definition mesh_name (obj : ObjectReader) (data : Data) : pystr :=
  name_or data (u"mesh_" ++ str_of_int (path_id obj)).

Definition mesh_name_clean (obj : ObjectReader) (data : Data) : pystr :=
  sanitize (mesh_name obj data) (u"mesh_" ++ str_of_int (path_id obj)).

(** Lines 89-94: the record appended for a mesh. *)

Definition mesh_asset (obj : ObjectReader) (data : Data) (obj_bytes : bytes) : asset :=
  {| asset_name := mesh_name_clean obj data;
     asset_filename := mesh_name_clean obj data ++ u".obj";
     asset_data := b64encode obj_bytes;
     asset_original_name := mesh_name obj data |}.

Definition mesh_body (obj : ObjectReader) (st : state) : state :=
  match read obj with
  | Raises e => warn (u"Failed to process mesh object: " ++ e) st
  | Returns data =>
      match export data with
      | Raises export_err =>
          warn (u"Failed to export mesh '" ++ mesh_name_clean obj data ++ u"': "
                  ++ export_err) st
      | Returns obj_data =>
          if nonempty_export obj_data then
            match to_bytes obj_data with
            | Raises export_err =>
                warn (u"Failed to export mesh '" ++ mesh_name_clean obj data ++ u"': "
                        ++ export_err) st
            | Returns obj_bytes =>
                let st := write_geo (mesh_name_clean obj data ++ u".obj") obj_bytes st in
                let st := append_mesh (mesh_asset obj data obj_bytes) st in
                log (u"Extracted mesh: " ++ mesh_name_clean obj data ++ u".obj ("
                       ++ len_str obj_bytes ++ u" bytes)") st
            end
          else warn (u"Empty mesh export for: " ++ mesh_name_clean obj data) st
      end
  end.

Definition mesh_step (st : state) (obj : ObjectReader) : state :=
  if str_eqb (type_name obj) (u"Mesh") then mesh_body obj st else st.

Definition extract_meshes (objects : list ObjectReader) (st : state) : state :=
  fold_left mesh_step objects st.

(** The texture loop and the sprite loop are the same text up to the
    word ["texture"] or ["sprite"], which names the fallback and the
    messages, and the type tag tested. *)

(** Lines 112 and 115-117, and 153 and 156-158. *)

Definition tex_name (word : pystr) (obj : ObjectReader) (data : Data) : pystr :=
  name_or data (word ++ u"_" ++ str_of_int (path_id obj)).

Definition tex_name_clean (word : pystr) (obj : ObjectReader) (data : Data) : pystr :=
  sanitize (tex_name word obj data) (word ++ u"_" ++ str_of_int (path_id obj)).

(** Lines 133-138 and 174-179: the record appended for an image. *)

Definition image_asset (word : pystr) (obj : ObjectReader) (data : Data) (png : bytes)
    : asset :=
  {| asset_name := tex_name_clean word obj data;
     asset_filename := tex_name_clean word obj data ++ u".png";
     asset_data := b64encode png;
     asset_original_name := tex_name word obj data |}.

Definition image_body (word : pystr) (obj : ObjectReader) (st : state) : state :=
  match read obj with
  | Raises e => warn (u"Failed to process " ++ word ++ u" object: " ++ e) st
  | Returns data =>
      let failed export_err :=
        warn (u"Failed to export " ++ word ++ u" '" ++ tex_name_clean word obj data
                ++ u"': " ++ export_err) in
      let tex_file := tex_name_clean word obj data ++ u".png" in
      match image data with
      | Raises export_err => failed export_err st
      | Returns img =>
          match save_file img with
          | FileRaises remains export_err =>
              failed export_err (fail_tex tex_file remains st)
          | FileSaved content =>
              let st := write_tex tex_file content st in
              match save_buffer img with
              | Raises export_err => failed export_err st
              | Returns png =>
                  let st := append_texture (image_asset word obj data png) st in
                  log (u"Extracted " ++ word ++ u": " ++ tex_name_clean word obj data
                         ++ u".png (" ++ len_str png ++ u" bytes)") st
              end
          end
      end
  end.

Definition texture_step (st : state) (obj : ObjectReader) : state :=
  if str_eqb (type_name obj) (u"Texture2D") then image_body (u"texture") obj st else st.

Definition sprite_step (st : state) (obj : ObjectReader) : state :=
  if str_eqb (type_name obj) (u"Sprite") then image_body (u"sprite") obj st else st.

Definition extract_textures (objects : list ObjectReader) (st : state) : state :=
  fold_left texture_step objects st.

Definition extract_sprites (objects : list ObjectReader) (st : state) : state :=
  fold_left sprite_step objects st.

(** Lines 58-190: the three passes and the summary. *)

Definition passes (objects : list ObjectReader)
    (geo tex : gmap pystr bytes) (out : list pystr) : state :=
  let st := {| mesh_data := []; texture_data := [];
               OUTPUT_GEO := geo; OUTPUT_TEX := tex; stdout := out |} in
  let st := log (u"Extracting meshes...") st in
  let st := extract_meshes objects st in
  let st := log (u"Extracting textures...") st in
  let st := extract_textures objects st in
  let st := log (u"Extracting sprites (if any)...") st in
  let st := extract_sprites objects st in
  let st := log ([10] ++ u"Extraction complete:") st in
  let st := log (u"  Meshes: " ++ len_str (mesh_data st)) st in
  log (u"  Textures: " ++ len_str (texture_data st)) st.

(** Lines 192-193. *)

Definition extraction (objects : list ObjectReader)
    (geo tex : gmap pystr bytes) (out : list pystr) : state :=
  let st := passes objects geo tex out in
  match mesh_data st with
  | [] => warn (u"Warning: No meshes extracted. Preset will be empty.") st
  | _ :: _ => st
  end.

(** ** The loops when [print] raises

    [print] raises when standard output cannot encode the line, and
    then writes nothing of it.  Whether the console accepts a line, and
    the text of the exception it raises otherwise, are variables.  In
    the body of a loop the exception is handled like any other: raised
    by the report of an extraction or by the warning of an empty
    export, it goes to the inner handler; raised by the warning of the
    inner handler, it goes to the outer handler; raised by the warning
    of the outer handler, it leaves the loop and ends the script.  The
    definitions above are these with a console that accepts every
    line. *)

Variable stdout_accepts : pystr -> bool.
Variable print_error : pystr -> pystr.

Definition print_to (line : pystr) (st : state) : pyresult state :=
  if stdout_accepts line then Returns (print line st) else Raises (print_error line).

(** Where the body of a loop leaves the script: at the next object, or
    with an exception that no handler caught. *)

Inductive progress : Type :=
  | Continues (st : state)
  | Uncaught (st : state) (raised : pystr).

Definition state_of (p : progress) : state :=
  match p with
  | Continues st => st
  | Uncaught st _ => st
  end.

(** Lines 100-101, 142-143 and 183-184: the outer handler. *)

Definition process_handler (word e : pystr) (st : state) : progress :=
  match print_to (u"[WARN] " ++ u"Failed to process " ++ word ++ u" object: " ++ e) st with
  | Returns st => Continues st
  | Raises raised => Uncaught st raised
  end.

(** Lines 98-99, 140-141 and 181-182: the inner handler. *)

Definition export_handler (word name_clean export_err : pystr) (st : state) : progress :=
  match print_to (u"[WARN] " ++ u"Failed to export " ++ word ++ u" '" ++ name_clean
                    ++ u"': " ++ export_err) st with
  | Returns st => Continues st
  | Raises raised => process_handler word raised st
  end.

(** A line printed inside the inner [try] (lines 95, 97, 139 and 180). *)

Definition reported (word name_clean line : pystr) (st : state) : progress :=
  match print_to line st with
  | Returns st => Continues st
  | Raises raised => export_handler word name_clean raised st
  end.

Definition mesh_body_on (obj : ObjectReader) (st : state) : progress :=
  match read obj with
  | Raises e => process_handler (u"mesh") e st
  | Returns data =>
      match export data with
      | Raises export_err =>
          export_handler (u"mesh") (mesh_name_clean obj data) export_err st
      | Returns obj_data =>
          if nonempty_export obj_data then
            match to_bytes obj_data with
            | Raises export_err =>
                export_handler (u"mesh") (mesh_name_clean obj data) export_err st
            | Returns obj_bytes =>
                let st := write_geo (mesh_name_clean obj data ++ u".obj") obj_bytes st in
                let st := append_mesh (mesh_asset obj data obj_bytes) st in
                reported (u"mesh") (mesh_name_clean obj data)
                  (u"[INFO] " ++ u"Extracted mesh: " ++ mesh_name_clean obj data ++ u".obj ("
                     ++ len_str obj_bytes ++ u" bytes)") st
            end
          else
            reported (u"mesh") (mesh_name_clean obj data)
              (u"[WARN] " ++ u"Empty mesh export for: " ++ mesh_name_clean obj data) st
      end
  end.

Definition image_body_on (word : pystr) (obj : ObjectReader) (st : state) : progress :=
  match read obj with
  | Raises e => process_handler word e st
  | Returns data =>
      let tex_file := tex_name_clean word obj data ++ u".png" in
      match image data with
      | Raises export_err =>
          export_handler word (tex_name_clean word obj data) export_err st
      | Returns img =>
          match save_file img with
          | FileRaises remains export_err =>
              export_handler word (tex_name_clean word obj data) export_err
                (fail_tex tex_file remains st)
          | FileSaved content =>
              let st := write_tex tex_file content st in
              match save_buffer img with
              | Raises export_err =>
                  export_handler word (tex_name_clean word obj data) export_err st
              | Returns png =>
                  let st := append_texture (image_asset word obj data png) st in
                  reported word (tex_name_clean word obj data)
                    (u"[INFO] " ++ u"Extracted " ++ word ++ u": "
                       ++ tex_name_clean word obj data ++ u".png (" ++ len_str png
                       ++ u" bytes)") st
              end
          end
      end
  end.

Definition mesh_step_on (st : state) (obj : ObjectReader) : progress :=
  if str_eqb (type_name obj) (u"Mesh") then mesh_body_on obj st else Continues st.

Definition texture_step_on (st : state) (obj : ObjectReader) : progress :=
  if str_eqb (type_name obj) (u"Texture2D") then image_body_on (u"texture") obj st
  else Continues st.

Definition sprite_step_on (st : state) (obj : ObjectReader) : progress :=
  if str_eqb (type_name obj) (u"Sprite") then image_body_on (u"sprite") obj st
  else Continues st.

(** A loop: the objects in order, until an exception is not caught. *)

Fixpoint pass_on (step : state -> ObjectReader -> progress)
    (objects : list ObjectReader) (st : state) : progress :=
  match objects with
  | [] => Continues st
  | obj :: rest =>
      match step st obj with
      | Continues st => pass_on step rest st
      | Uncaught st raised => Uncaught st raised
      end
  end.

(** ** JSON values

    The preset is a tree of dictionaries, lists and scalars.  A
    dictionary keeps its keys in insertion order.  The floating point
    numbers of the script are constants of the template and are only
    ever written out; they are kept as the decimals of the source. *)

Inductive json : Type :=
  | JBool (b : bool)
  | JInt (z : Z)
  | JFloat (q : Q)
  | JStr (s : pystr)
  | JList (l : list json)
  | JDict (d : list (pystr * json)).

(** [d[k]] *)

Fixpoint getitem (k : pystr) (d : list (pystr * json)) : option json :=
  match d with
  | [] => None
  | (k', v) :: d' => if str_eqb k' k then Some v else getitem k d'
  end.

Definition get (k : pystr) (j : json) : option json :=
  match j with
  | JDict d => getitem k d
  | _ => None
  end.

Definition items (j : json) : list json :=
  match j with
  | JList l => l
  | _ => []
  end.

(** [j[k1][k2]...[kn].append(x)], in place: the tree with that list
    extended. *)

Fixpoint update_item (k : pystr) (f : json -> json) (d : list (pystr * json))
    : list (pystr * json) :=
  match d with
  | [] => []
  | (k', v) :: d' =>
      if str_eqb k' k then (k', f v) :: d' else (k', v) :: update_item k f d'
  end.

Fixpoint append_at (path : list pystr) (x : json) (j : json) : json :=
  match path with
  | [] =>
      match j with
      | JList l => JList (l ++ [x])
      | _ => j
      end
  | k :: path' =>
      match j with
      | JDict d => JDict (update_item k (append_at path' x) d)
      | _ => j
      end
  end.

(** ** The preset (lines 215-473) *)

(** [texture_data[0]["filename"] if texture_data else ""] *)

Definition trail_texture_of (texture_data : list asset) : pystr :=
  match texture_data with
  | texture :: _ => asset_filename texture
  | [] => u""
  end.

(** Lines 217-233. *)

Definition preset_template : json :=
  JDict [
    (u"ModVersion", JStr (u"0.3.17"));
    (u"Version", JInt 1);
    (u"RootSettings", JDict [
      (u"Type", JInt 0)]);
    (u"LocalTransform", JDict [
      (u"Position", JDict [(u"x", JFloat 0.0); (u"y", JFloat 0.0); (u"z", JFloat 0.0)]);
      (u"Rotation", JDict [(u"x", JFloat 0.0); (u"y", JFloat 0.0); (u"z", JFloat 0.0)]);
      (u"Scale", JDict [(u"x", JFloat 1.0); (u"y", JFloat 1.0); (u"z", JFloat 1.0)])]);
    (u"Modules", JList []);
    (u"BinaryAssets", JDict [
      (u"Textures", JList []);
      (u"Geometry", JList [])])].

(** Lines 236-357: the dictionary appended first. *)

Definition trail_module (trail_texture : pystr) : json :=
  JDict [
    (u"ModuleId", JStr (u"reezonate.simple-trail"));
    (u"Version", JInt 1);
    (u"Config", JDict [
      (u"MeshSettings", JDict [
        (u"TrailLength", JFloat 0.3);
        (u"HorizontalResolution", JInt 4);
        (u"VerticalResolution", JInt 60)]);
      (u"MaterialSettings", JDict [
        (u"trailType", JInt 0);
        (u"materialType", JInt 0);
        (u"mappingType", JInt 0);
        (u"offset", JFloat 1.0);
        (u"width", JFloat 0.03);
        (u"distortionMultiplier", JFloat 1.0);
        (u"generalSettings", JDict [
          (u"customTextureId", JStr trail_texture);
          (u"opacityTextureId", JStr trail_texture);
          (u"animationLayout", JDict [
            (u"totalFrames", JInt 1);
            (u"framesPerRow", JInt 1);
            (u"framesPerColumn", JInt 1);
            (u"frameDuration", JFloat 1.0)]);
          (u"tilingLayout",
              JDict [(u"x", JFloat 1.0); (u"y", JFloat 1.0); (u"z", JFloat 0.0); (u"w", JFloat 0.0)]);
          (u"uvScroll", JDict [(u"x", JFloat 0.0); (u"y", JFloat 0.0)]);
          (u"blendingMode", JInt 0);
          (u"alwaysOnTop", JBool false);
          (u"renderQueue", JInt 3000)]);
        (u"maskSettings", JDict [
          (u"mainMaskResolution", JInt 128);
          (u"driversMaskResolution", JInt 32);
          (u"lengthMappings", JDict [
            (u"colorOverValue", JDict [
              (u"interpolationType", JInt 0);
              (u"controlPoints", JList [JDict [(u"time", JFloat 0.0);
                  (u"value", JDict [(u"r", JFloat 1.0); (u"g", JFloat 1.0); (u"b", JFloat 1.0); (u"a", JFloat 1.0)])]])]);
            (u"alphaOverValue", JDict [
              (u"interpolationType", JInt 0);
              (u"controlPoints", JList [JDict [(u"time", JFloat 0.0); (u"value", JFloat 1.0)]])]);
            (u"scaleOverValue", JDict [
              (u"interpolationType", JInt 0);
              (u"controlPoints", JList [JDict [(u"time", JFloat 0.0); (u"value", JFloat 1.0)]])]);
            (u"valueFrom", JFloat 0.0);
            (u"valueTo", JFloat 1.0)]);
          (u"widthMappings", JDict [
            (u"colorOverValue", JDict [
              (u"interpolationType", JInt 0);
              (u"controlPoints", JList [JDict [(u"time", JFloat 0.0);
                  (u"value", JDict [(u"r", JFloat 1.0); (u"g", JFloat 1.0); (u"b", JFloat 1.0); (u"a", JFloat 1.0)])]])]);
            (u"alphaOverValue", JDict [
              (u"interpolationType", JInt 0);
              (u"controlPoints", JList [JDict [(u"time", JFloat 0.0); (u"value", JFloat 1.0)]])]);
            (u"scaleOverValue", JDict [
              (u"interpolationType", JInt 0);
              (u"controlPoints", JList [JDict [(u"time", JFloat 0.0); (u"value", JFloat 1.0)]])]);
            (u"valueFrom", JFloat 0.0);
            (u"valueTo", JFloat 1.0)]);
          (u"driversSampleMode", JInt 0);
          (u"viewingAngleMappings", JDict [
            (u"colorOverValue", JDict [
              (u"interpolationType", JInt 0);
              (u"controlPoints", JList [JDict [(u"time", JFloat 0.0);
                  (u"value", JDict [(u"r", JFloat 1.0); (u"g", JFloat 1.0); (u"b", JFloat 1.0); (u"a", JFloat 1.0)])]])]);
            (u"alphaOverValue", JDict [
              (u"interpolationType", JInt 0);
              (u"controlPoints", JList [JDict [(u"time", JFloat 0.0); (u"value", JFloat 1.0)]])]);
            (u"scaleOverValue", JDict [
              (u"interpolationType", JInt 0);
              (u"controlPoints", JList [JDict [(u"time", JFloat 0.0); (u"value", JFloat 1.0)]])]);
            (u"valueFrom", JFloat 0.0);
            (u"valueTo", JFloat 1.0)]);
          (u"surfaceAngleMappings", JDict [
            (u"colorOverValue", JDict [
              (u"interpolationType", JInt 0);
              (u"controlPoints", JList [JDict [(u"time", JFloat 0.0);
                  (u"value", JDict [(u"r", JFloat 1.0); (u"g", JFloat 1.0); (u"b", JFloat 1.0); (u"a", JFloat 1.0)])]])]);
            (u"alphaOverValue", JDict [
              (u"interpolationType", JInt 0);
              (u"controlPoints", JList [JDict [(u"time", JFloat 0.0); (u"value", JFloat 1.0)]])]);
            (u"scaleOverValue", JDict [
              (u"interpolationType", JInt 0);
              (u"controlPoints", JList [JDict [(u"time", JFloat 0.0); (u"value", JFloat 1.0)]])]);
            (u"valueFrom", JFloat 0.0);
            (u"valueTo", JFloat 1.0)]);
          (u"drivers", JList [])])]);
      (u"Enabled", JBool true);
      (u"Name", JStr (u"Trail"));
      (u"LocalTransform", JDict [
        (u"Position", JDict [(u"x", JFloat 0.0); (u"y", JFloat 0.0); (u"z", JFloat 0.0)]);
        (u"Rotation", JDict [(u"x", JFloat 0.0); (u"y", JFloat 0.0); (u"z", JFloat 0.0)]);
        (u"Scale", JDict [(u"x", JFloat 1.0); (u"y", JFloat 1.0); (u"z", JFloat 1.0)])]);
      (u"ForceColorOverride", JBool false);
      (u"ColorOverride", JDict [
        (u"type", JInt 0);
        (u"hue", JFloat 0.0);
        (u"saturation", JFloat 1.0);
        (u"value", JFloat 1.0);
        (u"hueShiftPerSecond", JFloat 0.0);
        (u"fakeGlowMultiplier", JFloat 1.0);
        (u"colorSource", JInt 0)])]);
    (u"Children", JList [])].

(** Lines 361-456. *)

Definition custom_model_module (mesh : asset) : json :=
  JDict [
    (u"ModuleId", JStr (u"reezonate.custom-model"));
    (u"Version", JInt 1);
    (u"Config", JDict [
      (u"MeshSettings", JDict [
        (u"modelId", JStr (asset_filename mesh));
        (u"scale", JFloat 1.0);
        (u"flipNormals", JBool false);
        (u"mirrorX", JBool false);
        (u"mirrorY", JBool false);
        (u"mirrorZ", JBool false)]);
      (u"MaterialSettings", JDict [
        (u"color", JDict [(u"r", JFloat 1.0); (u"g", JFloat 1.0); (u"b", JFloat 1.0); (u"a", JFloat 1.0)]);
        (u"reflectionColor", JDict [(u"r", JFloat 1.0); (u"g", JFloat 1.0); (u"b", JFloat 1.0); (u"a", JFloat 1.0)]);
        (u"envLightColor", JDict [(u"r", JFloat 1.0); (u"g", JFloat 1.0); (u"b", JFloat 1.0); (u"a", JFloat 1.0)]);
        (u"opacity", JFloat 1.0);
        (u"fresnelPower", JFloat 5.0);
        (u"metallic", JFloat 0.0);
        (u"roughness", JFloat 0.0);
        (u"envLightIntensity", JFloat 1.0);
        (u"reflectionIntensity", JFloat 1.0);
        (u"normalMapIntensity", JFloat 1.0);
        (u"sceneReflections", JBool false);
        (u"sceneLights", JBool false);
        (u"renderQueue", JInt 2990);
        (u"cullMode", JInt 0);
        (u"depthWrite", JBool true);
        (u"maskSettings", JDict [
          (u"driversMaskResolution", JInt 32);
          (u"driversSampleMode", JInt 0);
          (u"viewingAngleMappings", JDict [
            (u"colorOverValue", JDict [
              (u"interpolationType", JInt 0);
              (u"controlPoints", JList [JDict [(u"time", JFloat 0.0);
                  (u"value", JDict [(u"r", JFloat 1.0); (u"g", JFloat 1.0); (u"b", JFloat 1.0); (u"a", JFloat 1.0)])]])]);
            (u"alphaOverValue", JDict [
              (u"interpolationType", JInt 0);
              (u"controlPoints", JList [JDict [(u"time", JFloat 0.0); (u"value", JFloat 1.0)]])]);
            (u"scaleOverValue", JDict [
              (u"interpolationType", JInt 0);
              (u"controlPoints", JList [JDict [(u"time", JFloat 0.0); (u"value", JFloat 1.0)]])]);
            (u"valueFrom", JFloat 0.0);
            (u"valueTo", JFloat 1.0)]);
          (u"surfaceAngleMappings", JDict [
            (u"colorOverValue", JDict [
              (u"interpolationType", JInt 0);
              (u"controlPoints", JList [JDict [(u"time", JFloat 0.0);
                  (u"value", JDict [(u"r", JFloat 1.0); (u"g", JFloat 1.0); (u"b", JFloat 1.0); (u"a", JFloat 1.0)])]])]);
            (u"alphaOverValue", JDict [
              (u"interpolationType", JInt 0);
              (u"controlPoints", JList [JDict [(u"time", JFloat 0.0); (u"value", JFloat 1.0)]])]);
            (u"scaleOverValue", JDict [
              (u"interpolationType", JInt 0);
              (u"controlPoints", JList [JDict [(u"time", JFloat 0.0); (u"value", JFloat 1.0)]])]);
            (u"valueFrom", JFloat 0.0);
            (u"valueTo", JFloat 1.0)]);
          (u"drivers", JList [])])]);
      (u"TexturesSettings", JDict [
        (u"animationLayout", JDict [
          (u"totalFrames", JInt 1);
          (u"framesPerRow", JInt 1);
          (u"framesPerColumn", JInt 1);
          (u"frameDuration", JFloat 1.0)]);
        (u"tilingLayout",
            JDict [(u"x", JFloat 1.0); (u"y", JFloat 1.0); (u"z", JFloat 0.0); (u"w", JFloat 0.0)]);
        (u"uvScroll", JDict [(u"x", JFloat 0.0); (u"y", JFloat 0.0)])]);
      (u"Enabled", JBool true);
      (u"Name", JStr (u"Custom Model"));
      (u"LocalTransform", JDict [
        (u"Position", JDict [(u"x", JFloat 0.0); (u"y", JFloat 0.0); (u"z", JFloat 0.0)]);
        (u"Rotation", JDict [(u"x", JFloat 0.0); (u"y", JFloat 0.0); (u"z", JFloat 0.0)]);
        (u"Scale", JDict [(u"x", JFloat 1.0); (u"y", JFloat 1.0); (u"z", JFloat 1.0)])]);
      (u"ForceColorOverride", JBool false);
      (u"ColorOverride", JDict [
        (u"type", JInt 0);
        (u"hue", JFloat 0.0);
        (u"saturation", JFloat 1.0);
        (u"value", JFloat 1.0);
        (u"hueShiftPerSecond", JFloat 0.0);
        (u"fakeGlowMultiplier", JFloat 1.0);
        (u"colorSource", JInt 0)])]);
    (u"Children", JList [])].

(** Lines 463-466 and 470-473. *)

Definition geometry_entry (mesh : asset) : json :=
  JDict [
    (u"AssetName", JStr (asset_filename mesh));
    (u"Data", JStr (asset_data mesh))].

Definition texture_entry (texture : asset) : json :=
  JDict [
    (u"AssetName", JStr (asset_filename texture));
    (u"Data", JStr (asset_data texture))].

(** Lines 360-466: the body of the loop over [mesh_data]. *)

Definition module_step (st : json * list pystr) (mesh : asset) : json * list pystr :=
  let '(preset, out) := st in
  let module := custom_model_module mesh in
  let preset := append_at [u"Modules"] module preset in
  let out := out ++ [u"[INFO] " ++ u"Added module for '" ++ asset_name mesh ++ u"'"] in
  let preset := append_at [u"BinaryAssets"; u"Geometry"] (geometry_entry mesh) preset in
  (preset, out).

(** Lines 469-473. *)

Definition texture_asset_step (preset : json) (texture : asset) : json :=
  append_at [u"BinaryAssets"; u"Textures"] (texture_entry texture) preset.

Definition build_preset (mesh_data texture_data : list asset) (out : list pystr)
    : json * list pystr :=
  let trail_texture := trail_texture_of texture_data in
  let preset := preset_template in
  let preset := append_at [u"Modules"] (trail_module trail_texture) preset in
  let '(preset, out) := fold_left module_step mesh_data (preset, out) in
  let preset := fold_left texture_asset_step texture_data preset in
  (preset, out).

(** ** The script as a whole

    What the script finds around it: whether UnityPy imports, the
    [*.saber] files of [input/] in the order of [glob] (file name and
    stem), what [UnityPy.load] does on a file, the content of the three
    output folders before the run, and whether writing the preset
    fails.  The preset file is represented by the value handed to
    [json.dump] when the dump is complete.  Writing it fails in
    [open(preset_file, "w")], before the file is touched, or in
    [json.dump], after [open] has created or emptied the file. *)

Record Path : Type := {
  file_name : pystr;
  stem : pystr
}.

Inductive json_file : Type :=
  | Dumped (preset : json)
  | Unfinished.

Inductive dump_failure : Type :=
  | OpenRaises (msg : pystr)
  | DumpRaises (msg : pystr).

Record world : Type := {
  unitypy_installed : bool;
  saber_files : list Path;
  load : Path -> pyresult (list ObjectReader);
  geometry_before : gmap pystr bytes;
  textures_before : gmap pystr bytes;
  presets_before : gmap pystr json_file;
  dump_error : option dump_failure
}.

Record outcome : Type := {
  exit_status : Z;
  printed : list pystr;
  CustomGeometry : gmap pystr bytes;
  CustomTextures : gmap pystr bytes;
  Presets : gmap pystr json_file
}.

(** [error(msg)]: one line, then [sys.exit(1)]. *)

Definition error (msg : pystr) (out : list pystr)
    (geo tex : gmap pystr bytes) (presets : gmap pystr json_file) : outcome :=
  {| exit_status := 1; printed := out ++ [u"[ERROR] " ++ msg];
     CustomGeometry := geo; CustomTextures := tex; Presets := presets |}.

(** Lines 480-492. *)

Definition closing_lines (preset_file : pystr) (mesh_data texture_data : list asset)
    : list pystr :=
  List.map (fun msg => u"[INFO] " ++ msg)
    [ [10] ++ u"Preset generated: " ++ preset_file;
      [10; 9989] ++ u" Conversion complete!";
      u"Preset file: " ++ preset_file;
      [10] ++ u"Copy the entire '" ++ u"output" ++ u"/' folder to:";
      u"  Beat Saber/UserData/ReeSabers/";
      [10] ++ u"Extracted:";
      u"  - " ++ len_str mesh_data ++ u" mesh(es) " ++ [8594] ++ u" CustomGeometry/";
      u"  - " ++ len_str texture_data ++ u" texture(s) " ++ [8594] ++ u" CustomTextures/";
      u"  - 1 preset " ++ [8594] ++ u" Presets/";
      [10] ++ u"Note: Adjust positions, rotations, scales, and materials "
        ++ u"in-game as needed." ].

Definition run (w : world) : outcome :=
  let geo := geometry_before w in
  let tex := textures_before w in
  let presets := presets_before w in
  if negb (unitypy_installed w) then
    error (u"UnityPy not installed. Run: pip install UnityPy") [] geo tex presets
  else
  match saber_files w with
  | [] =>
      error (u"No .saber file found in input/ folder. Place your .saber file there.")
        [] geo tex presets
  | saber_file :: _ =>
      let saber_name := stem saber_file in
      let out := [u"[INFO] " ++ u"Found .saber file: " ++ file_name saber_file] in
      let out := out ++ [u"[INFO] " ++ u"Loading AssetBundle..."] in
      match load w saber_file with
      | Raises e => error (u"Failed to load .saber file: " ++ e) out geo tex presets
      | Returns objects =>
          let st := extraction objects geo tex out in
          let '(preset, out) := build_preset (mesh_data st) (texture_data st) (stdout st) in
          let geo := OUTPUT_GEO st in
          let tex := OUTPUT_TEX st in
          let preset_file := u"output/Presets/" ++ saber_name ++ u".json" in
          match dump_error w with
          | Some (OpenRaises e) =>
              error (u"Failed to write preset: " ++ e) out geo tex presets
          | Some (DumpRaises e) =>
              let presets := <[saber_name ++ u".json" := Unfinished]> presets in
              error (u"Failed to write preset: " ++ e) out geo tex presets
          | None =>
              let presets := <[saber_name ++ u".json" := Dumped preset]> presets in
              let out := out ++ closing_lines preset_file (mesh_data st) (texture_data st) in
              {| exit_status := 0; printed := out;
                 CustomGeometry := geo; CustomTextures := tex; Presets := presets |}
          end
      end
  end.

(** ** The script when [print] raises

    Outside the loops no handler encloses a call of [log], [warn] or
    [error]: an exception raised by [print] there ends the script with
    a traceback and status 1, the line not printed.  The one exception
    is the report of line 480, inside the [try] of the preset file: the
    handler of line 481 turns it into [error], after the file is
    written. *)

Definition log_on (msg : pystr) (st : state) : progress :=
  match print_to (u"[INFO] " ++ msg) st with
  | Returns st => Continues st
  | Raises raised => Uncaught st raised
  end.

Definition warn_on (msg : pystr) (st : state) : progress :=
  match print_to (u"[WARN] " ++ msg) st with
  | Returns st => Continues st
  | Raises raised => Uncaught st raised
  end.

Definition and_then (p : progress) (next : state -> progress) : progress :=
  match p with
  | Continues st => next st
  | Uncaught st raised => Uncaught st raised
  end.

Fixpoint logs_on (msgs : list pystr) (st : state) : progress :=
  match msgs with
  | [] => Continues st
  | msg :: rest => and_then (log_on msg st) (logs_on rest)
  end.

(** Lines 58-190. *)

Definition passes_on (objects : list ObjectReader)
    (geo tex : gmap pystr bytes) (out : list pystr) : progress :=
  let st := {| mesh_data := []; texture_data := [];
               OUTPUT_GEO := geo; OUTPUT_TEX := tex; stdout := out |} in
  and_then (log_on (u"Extracting meshes...") st) (fun st =>
  and_then (pass_on mesh_step_on objects st) (fun st =>
  and_then (log_on (u"Extracting textures...") st) (fun st =>
  and_then (pass_on texture_step_on objects st) (fun st =>
  and_then (log_on (u"Extracting sprites (if any)...") st) (fun st =>
  and_then (pass_on sprite_step_on objects st) (fun st =>
  and_then (log_on ([10] ++ u"Extraction complete:") st) (fun st =>
  and_then (log_on (u"  Meshes: " ++ len_str (mesh_data st)) st) (fun st =>
  log_on (u"  Textures: " ++ len_str (texture_data st)) st)))))))).

(** Lines 192-193. *)

Definition extraction_on (objects : list ObjectReader)
    (geo tex : gmap pystr bytes) (out : list pystr) : progress :=
  and_then (passes_on objects geo tex out) (fun st =>
    match mesh_data st with
    | [] => warn_on (u"Warning: No meshes extracted. Preset will be empty.") st
    | _ :: _ => Continues st
    end).

(** Line 460, for each mesh of [mesh_data]. *)

Definition modules_on (mesh_data : list asset) (st : state) : progress :=
  logs_on (List.map (fun mesh => u"Added module for '" ++ asset_name mesh ++ u"'") mesh_data)
    st.

(** Lines 484-492. *)

Definition last_messages (preset_file : pystr) (mesh_data texture_data : list asset)
    : list pystr :=
  [ [10; 9989] ++ u" Conversion complete!";
    u"Preset file: " ++ preset_file;
    [10] ++ u"Copy the entire '" ++ u"output" ++ u"/' folder to:";
    u"  Beat Saber/UserData/ReeSabers/";
    [10] ++ u"Extracted:";
    u"  - " ++ len_str mesh_data ++ u" mesh(es) " ++ [8594] ++ u" CustomGeometry/";
    u"  - " ++ len_str texture_data ++ u" texture(s) " ++ [8594] ++ u" CustomTextures/";
    u"  - 1 preset " ++ [8594] ++ u" Presets/";
    [10] ++ u"Note: Adjust positions, rotations, scales, and materials "
      ++ u"in-game as needed." ].

(** The end of the script, with the given status, on the state reached. *)

Definition ended (status : Z) (presets : gmap pystr json_file) (st : state) : outcome :=
  {| exit_status := status; printed := stdout st;
     CustomGeometry := OUTPUT_GEO st; CustomTextures := OUTPUT_TEX st;
     Presets := presets |}.

(** [error(msg)]: the line if the console accepts it; status 1 through
    [sys.exit(1)], or through the exception [print] raises. *)

Definition error_on (msg : pystr) (presets : gmap pystr json_file) (st : state) : outcome :=
  match print_to (u"[ERROR] " ++ msg) st with
  | Returns st => ended 1 presets st
  | Raises _ => ended 1 presets st
  end.

Definition script_on (w : world) : outcome :=
  let geo := geometry_before w in
  let tex := textures_before w in
  let presets := presets_before w in
  let st := {| mesh_data := []; texture_data := [];
               OUTPUT_GEO := geo; OUTPUT_TEX := tex; stdout := [] |} in
  if negb (unitypy_installed w) then
    error_on (u"UnityPy not installed. Run: pip install UnityPy") presets st
  else
  match saber_files w with
  | [] =>
      error_on (u"No .saber file found in input/ folder. Place your .saber file there.")
        presets st
  | saber_file :: _ =>
      let saber_name := stem saber_file in
      match and_then (log_on (u"Found .saber file: " ++ file_name saber_file) st)
              (log_on (u"Loading AssetBundle...")) with
      | Uncaught st _ => ended 1 presets st
      | Continues st =>
          match load w saber_file with
          | Raises e => error_on (u"Failed to load .saber file: " ++ e) presets st
          | Returns objects =>
              match and_then (extraction_on objects geo tex (stdout st))
                      (fun st => modules_on (mesh_data st) st) with
              | Uncaught st _ => ended 1 presets st
              | Continues st =>
                  let preset := fst (build_preset (mesh_data st) (texture_data st) []) in
                  let preset_file := u"output/Presets/" ++ saber_name ++ u".json" in
                  match dump_error w with
                  | Some (OpenRaises e) =>
                      error_on (u"Failed to write preset: " ++ e) presets st
                  | Some (DumpRaises e) =>
                      let presets := <[saber_name ++ u".json" := Unfinished]> presets in
                      error_on (u"Failed to write preset: " ++ e) presets st
                  | None =>
                      let presets := <[saber_name ++ u".json" := Dumped preset]> presets in
                      match print_to (u"[INFO] " ++ [10] ++ u"Preset generated: "
                                        ++ preset_file) st with
                      | Raises e => error_on (u"Failed to write preset: " ++ e) presets st
                      | Returns st =>
                          match logs_on (last_messages preset_file (mesh_data st)
                                           (texture_data st)) st with
                          | Uncaught st _ => ended 1 presets st
                          | Continues st => ended 0 presets st
                          end
                      end
                  end
              end
          end
      end
  end.

(** * Vocabulary of the properties *)

(** Neither the first nor the last character is white space. *)

Definition no_space_ends (s : pystr) : Prop :=
  (forall c t, s = c :: t -> isspace c = false) /\
  (forall c t, s = t ++ [c] -> isspace c = false).

(** A name that [sanitize] leaves alone: kept characters only, no
    white space at either end, not empty. *)

Definition clean (s : pystr) : Prop :=
  Forall (fun c => keep c = true) s /\ no_space_ends s /\ s <> [].

(** The letters, digits, hyphen and underscore of ASCII: kept by the
    filter, and no white space. *)

Definition plain (c : N) : bool :=
  (c <? 128) && (ascii_isalnum c || (c =? 45) || (c =? 95)).

(** [s] holds the lower-case ASCII word [k] written in any mix of cases. *)

Definition contains_caseless (k s : pystr) : Prop :=
  exists pre w post, s = pre ++ w ++ post /\ List.map ascii_lower w = k.

(** The lower-cased name holds one of the keywords. *)

Definition has_keyword (kws : list pystr) (name : pystr) : Prop :=
  exists k, In k kws /\ contains k (lower name) = true.

(** What a pass gets out of one object: the decoded data and the bytes
    its record encodes, when the object has the type of the pass, is
    read, and is exported: for an image, when the image is obtained
    and both saves return. *)

Definition mesh_payload (obj : ObjectReader) : option (Data * bytes) :=
  if str_eqb (type_name obj) (u"Mesh") then
    match read obj with
    | Returns data =>
        match export data with
        | Returns obj_data =>
            if nonempty_export obj_data then
              match to_bytes obj_data with
              | Returns obj_bytes => Some (data, obj_bytes)
              | Raises _ => None
              end
            else None
        | Raises _ => None
        end
    | Raises _ => None
    end
  else None.

Definition image_payload (tag : pystr) (obj : ObjectReader) : option (Data * bytes) :=
  if str_eqb (type_name obj) tag then
    match read obj with
    | Returns data =>
        match image data with
        | Returns img =>
            match save_file img, save_buffer img with
            | FileSaved _, Returns png => Some (data, png)
            | _, _ => None
            end
        | Raises _ => None
        end
    | Raises _ => None
    end
  else None.

Definition exported_mesh (obj : ObjectReader) : option asset :=
  match mesh_payload obj with
  | Some (data, obj_bytes) => Some (mesh_asset obj data obj_bytes)
  | None => None
  end.

Definition exported_image (tag word : pystr) (obj : ObjectReader) : option asset :=
  match image_payload tag obj with
  | Some (data, png) => Some (image_asset word obj data png)
  | None => None
  end.

(** The assets of a bundle, in the order of its objects. *)

Definition meshes_of (objects : list ObjectReader) : list asset :=
  omap exported_mesh objects.

Definition textures_of (objects : list ObjectReader) : list asset :=
  omap (exported_image (u"Texture2D") (u"texture")) objects.

Definition sprites_of (objects : list ObjectReader) : list asset :=
  omap (exported_image (u"Sprite") (u"sprite")) objects.

(** The step of the texture pass and of the sprite pass, with the type
    tag and the word as arguments. *)

Definition image_step (tag word : pystr) (st : state) (obj : ObjectReader) : state :=
  if str_eqb (type_name obj) tag then image_body word obj st else st.


(** The value found under a path of keys. *)

Fixpoint get_path (path : list pystr) (j : json) : option json :=
  match path with
  | [] => Some j
  | k :: path' =>
      match get k j with
      | Some v => get_path path' v
      | None => None
      end
  end.

(** The list found under a path of keys. *)

Definition list_at (path : list pystr) (j : json) : option (list json) :=
  match get_path path j with
  | Some (JList l) => Some l
  | _ => None
  end.

(** Every value stored under the key [k], at any depth. *)

Fixpoint values_at (k : pystr) (j : json) : list json :=
  match j with
  | JList l => flat_map (values_at k) l
  | JDict d =>
      flat_map (fun kv => (if str_eqb (fst kv) k then [snd kv] else [])
                            ++ values_at k (snd kv)) d
  | _ => []
  end.

(** The template with its three lists filled in. *)

Definition preset_with (modules textures geometry : list json) : json :=
  JDict [
    (u"ModVersion", JStr (u"0.3.17"));
    (u"Version", JInt 1);
    (u"RootSettings", JDict [
      (u"Type", JInt 0)]);
    (u"LocalTransform", JDict [
      (u"Position", JDict [(u"x", JFloat 0.0); (u"y", JFloat 0.0); (u"z", JFloat 0.0)]);
      (u"Rotation", JDict [(u"x", JFloat 0.0); (u"y", JFloat 0.0); (u"z", JFloat 0.0)]);
      (u"Scale", JDict [(u"x", JFloat 1.0); (u"y", JFloat 1.0); (u"z", JFloat 1.0)])]);
    (u"Modules", JList modules);
    (u"BinaryAssets", JDict [
      (u"Textures", JList textures);
      (u"Geometry", JList geometry)])].

(** The line printed for one mesh by the loop over [mesh_data]. *)

Definition added_line (mesh : asset) : pystr :=
  u"[INFO] " ++ u"Added module for '" ++ asset_name mesh ++ u"'".

(** The preset in closed form. *)

Definition preset_of (meshes textures : list asset) : json :=
  preset_with
    (trail_module (trail_texture_of textures) :: List.map custom_model_module meshes)
    (List.map texture_entry textures)
    (List.map geometry_entry meshes).

(** A run that reaches the end: UnityPy imports, [input/] holds a
    [.saber] file, the first one loads, and the preset can be written. *)

Definition completes (w : world) (saber_file : Path) (objects : list ObjectReader) : Prop :=
  unitypy_installed w = true /\
  head (saber_files w) = Some saber_file /\
  load w saber_file = Returns objects /\
  dump_error w = None.

(** Lines 46 and 50. *)

Definition first_lines (saber_file : Path) : list pystr :=
  [u"[INFO] " ++ u"Found .saber file: " ++ file_name saber_file;
   u"[INFO] " ++ u"Loading AssetBundle..."].

(** The preset file of the run. *)

Definition produced (w : world) (saber_file : Path) : option json :=
  match Presets (run w) !! (stem saber_file ++ u".json") with
  | Some (Dumped preset) => Some preset
  | _ => None
  end.

(** What one object of a pass does to the folder and to the list of
    the pass: the name of its file, what happens to the file, and the
    bytes its record encodes if a record is appended.  A mesh that is
    exported writes its bytes and is recorded with them.  An image that
    is obtained reaches the first save: the file is written or the call
    fails; the record is appended when both saves return, with the
    bytes of the buffer. *)

Inductive effect : Type :=
  | Wrote (content : bytes)
  | Failed (remains : left_behind).

Record event : Type := {
  ev_file : pystr;
  ev_effect : effect;
  ev_encoded : option bytes
}.

Definition mesh_event (obj : ObjectReader) : option event :=
  match mesh_payload obj with
  | Some (data, obj_bytes) =>
      Some {| ev_file := mesh_name_clean obj data ++ u".obj";
              ev_effect := Wrote obj_bytes;
              ev_encoded := Some obj_bytes |}
  | None => None
  end.

Definition image_event (tag word : pystr) (obj : ObjectReader) : option event :=
  if str_eqb (type_name obj) tag then
    match read obj with
    | Returns data =>
        match image data with
        | Returns img =>
            Some {| ev_file := tex_name_clean word obj data ++ u".png";
                    ev_effect := match save_file img with
                                 | FileSaved content => Wrote content
                                 | FileRaises remains _ => Failed remains
                                 end;
                    ev_encoded := match save_file img, save_buffer img with
                                  | FileSaved _, Returns png => Some png
                                  | _, _ => None
                                  end |}
        | Raises _ => None
        end
    | Raises _ => None
    end
  else None.

(** The events of the mesh pass, and those of the texture pass followed
    by those of the sprite pass, which act on the same folder. *)

Definition mesh_events (objects : list ObjectReader) : list event :=
  omap mesh_event objects.

Definition image_events (tag word : pystr) (objects : list ObjectReader) : list event :=
  omap (image_event tag word) objects.

Definition texture_events (objects : list ObjectReader) : list event :=
  image_events (u"Texture2D") (u"texture") objects
    ++ image_events (u"Sprite") (u"sprite") objects.

(** What an event leaves under the name of its file, the folder after
    a sequence of events, and what the sequence leaves under one
    name. *)

Definition apply_effect (e : effect) (before : option bytes) : option bytes :=
  match e with
  | Wrote content => Some content
  | Failed remains => leave remains before
  end.

Definition after_events (events : list event) (dir : gmap pystr bytes)
    : gmap pystr bytes :=
  fold_left (fun m ev => partial_alter (apply_effect (ev_effect ev)) (ev_file ev) m)
    events dir.

Definition left_under (file : pystr) (events : list event) (before : option bytes)
    : option bytes :=
  fold_left (fun acc ev => if str_eqb (ev_file ev) file
                           then apply_effect (ev_effect ev) acc else acc)
    events before.

(** The manifest entry of an event that appends a record. *)

Definition entry_of (ev : event) : option json :=
  match ev_encoded ev with
  | Some bs => Some (JDict [(u"AssetName", JStr (ev_file ev));
                            (u"Data", JStr (b64encode bs))])
  | None => None
  end.

(** Every entry of a manifest list is the [{AssetName, Data}] pair of
    an event that appended a record, at the position of that event
    among those that did; its [Data] decodes to the bytes the record
    encodes; the event wrote the file of that name, and the folder
    still holds what it wrote unless a later event, a write or a failed
    save, has the same file name. *)

Definition entries_match (entries : list json) (events : list event)
    (dir : gmap pystr bytes) : Prop :=
  forall (i : nat) (e : json), entries !! i = Some e ->
    exists before ev after bs content,
      events = before ++ ev :: after /\
      i = length (omap entry_of before) /\
      ev_encoded ev = Some bs /\
      e = JDict [(u"AssetName", JStr (ev_file ev)); (u"Data", JStr (b64encode bs))] /\
      b64decode (b64encode bs) = Some bs /\
      ev_effect ev = Wrote content /\
      (Forall (fun ev' => ev_file ev' <> ev_file ev) after ->
       dir !! ev_file ev = Some content).

(** An event whose record encodes the bytes it wrote to the file. *)

Definition encodes_the_file (ev : event) : Prop :=
  forall bs, ev_encoded ev = Some bs -> ev_effect ev = Wrote bs.

(** The image library writes the same bytes to the file and to the
    buffer, for every image of the bundle. *)

Definition same_saves (objects : list ObjectReader) : Prop :=
  forall obj data img content png,
    In obj objects -> read obj = Returns data -> image data = Returns img ->
    save_file img = FileSaved content -> save_buffer img = Returns png ->
    content = png.

(** The types the passes look for. *)

Definition wanted : list pystr := [u"Mesh"; u"Texture2D"; u"Sprite"].

(** The fallbacks the script passes to the sanitisation: the names of
    lines 70, 117 and 158. *)

Definition script_fallback (f : pystr) : Prop :=
  exists id : Z,
    f = u"mesh_" ++ str_of_int id \/
    f = u"texture_" ++ str_of_int id \/
    f = u"sprite_" ++ str_of_int id.

(** The name as the specification words it: the lower-cased type name,
    an underscore, the identity handle. *)

Definition synthesized_by_type (type_name : pystr) (id : Z) : pystr :=
  lower type_name ++ u"_" ++ str_of_int id.

(** The record of an asset extracted under the name [n]. *)

Definition named (original n ext : pystr) (payload : bytes) : asset :=
  {| asset_name := n;
     asset_filename := n ++ ext;
     asset_data := b64encode payload;
     asset_original_name := original |}.

(** ** Other types, text and reruns *)

(** An object of one of the three types the passes look for. *)

Definition is_wanted (obj : ObjectReader) : bool :=
  existsb (str_eqb (type_name obj)) wanted.

(** A code point that has a UTF-8 encoding: below 0x110000 and not a
    surrogate. *)

Definition scalar (c : N) : Prop :=
  c < 1114112 /\ ~ (55296 <= c /\ c <= 57343).

(** The environment of a second run: the same, with the folders as the
    first run left them. *)

Definition rerun (w : world) (o : outcome) : world :=
  {| unitypy_installed := unitypy_installed w;
     saber_files := saber_files w;
     load := load w;
     geometry_before := CustomGeometry o;
     textures_before := CustomTextures o;
     presets_before := Presets o;
     dump_error := dump_error w |}.

(** A character of base64 text: ASCII, and either the padding or a
    character of the alphabet. *)

Definition b64_text_char (c : N) : Prop :=
  c < 128 /\ (c = b64_pad \/ exists n, n < 64 /\ b64_index c = Some n).

(** * Sample bundles *)

(** A character database in which no code point beyond ASCII is
    alphanumeric or white space and lower-casing leaves such code
    points alone. *)

Definition no_class (c : N) : bool := false.

Definition same_case (before : pystr) (c : N) (after : pystr) : pystr := [c].

Definition surrogates (s : pystr) : pystr := u"surrogates not allowed".

(** A console that accepts every line, a console that accepts the lines
    without a surrogate, and the text of the exception [print] raises
    on the others. *)


Definition utf8_console (line : pystr) : bool :=
  forallb (fun c => negb ((55296 <=? c) && (c <=? 57343))) line.

Definition cannot_encode (line : pystr) : pystr := u"surrogates not allowed".

(** A state with nothing extracted, and an environment in which
    [input/a.saber] loads as the given objects and every step succeeds. *)

Definition empty_state : state :=
  {| mesh_data := []; texture_data := []; OUTPUT_GEO := ∅; OUTPUT_TEX := ∅; stdout := [] |}.

Definition a_saber : Path := {| file_name := u"a.saber"; stem := u"a" |}.

Definition world_of (objects : list ObjectReader) : world :=
  {| unitypy_installed := true;
     saber_files := [a_saber];
     load := fun _ => Returns objects;
     geometry_before := ∅;
     textures_before := ∅;
     presets_before := ∅;
     dump_error := None |}.

Definition mesh_object (id : Z) (n : option pystr) (payload : pyresult exported)
    : ObjectReader :=
  {| type_name := u"Mesh"; path_id := id;
     read := Returns {| name := n; export := payload; image := Raises (u"image") |} |}.

(** An image that encodes to the same bytes in the file and in the
    buffer, or cannot be obtained. *)

Definition image_of (png : pyresult bytes) : pyresult Image :=
  match png with
  | Returns b => Returns {| save_file := FileSaved b; save_buffer := Returns b |}
  | Raises e => Raises e
  end.

Definition image_object (tag : pystr) (id : Z) (n : option pystr) (png : pyresult bytes)
    : ObjectReader :=
  {| type_name := tag; path_id := id;
     read := Returns {| name := n; export := Raises (u"export"); image := image_of png |} |}.

(** Scenario A: one mesh named Hilt_Base, one texture named Blade_Glow. *)

Definition scenario_a : list ObjectReader :=
  [mesh_object 1 (Some (u"Hilt_Base")) (Returns (ExpStr (u"v 0 0 0")));
   image_object (u"Texture2D") 2 (Some (u"Blade_Glow")) (Returns [Byte.x89; Byte.x50])].

(** A Texture2D object without a name, with identity handle 7. *)

Definition nameless_texture : ObjectReader :=
  image_object (u"Texture2D") 7 None (Returns [Byte.x89; Byte.x50]).

(** A Texture2D object whose image cannot be obtained, one whose image
    cannot be encoded, the file being left with the eight bytes of the
    PNG signature, and one whose second save fails. *)


Definition png_signature : bytes :=
  [Byte.x89; Byte.x50; Byte.x4e; Byte.x47; Byte.x0d; Byte.x0a; Byte.x1a; Byte.x0a].

Definition unencodable_texture : ObjectReader :=
  {| type_name := u"Texture2D"; path_id := 3;
     read := Returns
       {| name := Some (u"T"); export := Raises (u"export");
          image := Returns
            {| save_file := FileRaises (Holding png_signature) (u"encoder error -2");
               save_buffer := Raises (u"encoder error -2") |} |} |}.


(** Two meshes of the same name: the second file replaces the first,
    and the first entry of the manifest still holds the first payload. *)

Definition same_name_twice : list ObjectReader :=
  [mesh_object 1 (Some (u"A")) (Returns (ExpStr (u"x")));
   mesh_object 2 (Some (u"A")) (Returns (ExpStr (u"yz")))].

(** Scenario B: a bundle that holds a material and nothing else. *)

Definition scenario_b : list ObjectReader :=
  [{| type_name := u"Material"; path_id := 5; read := Raises (u"not read") |}].

(** A bundle whose sprite comes before its texture. *)

Definition sprite_then_texture : list ObjectReader :=
  [image_object (u"Sprite") 1 (Some (u"Icon")) (Returns [Byte.x01]);
   image_object (u"Texture2D") 2 (Some (u"Blade_Glow")) (Returns [Byte.x89; Byte.x50])].

(** A texture that is extracted, followed by one of the same name whose
    image cannot be encoded. *)

(** A Texture2D object whose read raises an exception the text of which
    holds a lone surrogate. *)


Definition texture_then_failure : list ObjectReader :=
  [image_object (u"Texture2D") 2 (Some (u"T")) (Returns [Byte.x89; Byte.x50]);
   unencodable_texture].

(** The environment of scenario A with a file name that holds a lone
    surrogate, as file names that are not valid UTF-8 do. *)



(** A geometry folder that already holds a file, an environment whose
    [input/] folder holds no [.saber] file, and a mesh whose text holds
    a lone surrogate. *)

Definition old_geometry : gmap pystr bytes := {[ u"old.obj" := [Byte.x01] ]}.

Definition no_input_world : world :=
  {| unitypy_installed := true;
     saber_files := [];
     load := fun _ => Returns [];
     geometry_before := old_geometry;
     textures_before := ∅;
     presets_before := ∅;
     dump_error := None |}.

Definition surrogate_mesh : ObjectReader :=
  mesh_object 9 (Some (u"S")) (Returns (ExpStr [118; 55296])).

(** * Properties *)

(** ** Stripping *)

Lemma lstrip_with_split (sp : N -> bool) (s : pystr) :
  exists l, s = l ++ lstrip_with sp s /\ Forall (fun c => sp c = true) l.
Proof.
  induction s as [|c r IH]; simpl.
  - exists []. split; [reflexivity | constructor].
  - destruct (sp c) eqn:E.
    + destruct IH as (l & Hl & Hsp). exists (c :: l). split.
      * simpl. congruence.
      * constructor; assumption.
    + exists []. split; [reflexivity | constructor].
Qed.

Lemma lstrip_with_head (sp : N -> bool) (s : pystr) (c : N) (t : pystr) :
  lstrip_with sp s = c :: t -> sp c = false.
Proof.
  induction s as [|a r IH]; simpl; [discriminate|].
  destruct (sp a) eqn:E; [exact IH|].
  intros [= -> _]. exact E.
Qed.

Lemma lstrip_with_fixed (sp : N -> bool) (c : N) (t : pystr) :
  sp c = false -> lstrip_with sp (c :: t) = c :: t.
Proof. intros H. simpl. rewrite H. reflexivity. Qed.

Lemma strip_split (s : pystr) :
  exists l r, s = l ++ strip s ++ r /\
    Forall (fun c => isspace c = true) l /\ Forall (fun c => isspace c = true) r.
Proof.
  unfold strip, rstrip_with.
  destruct (lstrip_with_split isspace s) as (l & Hl & Hsl).
  destruct (lstrip_with_split isspace (rev (lstrip_with isspace s))) as (r & Hr & Hsr).
  exists l, (rev r). repeat split.
  - rewrite <- rev_app_distr, <- Hr, rev_involutive. exact Hl.
  - exact Hsl.
  - apply Forall_forall. intros c Hc. rewrite Forall_forall in Hsr.
    apply Hsr. apply list_elem_of_In. apply in_rev. apply list_elem_of_In. exact Hc.
Qed.

Lemma strip_ends (s : pystr) : no_space_ends (strip s).
Proof.
  split; intros c t E.
  - unfold strip, rstrip_with in E.
    destruct (lstrip_with_split isspace (rev (lstrip_with isspace s))) as (r & Hr & _).
    apply (f_equal (@rev N)) in Hr. rewrite rev_involutive, rev_app_distr, E in Hr.
    simpl in Hr. eapply lstrip_with_head. exact Hr.
  - unfold strip, rstrip_with in E.
    apply (f_equal (@rev N)) in E. rewrite rev_involutive, rev_unit in E.
    eapply lstrip_with_head. exact E.
Qed.

Lemma strip_fixed (s : pystr) : no_space_ends s -> strip s = s.
Proof.
  intros [Hh Hl]. unfold strip, rstrip_with.
  assert (E1 : lstrip_with isspace s = s).
  { destruct s as [|c t]; [reflexivity|]. apply lstrip_with_fixed. eapply Hh. reflexivity. }
  rewrite E1.
  assert (E2 : lstrip_with isspace (rev s) = rev s).
  { destruct (rev s) as [|c t] eqn:E; [reflexivity|].
    apply lstrip_with_fixed. apply (Hl c (rev t)).
    rewrite <- (rev_involutive s), E. reflexivity. }
  rewrite E2. apply rev_involutive.
Qed.

Lemma strip_idempotent (s : pystr) : strip (strip s) = strip s.
Proof. apply strip_fixed, strip_ends. Qed.

(** ** Filtering *)

Lemma filter_keep_all (s : pystr) : Forall (fun c => keep c = true) (List.filter keep s).
Proof.
  induction s as [|c r IH]; simpl; [constructor|].
  destruct (keep c) eqn:E; [constructor|]; assumption.
Qed.

Lemma filter_keep_fixed (s : pystr) :
  Forall (fun c => keep c = true) s -> List.filter keep s = s.
Proof.
  induction 1 as [|c r Hc _ IH]; simpl; [reflexivity|].
  rewrite Hc, IH. reflexivity.
Qed.

Lemma strip_keeps (s : pystr) :
  Forall (fun c => keep c = true) s -> Forall (fun c => keep c = true) (strip s).
Proof.
  intros H. destruct (strip_split s) as (l & r & E & _ & _).
  rewrite E in H. apply Forall_app in H as [_ H]. apply Forall_app in H as [H _]. exact H.
Qed.

Lemma sanitize_clean_fixed (s fallback : pystr) : clean s -> sanitize s fallback = s.
Proof.
  intros (Hk & He & Hn). unfold sanitize.
  rewrite (filter_keep_fixed s Hk), (strip_fixed s He).
  destruct s; [contradiction|reflexivity].
Qed.

Lemma sanitize_cases (s fallback : pystr) :
  sanitize s fallback = fallback \/ clean (sanitize s fallback).
Proof.
  unfold sanitize.
  destruct (strip (List.filter keep s)) as [|c t] eqn:E; [left; reflexivity|right].
  rewrite <- E. repeat split.
  - apply strip_keeps, filter_keep_all.
  - apply strip_ends.
  - apply strip_ends.
  - rewrite E. discriminate.
Qed.

(** ** Synthesized names *)

Ltac by_cases_on_tests :=
  repeat match goal with
         | |- context [?a <=? ?b] => destruct (N.leb_spec a b)
         | |- context [?a <? ?b] => destruct (N.ltb_spec a b)
         | |- context [?a =? ?b] => destruct (N.eqb_spec a b)
         | H : context [?a <=? ?b] |- _ => destruct (N.leb_spec a b)
         | H : context [?a <? ?b] |- _ => destruct (N.ltb_spec a b)
         | H : context [?a =? ?b] |- _ => destruct (N.eqb_spec a b)
         end.

Lemma plain_keep (c : N) : plain c = true -> keep c = true.
Proof.
  unfold plain, keep, isalnum, ascii_isalnum.
  by_cases_on_tests; simpl; intros; try reflexivity; try discriminate; lia.
Qed.

Lemma plain_not_space (c : N) : plain c = true -> isspace c = false.
Proof.
  unfold plain, isspace, ascii_isalnum, ascii_isspace.
  by_cases_on_tests; simpl; intros; try reflexivity; try discriminate; lia.
Qed.

Lemma plain_uint (d : Decimal.uint) :
  Forall (fun c => plain c = true) (codes (NilEmpty.string_of_uint d)).
Proof.
  induction d; simpl; constructor; (reflexivity || assumption).
Qed.

Lemma plain_str_of_int (z : Z) : Forall (fun c => plain c = true) (str_of_int z).
Proof.
  unfold str_of_int. destruct (Z.to_int z) as [d|d]; simpl.
  - apply plain_uint.
  - constructor; [reflexivity | apply plain_uint].
Qed.

Lemma plain_clean (s : pystr) :
  Forall (fun c => plain c = true) s -> s <> [] -> clean s.
Proof.
  intros H Hn. repeat split.
  - eapply Forall_impl; [exact H | apply plain_keep].
  - intros c t ->. apply plain_not_space. inversion H; assumption.
  - intros c t ->. apply plain_not_space.
    apply Forall_app in H as [_ H]. inversion H; assumption.
  - exact Hn.
Qed.

(** The names the three loops make up: a word, an underscore, the
    identity handle in decimal. *)

Lemma synthesized_clean (word : pystr) (id : Z) :
  Forall (fun c => plain c = true) word -> clean (word ++ u"_" ++ str_of_int id).
Proof.
  intros H. apply plain_clean.
  - apply Forall_app. split; [exact H|].
    apply Forall_app. split; [repeat constructor | apply plain_str_of_int].
  - destruct word; discriminate.
Qed.

Lemma mesh_fallback_clean (id : Z) : clean (u"mesh_" ++ str_of_int id).
Proof. apply (synthesized_clean (u"mesh") id). repeat constructor. Qed.

Lemma texture_fallback_clean (id : Z) : clean (u"texture" ++ u"_" ++ str_of_int id).
Proof. apply synthesized_clean. repeat constructor. Qed.

Lemma sprite_fallback_clean (id : Z) : clean (u"sprite" ++ u"_" ++ str_of_int id).
Proof. apply synthesized_clean. repeat constructor. Qed.

(** ** Substrings and lower case *)

Lemma startswith_app (k s : pystr) : startswith k (k ++ s) = true.
Proof.
  induction k as [|a k IH]; simpl; [reflexivity|].
  rewrite N.eqb_refl, IH. reflexivity.
Qed.

Lemma startswith_inv (k s : pystr) :
  startswith k s = true -> exists t, s = k ++ t.
Proof.
  revert s. induction k as [|a k IH]; intros s; simpl.
  - exists s. reflexivity.
  - destruct s as [|b s]; [discriminate|].
    intros H. apply andb_true_iff in H as [Hab Hk].
    apply N.eqb_eq in Hab. subst b.
    destruct (IH s Hk) as (t & ->). exists t. reflexivity.
Qed.

Lemma contains_spec (k s : pystr) :
  contains k s = true <-> exists pre post, s = pre ++ k ++ post.
Proof.
  split.
  - induction s as [|b s IH]; simpl.
    + rewrite orb_false_r. intros H. destruct (startswith_inv _ _ H) as (t & E).
      exists [], t. exact E.
    + intros H. apply orb_true_iff in H as [H|H].
      * destruct (startswith_inv _ _ H) as (t & E). exists [], t. exact E.
      * destruct (IH H) as (pre & post & ->). exists (b :: pre), post. reflexivity.
  - intros (pre & post & ->). induction pre as [|b pre IH].
    + simpl app. destruct (k ++ post) eqn:E; simpl; rewrite <- E, startswith_app; reflexivity.
    + simpl. rewrite IH. apply orb_true_r.
Qed.

Lemma ascii_lower_ascii (c : N) : ascii_lower c < 128 -> c < 128.
Proof. unfold ascii_lower. by_cases_on_tests; simpl; lia. Qed.

Lemma lower_from_ascii_app (before w post : pystr) :
  Forall (fun c => c < 128) w ->
  lower_from before (w ++ post) = List.map ascii_lower w ++ lower_from (rev w ++ before) post.
Proof.
  intros H. revert before. induction H as [|c w Hc _ IH]; intros before; simpl; [reflexivity|].
  apply N.ltb_lt in Hc. rewrite Hc, IH, <- app_assoc. reflexivity.
Qed.

Lemma lower_from_infix (before pre w post : pystr) :
  Forall (fun c => c < 128) w ->
  exists x y, lower_from before (pre ++ w ++ post) = x ++ List.map ascii_lower w ++ y.
Proof.
  intros H. revert before. induction pre as [|c pre IH]; intros before.
  - exists [], (lower_from (rev w ++ before) post). simpl. apply lower_from_ascii_app, H.
  - destruct (IH (c :: before)) as (x & y & E). simpl. rewrite E.
    eexists (_ ++ x), y. rewrite <- app_assoc. reflexivity.
Qed.

Lemma lower_contains (k s : pystr) :
  Forall (fun c => c < 128) k -> contains_caseless k s -> contains k (lower s) = true.
Proof.
  intros Hk (pre & w & post & -> & Hw).
  assert (Forall (fun c => c < 128) w) as Hascii.
  { subst k. clear -Hk. induction w as [|c w IH]; [constructor|].
    simpl in Hk. inversion Hk; subst. constructor; [apply ascii_lower_ascii|]; auto. }
  apply contains_spec. unfold lower.
  destruct (lower_from_infix [] pre w post Hascii) as (x & y & E).
  rewrite E, Hw. exists x, y. reflexivity.
Qed.

(** ** Sanitisation *)

(** C3: [sanitize] keeps exactly the characters of the name that are
    alphanumeric, a space, a hyphen or an underscore, and removes the
    white space at both ends of what is kept: what is removed on either
    side is white space, what remains neither starts nor ends with white
    space and is made of kept characters only.  If nothing remains the
    result is the fallback, otherwise it is what remains; so the result
    is made of kept characters whenever the fallback is. *)
Theorem sanitize_keeps_strips_or_falls_back (name fallback : pystr) :
  let kept := List.filter (fun c => isalnum c || (c =? 32) || (c =? 45) || (c =? 95)) name in
  let allowed := fun c => isalnum c = true \/ c = 32 \/ c = 45 \/ c = 95 in
  (exists l r, kept = l ++ strip kept ++ r /\
     Forall (fun c => isspace c = true) l /\ Forall (fun c => isspace c = true) r) /\
  no_space_ends (strip kept) /\
  Forall allowed (strip kept) /\
  (strip kept <> [] -> sanitize name fallback = strip kept) /\
  (strip kept = [] -> sanitize name fallback = fallback) /\
  (Forall allowed fallback -> Forall allowed (sanitize name fallback)).
Proof.
  intros kept allowed.
  assert (Hallowed : forall s, Forall (fun c => keep c = true) s -> Forall allowed s).
  { intros s Hs. eapply Forall_impl; [exact Hs|]. intros c. unfold keep, allowed.
    rewrite !orb_true_iff, !N.eqb_eq. intros [[[Hc|Hc]|Hc]|Hc]; auto. }
  change kept with (List.filter keep name).
  split; [apply strip_split|].
  split; [apply strip_ends|].
  split; [apply Hallowed, strip_keeps, filter_keep_all|].
  unfold sanitize.
  destruct (strip (List.filter keep name)) as [|c t] eqn:E.
  - repeat split; intros; (contradiction || reflexivity || assumption).
  - repeat split; intros; try (reflexivity || discriminate).
    rewrite <- E. apply Hallowed, strip_keeps, filter_keep_all.
Qed.

(** Applied twice with the same fallback, [sanitize] gives what it
    gives once whenever it leaves the fallback itself unchanged. *)

Lemma sanitize_twice (x f : pystr) :
  sanitize f f = f -> sanitize (sanitize x f) f = sanitize x f.
Proof.
  intros Hf. destruct (sanitize_cases x f) as [E|Hc].
  - rewrite E. exact Hf.
  - apply sanitize_clean_fixed, Hc.
Qed.

Lemma sanitize_synthesized_fixed (word : pystr) (id : Z) :
  Forall (fun c => plain c = true) word ->
  sanitize (word ++ u"_" ++ str_of_int id) (word ++ u"_" ++ str_of_int id)
  = word ++ u"_" ++ str_of_int id.
Proof. intros H. apply sanitize_clean_fixed, synthesized_clean, H. Qed.

(** C9: [sanitize] is idempotent: for every name [x] and every
    fallback [f] the script passes, the name made up for a mesh, a
    texture or a sprite from its identity handle,
    [sanitize (sanitize x f) f] is [sanitize x f]. *)
Theorem sanitize_idempotent (x f : pystr) :
  script_fallback f -> sanitize (sanitize x f) f = sanitize x f.
Proof.
  intros (id & Hf). apply sanitize_twice.
  destruct Hf as [-> | [-> | ->]].
  - exact (sanitize_synthesized_fixed (u"mesh") id ltac:(repeat constructor)).
  - exact (sanitize_synthesized_fixed (u"texture") id ltac:(repeat constructor)).
  - exact (sanitize_synthesized_fixed (u"sprite") id ltac:(repeat constructor)).
Qed.

(** ** Classification *)

Lemma has_keyword_existsb (kws : list pystr) (name : pystr) :
  has_keyword kws name <-> existsb (fun k => contains k (lower name)) kws = true.
Proof. unfold has_keyword. rewrite existsb_exists. reflexivity. Qed.

Lemma caseless_has_keyword (kws : list pystr) (k name : pystr) :
  In k kws -> Forall (fun c => c < 128) k -> contains_caseless k name ->
  has_keyword kws name.
Proof.
  intros Hin Hk Hc. exists k. split; [exact Hin|]. apply lower_contains; assumption.
Qed.

(** C8: [categorize_mesh] looks at the lower-cased name: if it holds a
    hilt keyword the answer is "hilt", else if it holds a blade keyword
    the answer is "blade", else "hilt"; there is no other answer.  So a
    name with "hilt" in any mix of cases is a hilt, a name with a blade
    keyword in any mix of cases and no hilt keyword in its lower-cased
    form is a blade, and the empty name is a hilt. *)
Theorem categorize_mesh_spec (name : pystr) :
  (has_keyword hilt_keywords name -> categorize_mesh name = u"hilt") /\
  (~ has_keyword hilt_keywords name -> has_keyword blade_keywords name ->
   categorize_mesh name = u"blade") /\
  (~ has_keyword hilt_keywords name -> ~ has_keyword blade_keywords name ->
   categorize_mesh name = u"hilt") /\
  (contains_caseless (u"hilt") name -> categorize_mesh name = u"hilt") /\
  ((exists k, In k blade_keywords /\ contains_caseless k name) ->
   ~ has_keyword hilt_keywords name -> categorize_mesh name = u"blade") /\
  categorize_mesh [] = u"hilt" /\
  (categorize_mesh name = u"hilt" \/ categorize_mesh name = u"blade").
Proof.
  assert (Hblade : forall k, In k blade_keywords -> Forall (fun c => c < 128) k).
  { intros k Hk. simpl in Hk.
    repeat (destruct Hk as [<-|Hk]; [repeat constructor|]). contradiction. }
  assert (Hcase : contains_caseless (u"hilt") name -> has_keyword hilt_keywords name).
  { apply caseless_has_keyword; [left; reflexivity | repeat constructor]. }
  assert (Hcase' : (exists k, In k blade_keywords /\ contains_caseless k name) ->
                   has_keyword blade_keywords name).
  { intros (k & Hk & Hc). eapply caseless_has_keyword; eauto. }
  pose proof (has_keyword_existsb hilt_keywords name) as Hh.
  pose proof (has_keyword_existsb blade_keywords name) as Hb.
  unfold categorize_mesh.
  destruct (existsb (fun k => contains k (lower name)) hilt_keywords);
    destruct (existsb (fun k => contains k (lower name)) blade_keywords);
    repeat split; intros; try reflexivity; try (left; reflexivity); try (right; reflexivity);
    exfalso;
    match goal with
    | H : has_keyword hilt_keywords name |- _ => apply Hh in H; discriminate
    | H : has_keyword blade_keywords name |- _ => apply Hb in H; discriminate
    | H : contains_caseless _ name |- _ => apply Hcase, Hh in H; discriminate
    | H : ex _ |- _ => apply Hcase', Hb in H; discriminate
    | H : ~ has_keyword hilt_keywords name |- _ => apply H, Hh; reflexivity
    | H : ~ has_keyword blade_keywords name |- _ => apply H, Hb; reflexivity
    end.
Qed.

(** ** Base64 *)

Lemma upto_In (n : N) : n < 64 -> In n (List.map N.of_nat (seq 0 64)).
Proof.
  intros H. rewrite <- (N2Nat.id n). apply in_map. apply in_seq. lia.
Qed.

Lemma b64_index_char (n : N) : n < 64 -> b64_index (b64_char n) = Some n.
Proof.
  intros H.
  assert (E : forallb (fun n => match b64_index (b64_char n) with
                                | Some m => m =? n
                                | None => false
                                end) (List.map N.of_nat (seq 0 64)) = true)
    by (vm_compute; reflexivity).
  rewrite forallb_forall in E. specialize (E n (upto_In n H)).
  destruct (b64_index (b64_char n)); [|discriminate].
  apply N.eqb_eq in E. congruence.
Qed.

Lemma b64_char_not_pad (n : N) : n < 64 -> (b64_char n =? b64_pad) = false.
Proof.
  intros H.
  assert (E : forallb (fun n => negb (b64_char n =? b64_pad))
                (List.map N.of_nat (seq 0 64)) = true)
    by (vm_compute; reflexivity).
  rewrite forallb_forall in E. specialize (E n (upto_In n H)).
  apply negb_true_iff in E. exact E.
Qed.

Lemma byte_of_to_N (x : Byte.byte) : byte_of_N (Byte.to_N x) = x.
Proof. unfold byte_of_N. rewrite Byte.of_to_N. reflexivity. Qed.

Ltac euclid := Z.to_euclidean_division_equations; lia.

(** The four sextets of three bytes, and back. *)

Lemma sextets (a b c : N) :
  a < 256 -> b < 256 -> c < 256 ->
  a / 4 < 64 /\ a mod 4 * 16 + b / 16 < 64 /\ b mod 16 * 4 + c / 64 < 64 /\ c mod 64 < 64 /\
  a / 4 * 4 + (a mod 4 * 16 + b / 16) / 16 = a /\
  (a mod 4 * 16 + b / 16) mod 16 * 16 + (b mod 16 * 4 + c / 64) / 4 = b /\
  (b mod 16 * 4 + c / 64) mod 4 * 64 + c mod 64 = c.
Proof.
  intros Ha Hb Hc. clear -Ha Hb Hc. repeat split; zify; euclid.
Qed.

Lemma to_N_lt (x : Byte.byte) : Byte.to_N x < 256.
Proof. pose proof (Byte.to_N_bounded x). lia. Qed.

Lemma bytes_ind3 (P : bytes -> Prop) :
  P [] -> (forall a, P [a]) -> (forall a b, P [a; b]) ->
  (forall a b c r, P r -> P (a :: b :: c :: r)) ->
  forall bs, P bs.
Proof.
  intros H0 H1 H2 H3.
  assert (H : forall bs, P bs /\ (forall a, P (a :: bs)) /\ (forall a b, P (a :: b :: bs))).
  { induction bs as [|c r (IHa & IHb & IHc)]; [auto|].
    split; [apply IHb|]. split; [intros a; apply IHc|]. intros a b. apply H3, IHa. }
  intros bs. apply H.
Qed.

Lemma b64encode_triple (a b c : Byte.byte) (r : bytes) :
  b64encode (a :: b :: c :: r) =
  [b64_char (Byte.to_N a / 4);
   b64_char (Byte.to_N a mod 4 * 16 + Byte.to_N b / 16);
   b64_char (Byte.to_N b mod 16 * 4 + Byte.to_N c / 64);
   b64_char (Byte.to_N c mod 64)] ++ b64encode r.
Proof. reflexivity. Qed.

Lemma b64encode_nonempty (a : Byte.byte) (r : bytes) :
  exists c s, b64encode (a :: r) = c :: s.
Proof. destruct r as [|b [|c r]]; eexists _, _; reflexivity. Qed.

Lemma b64_roundtrip (bs : bytes) : b64decode (b64encode bs) = Some bs.
Proof.
  induction bs as [|a|a b|a b c r IH] using bytes_ind3.
  - reflexivity.
  - destruct (sextets (Byte.to_N a) 0 0 (to_N_lt a) eq_refl eq_refl)
      as (L1 & L2 & _ & _ & E1 & _).
    change (0 / 16) with 0 in L2, E1. rewrite N.add_0_r in L2, E1.
    cbn [b64encode b64decode]. unfold b64_last.
    rewrite (b64_index_char _ L1), (b64_index_char _ L2), !N.eqb_refl.
    cbv zeta. rewrite E1, byte_of_to_N. reflexivity.
  - destruct (sextets (Byte.to_N a) (Byte.to_N b) 0 (to_N_lt a) (to_N_lt b) eq_refl)
      as (L1 & L2 & L3 & _ & E1 & E2 & _).
    change (0 / 64) with 0 in L3, E2. rewrite N.add_0_r in L3, E2.
    cbn [b64encode b64decode]. unfold b64_last.
    rewrite (b64_index_char _ L1), (b64_index_char _ L2), (b64_char_not_pad _ L3),
      (b64_index_char _ L3), N.eqb_refl.
    cbv zeta. rewrite E1, E2, !byte_of_to_N. reflexivity.
  - destruct (sextets (Byte.to_N a) (Byte.to_N b) (Byte.to_N c)
                (to_N_lt a) (to_N_lt b) (to_N_lt c))
      as (L1 & L2 & L3 & L4 & E1 & E2 & E3).
    rewrite b64encode_triple. destruct r as [|d r].
    + cbn [b64encode b64decode app]. unfold b64_last.
      rewrite (b64_index_char _ L1), (b64_index_char _ L2), (b64_char_not_pad _ L3),
        (b64_index_char _ L3), (b64_char_not_pad _ L4), (b64_index_char _ L4).
      cbv zeta. rewrite E1, E2, E3, !byte_of_to_N. reflexivity.
    + destruct (b64encode_nonempty d r) as (x & s & Es).
      rewrite Es in *. cbn [b64decode app].
      rewrite (b64_index_char _ L1), (b64_index_char _ L2),
        (b64_index_char _ L3), (b64_index_char _ L4).
      cbn [b64decode] in IH. rewrite IH.
      rewrite E1, E2, E3, !byte_of_to_N. reflexivity.
Qed.

(** ** Names and lists *)

Lemma str_eqb_eq (a b : pystr) : str_eqb a b = true <-> a = b.
Proof.
  revert b. induction a as [|x a IH]; intros [|y b]; simpl; split;
    try discriminate; try reflexivity.
  - intros H. apply andb_true_iff in H as [Hx Ha].
    apply N.eqb_eq in Hx. apply IH in Ha. congruence.
  - intros [= -> ->]. rewrite N.eqb_refl. apply IH. reflexivity.
Qed.

Lemma str_eqb_refl (a : pystr) : str_eqb a a = true.
Proof. apply str_eqb_eq. reflexivity. Qed.

Lemma str_eqb_neq (a b : pystr) : a <> b -> str_eqb a b = false.
Proof.
  intros H. destruct (str_eqb a b) eqn:E; [|reflexivity].
  apply str_eqb_eq in E. contradiction.
Qed.

Lemma omap_cons_eq {A B : Type} (f : A -> option B) (x : A) (l : list A) :
  omap f (x :: l) = match f x with
                    | Some y => y :: omap f l
                    | None => omap f l
                    end.
Proof. reflexivity. Qed.

(** An element of [omap f l] comes from an element of [l], at the
    position it has among those [f] keeps. *)

Lemma omap_lookup_split {A B : Type} (f : A -> option B) (l : list A) (i : nat) (y : B) :
  omap f l !! i = Some y ->
  exists before x after,
    l = before ++ x :: after /\ f x = Some y /\ i = length (omap f before).
Proof.
  revert i. induction l as [|a l IH]; intros i; [discriminate|].
  rewrite omap_cons_eq. destruct (f a) as [b|] eqn:E.
  - destruct i as [|i]; cbn [lookup list_lookup].
    + intros [= <-]. exists [], a, l. repeat split. exact E.
    + intros H. apply IH in H as (before & x & after & -> & Hx & ->).
      exists (a :: before), x, after. split; [reflexivity|]. split; [exact Hx|].
      rewrite omap_cons_eq, E. reflexivity.
  - intros H. apply IH in H as (before & x & after & -> & Hx & ->).
    exists (a :: before), x, after. split; [reflexivity|]. split; [exact Hx|].
    rewrite omap_cons_eq, E. reflexivity.
Qed.

(** ** The extraction passes *)

Lemma mesh_step_effect (st : state) (obj : ObjectReader) :
  texture_data (mesh_step st obj) = texture_data st /\
  OUTPUT_TEX (mesh_step st obj) = OUTPUT_TEX st /\
  match mesh_payload obj with
  | Some (data, obj_bytes) =>
      mesh_data (mesh_step st obj) = mesh_data st ++ [mesh_asset obj data obj_bytes] /\
      OUTPUT_GEO (mesh_step st obj)
      = <[asset_filename (mesh_asset obj data obj_bytes) := obj_bytes]> (OUTPUT_GEO st)
  | None =>
      mesh_data (mesh_step st obj) = mesh_data st /\
      OUTPUT_GEO (mesh_step st obj) = OUTPUT_GEO st
  end.
Proof.
  unfold mesh_step, mesh_payload, mesh_body.
  destruct (str_eqb (type_name obj) (u"Mesh")); [|auto].
  destruct (read obj) as [data|e]; [|auto].
  destruct (export data) as [obj_data|e]; [|auto].
  destruct (nonempty_export obj_data); [|auto].
  destruct (to_bytes obj_data) as [obj_bytes|e]; auto.
Qed.

Lemma image_step_effect (tag word : pystr) (st : state) (obj : ObjectReader) :
  mesh_data (image_step tag word st obj) = mesh_data st /\
  OUTPUT_GEO (image_step tag word st obj) = OUTPUT_GEO st /\
  texture_data (image_step tag word st obj)
  = texture_data st ++ match exported_image tag word obj with
                       | Some a => [a]
                       | None => []
                       end /\
  OUTPUT_TEX (image_step tag word st obj)
  = match image_event tag word obj with
    | Some ev => partial_alter (apply_effect (ev_effect ev)) (ev_file ev) (OUTPUT_TEX st)
    | None => OUTPUT_TEX st
    end.
Proof.
  unfold image_step, exported_image, image_payload, image_event, image_body.
  destruct (str_eqb (type_name obj) tag);
    [|repeat split; try reflexivity; symmetry; apply app_nil_r].
  destruct (read obj) as [data|e];
    [|repeat split; try reflexivity; symmetry; apply app_nil_r].
  destruct (image data) as [img|e];
    [|repeat split; try reflexivity; symmetry; apply app_nil_r].
  destruct (save_file img) as [content|remains e];
    [|repeat split; try reflexivity; symmetry; apply app_nil_r].
  destruct (save_buffer img) as [png|e];
    repeat split; try reflexivity; symmetry; apply app_nil_r.
Qed.

Lemma fold_left_invariant {S A : Type} (I : S -> Prop) (step : S -> A -> S) :
  (forall s a, I s -> I (step s a)) ->
  forall l s, I s -> I (fold_left step l s).
Proof.
  intros Hstep l. induction l as [|a l IH]; intros s Hs; simpl; [exact Hs|].
  apply IH, Hstep, Hs.
Qed.

Lemma extract_meshes_lists (objects : list ObjectReader) (st : state) :
  mesh_data (extract_meshes objects st) = mesh_data st ++ meshes_of objects /\
  texture_data (extract_meshes objects st) = texture_data st /\
  OUTPUT_TEX (extract_meshes objects st) = OUTPUT_TEX st.
Proof.
  unfold extract_meshes, meshes_of. revert st.
  induction objects as [|obj objects IH]; intros st; simpl.
  - rewrite app_nil_r. auto.
  - destruct (IH (mesh_step st obj)) as (E1 & E2 & E3).
    destruct (mesh_step_effect st obj) as (F2 & F3 & F1).
    rewrite E1, E2, E3, F2, F3. repeat split.
    unfold exported_mesh. destruct (mesh_payload obj) as [[data obj_bytes]|].
    + destruct F1 as [-> _]. rewrite <- app_assoc. reflexivity.
    + destruct F1 as [-> _]. reflexivity.
Qed.

Lemma extract_images_lists (tag word : pystr) (objects : list ObjectReader) (st : state) :
  texture_data (fold_left (image_step tag word) objects st)
  = texture_data st ++ omap (exported_image tag word) objects /\
  mesh_data (fold_left (image_step tag word) objects st) = mesh_data st /\
  OUTPUT_GEO (fold_left (image_step tag word) objects st) = OUTPUT_GEO st.
Proof.
  revert st. induction objects as [|obj objects IH]; intros st; simpl.
  - rewrite app_nil_r. auto.
  - destruct (IH (image_step tag word st obj)) as (E1 & E2 & E3).
    destruct (image_step_effect tag word st obj) as (F2 & F3 & F1 & _).
    rewrite E1, E2, E3, F2, F3, F1. repeat split.
    destruct (exported_image tag word obj) as [a|].
    + rewrite <- app_assoc. reflexivity.
    + rewrite app_nil_r. reflexivity.
Qed.

(** The lists at the end of the extraction. *)

Lemma passes_lists (objects : list ObjectReader)
    (geo tex : gmap pystr bytes) (out : list pystr) :
  mesh_data (passes objects geo tex out) = meshes_of objects /\
  texture_data (passes objects geo tex out) = textures_of objects ++ sprites_of objects.
Proof.
  unfold passes. cbv zeta. cbn [log print mesh_data texture_data].
  set (st0 := log (u"Extracting meshes...") _).
  set (st1 := log (u"Extracting textures...") (extract_meshes objects st0)).
  set (st2 := log (u"Extracting sprites (if any)...") (extract_textures objects st1)).
  destruct (extract_images_lists (u"Sprite") (u"sprite") objects st2) as (S1 & S2 & _).
  destruct (extract_images_lists (u"Texture2D") (u"texture") objects st1) as (T1 & T2 & _).
  destruct (extract_meshes_lists objects st0) as (M1 & M2 & _).
  split.
  - change (extract_sprites objects st2)
      with (fold_left (image_step (u"Sprite") (u"sprite")) objects st2).
    rewrite S2. unfold st2. cbn [log print mesh_data].
    change (extract_textures objects st1)
      with (fold_left (image_step (u"Texture2D") (u"texture")) objects st1).
    rewrite T2. unfold st1. cbn [log print mesh_data]. rewrite M1. reflexivity.
  - change (extract_sprites objects st2)
      with (fold_left (image_step (u"Sprite") (u"sprite")) objects st2).
    rewrite S1. unfold st2. cbn [log print texture_data].
    change (extract_textures objects st1)
      with (fold_left (image_step (u"Texture2D") (u"texture")) objects st1).
    rewrite T1. unfold st1. cbn [log print texture_data]. rewrite M2. reflexivity.
Qed.

Lemma extraction_lists (objects : list ObjectReader)
    (geo tex : gmap pystr bytes) (out : list pystr) :
  mesh_data (extraction objects geo tex out) = meshes_of objects /\
  texture_data (extraction objects geo tex out)
  = textures_of objects ++ sprites_of objects.
Proof.
  unfold extraction. cbv zeta.
  destruct (passes_lists objects geo tex out) as (Em & Et).
  destruct (mesh_data (passes objects geo tex out)) eqn:E;
    cbn [warn print mesh_data texture_data]; rewrite ?E; auto.
Qed.

(** ** Folders as sequences of events *)

Lemma lookup_after_events (events : list event) (dir : gmap pystr bytes) (file : pystr) :
  after_events events dir !! file = left_under file events (dir !! file).
Proof.
  unfold after_events, left_under. revert dir.
  induction events as [|ev events IH]; intros dir; [reflexivity|].
  cbn [fold_left]. rewrite IH. f_equal.
  destruct (str_eqb (ev_file ev) file) eqn:E.
  - apply str_eqb_eq in E. subst file. apply lookup_partial_alter_eq.
  - apply lookup_partial_alter_ne. intros Heq.
    rewrite Heq, str_eqb_refl in E. discriminate.
Qed.

Lemma after_events_app (l1 l2 : list event) (dir : gmap pystr bytes) :
  after_events (l1 ++ l2) dir = after_events l2 (after_events l1 dir).
Proof. unfold after_events. apply fold_left_app. Qed.

Lemma left_under_app (file : pystr) (l1 l2 : list event) (d : option bytes) :
  left_under file (l1 ++ l2) d = left_under file l2 (left_under file l1 d).
Proof. unfold left_under. apply fold_left_app. Qed.

Lemma left_under_cons (file : pystr) (ev : event) (events : list event)
    (d : option bytes) :
  left_under file (ev :: events) d
  = left_under file events
      (if str_eqb (ev_file ev) file then apply_effect (ev_effect ev) d else d).
Proof. reflexivity. Qed.

(** Events under other names leave a name alone. *)

Lemma left_under_others (file : pystr) (events : list event) (d : option bytes) :
  Forall (fun ev => ev_file ev <> file) events -> left_under file events d = d.
Proof.
  revert d. induction events as [|ev events IH]; intros d H; [reflexivity|].
  inversion H as [|? ? Hev Hrest]; subst.
  rewrite left_under_cons, (str_eqb_neq _ _ Hev). apply IH, Hrest.
Qed.

(** What a sequence of events leaves under a name has one of three
    shapes: what was there; some bytes, whatever was there; or some
    bytes if a file was there and no file otherwise. *)

Lemma left_under_shape (file : pystr) (events : list event) :
  (forall d, left_under file events d = d) \/
  (exists v, forall d, left_under file events d = Some v) \/
  (exists v, left_under file events None = None /\
             forall x, left_under file events (Some x) = Some v).
Proof.
  induction events as [|ev events IH]; [left; reflexivity|].
  destruct (str_eqb (ev_file ev) file) eqn:E.
  2:{ destruct IH as [H|[(v & H)|(v & H0 & H1)]].
      - left. intros d. rewrite left_under_cons, E. apply H.
      - right. left. exists v. intros d. rewrite left_under_cons, E. apply H.
      - right. right. exists v. split; [|intros x]; rewrite left_under_cons, E; auto. }
  destruct (ev_effect ev) as [c|[|c|c]] eqn:Ee.
  - right. left. destruct IH as [H|[(v & H)|(v & H0 & H1)]].
    + exists c. intros d. rewrite left_under_cons, E, Ee. apply H.
    + exists v. intros d. rewrite left_under_cons, E, Ee. apply H.
    + exists v. intros d. rewrite left_under_cons, E, Ee. apply H1.
  - destruct IH as [H|[(v & H)|(v & H0 & H1)]].
    + left. intros d. rewrite left_under_cons, E, Ee. apply H.
    + right. left. exists v. intros d. rewrite left_under_cons, E, Ee. apply H.
    + right. right. exists v. split; [|intros x]; rewrite left_under_cons, E, Ee;
        [exact H0 | apply H1].
  - right. left. destruct IH as [H|[(v & H)|(v & H0 & H1)]].
    + exists c. intros d. rewrite left_under_cons, E, Ee. apply H.
    + exists v. intros d. rewrite left_under_cons, E, Ee. apply H.
    + exists v. intros d. rewrite left_under_cons, E, Ee. apply H1.
  - destruct IH as [H|[(v & H)|(v & H0 & H1)]].
    + right. right. exists c. split; [|intros x]; rewrite left_under_cons, E, Ee; apply H.
    + right. left. exists v. intros d. rewrite left_under_cons, E, Ee. apply H.
    + right. right. exists v. split; [|intros x]; rewrite left_under_cons, E, Ee;
        [exact H0 | apply H1].
Qed.

Lemma left_under_idempotent (file : pystr) (events : list event) (d : option bytes) :
  left_under file events (left_under file events d) = left_under file events d.
Proof.
  destruct (left_under_shape file events) as [H|[(v & H)|(v & H0 & H1)]].
  - rewrite !H. reflexivity.
  - rewrite (H d). apply H.
  - destruct d as [x|].
    + rewrite (H1 x). apply H1.
    + rewrite H0. exact H0.
Qed.

Lemma after_events_idempotent (events : list event) (dir : gmap pystr bytes) :
  after_events events (after_events events dir) = after_events events dir.
Proof.
  apply map_eq. intros file. rewrite !lookup_after_events. apply left_under_idempotent.
Qed.

(** No event removes a file, and a write leaves a file. *)

Lemma left_under_some (file : pystr) (events : list event) (d : option bytes) :
  is_Some d -> is_Some (left_under file events d).
Proof.
  revert d. induction events as [|ev events IH]; intros d Hd; [exact Hd|].
  rewrite left_under_cons. apply IH.
  destruct (str_eqb (ev_file ev) file); [|exact Hd].
  destruct Hd as (x & ->).
  destruct (ev_effect ev) as [c|[|c|c]]; cbn [apply_effect leave]; eexists; reflexivity.
Qed.

Lemma left_under_written (file : pystr) (events : list event) (d : option bytes) :
  (exists ev c, In ev events /\ ev_file ev = file /\ ev_effect ev = Wrote c) ->
  is_Some (left_under file events d).
Proof.
  intros (ev & c & Hin & Hf & He).
  apply in_split in Hin as (l1 & l2 & ->).
  rewrite left_under_app, left_under_cons, Hf, str_eqb_refl, He.
  apply left_under_some. eexists. reflexivity.
Qed.

Lemma after_events_last (l1 l2 : list event) (ev : event) (dir : gmap pystr bytes) :
  Forall (fun ev' => ev_file ev' <> ev_file ev) l2 ->
  after_events (l1 ++ ev :: l2) dir !! ev_file ev
  = apply_effect (ev_effect ev) (after_events l1 dir !! ev_file ev).
Proof.
  intros H.
  rewrite !lookup_after_events, left_under_app, left_under_cons, str_eqb_refl.
  apply left_under_others, H.
Qed.

Lemma after_events_other (events : list event) (dir : gmap pystr bytes) (file : pystr) :
  ~ In file (List.map ev_file events) -> after_events events dir !! file = dir !! file.
Proof.
  intros Hn. rewrite lookup_after_events. apply left_under_others.
  apply List.Forall_forall. intros ev Hev E. apply Hn. apply in_map_iff.
  exists ev. split; assumption.
Qed.

(** The folders at the end of the extraction. *)

Lemma extract_meshes_folder (objects : list ObjectReader) (st : state) :
  OUTPUT_GEO (extract_meshes objects st) = after_events (mesh_events objects) (OUTPUT_GEO st).
Proof.
  unfold extract_meshes, mesh_events. revert st.
  induction objects as [|obj objects IH]; intros st; [reflexivity|].
  cbn [fold_left]. rewrite IH, omap_cons_eq.
  destruct (mesh_step_effect st obj) as (_ & _ & E). unfold mesh_event.
  destruct (mesh_payload obj) as [[data obj_bytes]|]; destruct E as [_ ->]; reflexivity.
Qed.

Lemma extract_images_folder (tag word : pystr) (objects : list ObjectReader) (st : state) :
  OUTPUT_TEX (fold_left (image_step tag word) objects st)
  = after_events (image_events tag word objects) (OUTPUT_TEX st).
Proof.
  unfold image_events. revert st.
  induction objects as [|obj objects IH]; intros st; [reflexivity|].
  cbn [fold_left]. rewrite IH, omap_cons_eq.
  destruct (image_step_effect tag word st obj) as (_ & _ & _ & ->).
  destruct (image_event tag word obj); reflexivity.
Qed.

Lemma extraction_folders (objects : list ObjectReader)
    (geo tex : gmap pystr bytes) (out : list pystr) :
  OUTPUT_GEO (extraction objects geo tex out) = after_events (mesh_events objects) geo /\
  OUTPUT_TEX (extraction objects geo tex out) = after_events (texture_events objects) tex.
Proof.
  assert (H : OUTPUT_GEO (passes objects geo tex out)
              = after_events (mesh_events objects) geo /\
              OUTPUT_TEX (passes objects geo tex out)
              = after_events (texture_events objects) tex).
  { unfold passes, texture_events. cbv zeta. cbn [log print OUTPUT_GEO OUTPUT_TEX].
    set (st0 := log (u"Extracting meshes...") _).
    set (st1 := log (u"Extracting textures...") (extract_meshes objects st0)).
    set (st2 := log (u"Extracting sprites (if any)...") (extract_textures objects st1)).
    change (extract_sprites objects st2)
      with (fold_left (image_step (u"Sprite") (u"sprite")) objects st2).
    destruct (extract_images_lists (u"Sprite") (u"sprite") objects st2) as (_ & _ & ->).
    rewrite extract_images_folder.
    unfold st2. cbn [log print OUTPUT_GEO OUTPUT_TEX].
    change (extract_textures objects st1)
      with (fold_left (image_step (u"Texture2D") (u"texture")) objects st1).
    destruct (extract_images_lists (u"Texture2D") (u"texture") objects st1) as (_ & _ & ->).
    rewrite extract_images_folder.
    unfold st1. cbn [log print OUTPUT_GEO OUTPUT_TEX].
    destruct (extract_meshes_lists objects st0) as (_ & _ & ->).
    rewrite extract_meshes_folder, after_events_app. split; reflexivity. }
  unfold extraction. cbv zeta.
  destruct (mesh_data (passes objects geo tex out)); exact H.
Qed.

(** ** Records and events *)

(** The entries of the manifest are those of the events. *)

Lemma mesh_entries (objects : list ObjectReader) :
  List.map geometry_entry (meshes_of objects) = omap entry_of (mesh_events objects).
Proof.
  unfold meshes_of, mesh_events.
  induction objects as [|obj objects IH]; [reflexivity|].
  rewrite !(omap_cons_eq _ obj). unfold exported_mesh at 1, mesh_event at 1.
  destruct (mesh_payload obj) as [[data obj_bytes]|]; [|exact IH].
  rewrite omap_cons_eq. cbn [List.map entry_of ev_encoded ev_file]. rewrite IH. reflexivity.
Qed.

Lemma image_entries (tag word : pystr) (objects : list ObjectReader) :
  List.map texture_entry (omap (exported_image tag word) objects)
  = omap entry_of (image_events tag word objects).
Proof.
  unfold image_events.
  induction objects as [|obj objects IH]; [reflexivity|].
  rewrite !(omap_cons_eq _ obj).
  unfold exported_image at 1, image_payload, image_event at 1.
  destruct (str_eqb (type_name obj) tag); [|exact IH].
  destruct (read obj) as [data|e]; [|exact IH].
  destruct (image data) as [img|e]; [|exact IH].
  rewrite omap_cons_eq. unfold entry_of at 1. cbn [ev_encoded ev_file].
  destruct (save_file img) as [content|remains e]; [|exact IH].
  destruct (save_buffer img) as [png|e]; [|exact IH].
  cbn [List.map]. rewrite IH. reflexivity.
Qed.

(** An event that appends a record wrote the file; for a mesh, the
    bytes the record encodes. *)

Lemma mesh_events_encode (objects : list ObjectReader) :
  Forall encodes_the_file (mesh_events objects).
Proof.
  unfold mesh_events. induction objects as [|obj objects IH]; [constructor|].
  rewrite omap_cons_eq. unfold mesh_event at 1.
  destruct (mesh_payload obj) as [[data obj_bytes]|]; [|exact IH].
  constructor; [|exact IH]. intros bs [= <-]. reflexivity.
Qed.

Lemma image_events_wrote (tag word : pystr) (objects : list ObjectReader) :
  Forall (fun ev => forall bs, ev_encoded ev = Some bs ->
                    exists content, ev_effect ev = Wrote content)
    (image_events tag word objects).
Proof.
  unfold image_events. induction objects as [|obj objects IH]; [constructor|].
  rewrite omap_cons_eq. unfold image_event at 1.
  destruct (str_eqb (type_name obj) tag); [|exact IH].
  destruct (read obj) as [data|e]; [|exact IH].
  destruct (image data) as [img|e]; [|exact IH].
  constructor; [|exact IH]. cbn [ev_encoded ev_effect]. intros bs.
  destruct (save_file img) as [content|remains e]; [|discriminate].
  intros _. exists content. reflexivity.
Qed.

Lemma image_events_encode (tag word : pystr) (objects : list ObjectReader) :
  same_saves objects -> Forall encodes_the_file (image_events tag word objects).
Proof.
  unfold image_events. induction objects as [|obj objects IH]; intros Hs; [constructor|].
  assert (Hrest : same_saves objects).
  { intros o d i c p Ho. apply (Hs o d i c p). right. exact Ho. }
  rewrite omap_cons_eq. unfold image_event at 1.
  destruct (str_eqb (type_name obj) tag); [|exact (IH Hrest)].
  destruct (read obj) as [data|e] eqn:Hr; [|exact (IH Hrest)].
  destruct (image data) as [img|e] eqn:Hi; [|exact (IH Hrest)].
  constructor; [|exact (IH Hrest)]. unfold encodes_the_file. cbn [ev_encoded ev_effect].
  intros bs. destruct (save_file img) as [content|remains e] eqn:Hf; [|discriminate].
  destruct (save_buffer img) as [png|e] eqn:Hb; [|discriminate].
  intros [= <-]. f_equal. apply (Hs obj data img content png); auto. left. reflexivity.
Qed.

(** The record of an extracted asset comes with an event that wrote
    the file of its name. *)

Lemma mesh_record_event (objects : list ObjectReader) (a : asset) :
  In a (meshes_of objects) ->
  exists ev c, In ev (mesh_events objects) /\
    ev_file ev = asset_filename a /\ ev_effect ev = Wrote c.
Proof.
  unfold meshes_of, mesh_events. induction objects as [|obj objects IH]; [contradiction|].
  rewrite !(omap_cons_eq _ obj). unfold exported_mesh at 1, mesh_event at 1.
  destruct (mesh_payload obj) as [[data obj_bytes]|].
  - intros [<-|Hin].
    + eexists _, obj_bytes. split; [left; reflexivity|]. split; reflexivity.
    + destruct (IH Hin) as (ev & c & Hev & Hrest). exists ev, c. split; [right|]; assumption.
  - exact IH.
Qed.

Lemma image_record_event (tag word : pystr) (objects : list ObjectReader) (a : asset) :
  In a (omap (exported_image tag word) objects) ->
  exists ev c, In ev (image_events tag word objects) /\
    ev_file ev = asset_filename a /\ ev_effect ev = Wrote c.
Proof.
  unfold image_events. induction objects as [|obj objects IH]; [contradiction|].
  rewrite !(omap_cons_eq _ obj).
  unfold exported_image at 1, image_payload, image_event at 1.
  destruct (str_eqb (type_name obj) tag); [|exact IH].
  destruct (read obj) as [data|e]; [|exact IH].
  destruct (image data) as [img|e]; [|exact IH].
  assert (Hlater : In a (omap (exported_image tag word) objects) ->
            exists ev c, In ev (Build_event (tex_name_clean word obj data ++ u".png")
                                  match save_file img with
                                  | FileSaved content => Wrote content
                                  | FileRaises remains _ => Failed remains
                                  end
                                  match save_file img, save_buffer img with
                                  | FileSaved _, Returns png => Some png
                                  | _, _ => None
                                  end :: omap (image_event tag word) objects) /\
              ev_file ev = asset_filename a /\ ev_effect ev = Wrote c).
  { intros Hin. destruct (IH Hin) as (ev & c & Hev & Hrest).
    exists ev, c. split; [right|]; assumption. }
  destruct (save_file img) as [content|remains e]; [|exact Hlater].
  destruct (save_buffer img) as [png|e]; [|exact Hlater].
  intros [<-|Hin]; [|exact (Hlater Hin)].
  eexists _, content. split; [left; reflexivity|]. split; reflexivity.
Qed.

(** The entries of a list of events match the folder the events
    leave. *)

Lemma events_entries_match (events : list event) (dir : gmap pystr bytes) :
  Forall (fun ev => forall bs, ev_encoded ev = Some bs ->
                    exists content, ev_effect ev = Wrote content) events ->
  entries_match (omap entry_of events) events (after_events events dir).
Proof.
  intros Hw i e Hi.
  apply omap_lookup_split in Hi as (before & ev & after & -> & He & ->).
  unfold entry_of in He at 1. destruct (ev_encoded ev) as [bs|] eqn:Eb; [|discriminate].
  injection He as <-.
  apply Forall_app in Hw as [_ Hw]. inversion Hw as [|? ? Hev _]; subst.
  destruct (Hev bs Eb) as (content & Hc).
  exists before, ev, after, bs, content.
  split; [reflexivity|]. split; [reflexivity|]. split; [exact Eb|].
  split; [reflexivity|]. split; [apply b64_roundtrip|]. split; [exact Hc|].
  intros Hlater. rewrite (after_events_last before after ev dir Hlater), Hc. reflexivity.
Qed.

(** ** The preset in closed form *)

Lemma preset_template_with : preset_template = preset_with [] [] [].
Proof. reflexivity. Qed.

Lemma append_module (x : json) (ms ts gs : list json) :
  append_at [u"Modules"] x (preset_with ms ts gs) = preset_with (ms ++ [x]) ts gs.
Proof. reflexivity. Qed.

Lemma append_geometry (x : json) (ms ts gs : list json) :
  append_at [u"BinaryAssets"; u"Geometry"] x (preset_with ms ts gs)
  = preset_with ms ts (gs ++ [x]).
Proof. reflexivity. Qed.

Lemma append_texture_entry (x : json) (ms ts gs : list json) :
  append_at [u"BinaryAssets"; u"Textures"] x (preset_with ms ts gs)
  = preset_with ms (ts ++ [x]) gs.
Proof. reflexivity. Qed.

Lemma preset_with_lists (ms ts gs : list json) :
  list_at [u"Modules"] (preset_with ms ts gs) = Some ms /\
  list_at [u"BinaryAssets"; u"Textures"] (preset_with ms ts gs) = Some ts /\
  list_at [u"BinaryAssets"; u"Geometry"] (preset_with ms ts gs) = Some gs.
Proof. repeat split; reflexivity. Qed.

Lemma module_step_pair (preset : json) (out : list pystr) (mesh : asset) :
  module_step (preset, out) mesh
  = (append_at [u"BinaryAssets"; u"Geometry"] (geometry_entry mesh)
       (append_at [u"Modules"] (custom_model_module mesh) preset),
     out ++ [added_line mesh]).
Proof. reflexivity. Qed.

Lemma fold_module_step (meshes : list asset) (ms ts gs : list json) (out : list pystr) :
  fold_left module_step meshes (preset_with ms ts gs, out)
  = (preset_with (ms ++ List.map custom_model_module meshes) ts
       (gs ++ List.map geometry_entry meshes),
     out ++ List.map added_line meshes).
Proof.
  revert ms gs out. induction meshes as [|mesh meshes IH]; intros ms gs out.
  - cbn [fold_left List.map]. rewrite !app_nil_r. reflexivity.
  - cbn [fold_left List.map].
    rewrite module_step_pair, append_module, append_geometry, IH.
    rewrite <- !app_assoc. reflexivity.
Qed.

Lemma fold_texture_asset_step (textures : list asset) (ms ts gs : list json) :
  fold_left texture_asset_step textures (preset_with ms ts gs)
  = preset_with ms (ts ++ List.map texture_entry textures) gs.
Proof.
  revert ts. induction textures as [|texture textures IH]; intros ts.
  - cbn [fold_left List.map]. rewrite app_nil_r. reflexivity.
  - cbn [fold_left List.map]. unfold texture_asset_step at 2.
    rewrite append_texture_entry, IH.
    rewrite <- app_assoc. reflexivity.
Qed.

Lemma build_preset_closed (meshes textures : list asset) (out : list pystr) :
  build_preset meshes textures out
  = (preset_of meshes textures, out ++ List.map added_line meshes).
Proof.
  unfold build_preset. cbv zeta.
  rewrite preset_template_with, append_module, fold_module_step, fold_texture_asset_step.
  reflexivity.
Qed.

(** ** A run that reaches the end *)

Lemma run_completes (w : world) (saber_file : Path) (objects : list ObjectReader) :
  completes w saber_file objects ->
  let st := extraction objects (geometry_before w) (textures_before w)
              (first_lines saber_file) in
  run w =
  {| exit_status := 0;
     printed := (stdout st ++ List.map added_line (mesh_data st))
                ++ closing_lines (u"output/Presets/" ++ stem saber_file ++ u".json")
                     (mesh_data st) (texture_data st);
     CustomGeometry := OUTPUT_GEO st;
     CustomTextures := OUTPUT_TEX st;
     Presets := <[stem saber_file ++ u".json"
                    := Dumped (preset_of (mesh_data st) (texture_data st))]>
                  (presets_before w) |}.
Proof.
  intros (Hi & Hf & Hl & Hd). unfold run.
  rewrite Hi. cbn [negb].
  destruct (saber_files w) as [|f fs]; [discriminate|].
  injection Hf as ->. rewrite Hl. cbv zeta.
  change ([u"[INFO] " ++ u"Found .saber file: " ++ file_name saber_file]
            ++ [u"[INFO] " ++ u"Loading AssetBundle..."]) with (first_lines saber_file).
  rewrite build_preset_closed, Hd. reflexivity.
Qed.

Lemma produced_completes (w : world) (saber_file : Path) (objects : list ObjectReader) :
  completes w saber_file objects ->
  produced w saber_file
  = Some (preset_of (meshes_of objects) (textures_of objects ++ sprites_of objects)).
Proof.
  intros H. unfold produced. rewrite (run_completes w saber_file objects H).
  cbn [Presets]. rewrite lookup_insert_eq.
  destruct (extraction_lists objects (geometry_before w) (textures_before w)
              (first_lines saber_file)) as (-> & ->).
  reflexivity.
Qed.

(** ** The modules of the preset *)

Lemma trail_module_ids (t : pystr) :
  get (u"ModuleId") (trail_module t) = Some (JStr (u"reezonate.simple-trail")) /\
  values_at (u"modelId") (trail_module t) = [] /\
  values_at (u"customTextureId") (trail_module t) = [JStr t] /\
  values_at (u"opacityTextureId") (trail_module t) = [JStr t].
Proof. repeat split; reflexivity. Qed.

Lemma custom_model_module_ids (mesh : asset) :
  get (u"ModuleId") (custom_model_module mesh) = Some (JStr (u"reezonate.custom-model")) /\
  values_at (u"modelId") (custom_model_module mesh) = [JStr (asset_filename mesh)] /\
  values_at (u"customTextureId") (custom_model_module mesh) = [] /\
  values_at (u"opacityTextureId") (custom_model_module mesh) = [].
Proof. repeat split; reflexivity. Qed.

(** C1: in a run that reaches the end, the [Modules] list of the preset
    is the trail module followed by the custom-model modules of the
    extracted meshes, one each, in the order of extraction; so it has
    one entry more than there are extracted meshes, whatever the
    textures. *)
Theorem modules_trail_then_meshes (w : world) (saber_file : Path)
    (objects : list ObjectReader) :
  completes w saber_file objects ->
  exists preset modules,
    produced w saber_file = Some preset /\
    list_at [u"Modules"] preset = Some modules /\
    modules = trail_module (trail_texture_of (textures_of objects ++ sprites_of objects))
                :: List.map custom_model_module (meshes_of objects) /\
    length modules = S (length (meshes_of objects)) /\
    List.map (get (u"ModuleId")) modules
    = Some (JStr (u"reezonate.simple-trail"))
        :: List.map (fun _ => Some (JStr (u"reezonate.custom-model"))) (meshes_of objects) /\
    flat_map (values_at (u"modelId")) modules
    = List.map (fun mesh => JStr (asset_filename mesh)) (meshes_of objects).
Proof.
  intros H. eexists _, _.
  split; [apply (produced_completes w saber_file objects H)|].
  split; [apply preset_with_lists|].
  split; [reflexivity|].
  split; [cbn [length]; rewrite length_map; reflexivity|].
  split.
  - cbn [List.map]. f_equal.
    rewrite List.map_map. apply List.map_ext. intros mesh. apply custom_model_module_ids.
  - cbn [flat_map].
    destruct (trail_module_ids (trail_texture_of (textures_of objects ++ sprites_of objects)))
      as (_ & -> & _).
    cbn [app]. induction (meshes_of objects) as [|mesh meshes IH]; [reflexivity|].
    cbn [List.map flat_map]. rewrite IH.
    destruct (custom_model_module_ids mesh) as (_ & -> & _). reflexivity.
Qed.

Lemma entry_names (a : asset) :
  get (u"AssetName") (geometry_entry a) = Some (JStr (asset_filename a)) /\
  get (u"AssetName") (texture_entry a) = Some (JStr (asset_filename a)).
Proof. split; reflexivity. Qed.

(** C2: in a run that reaches the end, every [modelId] inside a module
    is a string that is the [AssetName] of an entry of
    [BinaryAssets.Geometry]; every [customTextureId] and
    [opacityTextureId] inside a module is a string that is the
    [AssetName] of an entry of [BinaryAssets.Textures], or is the empty
    string and no texture was extracted; and when a texture was
    extracted both fields of the trail module are the file name of the
    first one. *)
Theorem referenced_assets_present (w : world) (saber_file : Path)
    (objects : list ObjectReader) :
  completes w saber_file objects ->
  exists preset modules textures geometry,
    produced w saber_file = Some preset /\
    list_at [u"Modules"] preset = Some modules /\
    list_at [u"BinaryAssets"; u"Textures"] preset = Some textures /\
    list_at [u"BinaryAssets"; u"Geometry"] preset = Some geometry /\
    (forall module v, In module modules -> In v (values_at (u"modelId") module) ->
       exists s e, v = JStr s /\ In e geometry /\ get (u"AssetName") e = Some v) /\
    (forall module v, In module modules ->
       In v (values_at (u"customTextureId") module
               ++ values_at (u"opacityTextureId") module) ->
       (exists s e, v = JStr s /\ In e textures /\ get (u"AssetName") e = Some v) \/
       (v = JStr (u"") /\ textures_of objects ++ sprites_of objects = [])) /\
    (forall t ts, textures_of objects ++ sprites_of objects = t :: ts ->
       exists trail rest, modules = trail :: rest /\
         values_at (u"customTextureId") trail = [JStr (asset_filename t)] /\
         values_at (u"opacityTextureId") trail = [JStr (asset_filename t)]).
Proof.
  intros H. eexists _, _, _, _.
  split; [apply (produced_completes w saber_file objects H)|].
  split; [apply preset_with_lists|].
  split; [apply preset_with_lists|].
  split; [apply preset_with_lists|].
  set (T := textures_of objects ++ sprites_of objects).
  set (M := meshes_of objects).
  split; [|split].
  - intros module v [<-|Hin] Hv.
    + destruct (trail_module_ids (trail_texture_of T)) as (_ & E & _).
      rewrite E in Hv. contradiction.
    + apply in_map_iff in Hin as (mesh & <- & Hmesh).
      destruct (custom_model_module_ids mesh) as (_ & E & _).
      rewrite E in Hv. destruct Hv as [<-|[]].
      exists (asset_filename mesh), (geometry_entry mesh).
      split; [reflexivity|]. split; [apply in_map, Hmesh | apply entry_names].
  - intros module v [<-|Hin] Hv.
    + destruct (trail_module_ids (trail_texture_of T)) as (_ & _ & E1 & E2).
      rewrite E1, E2 in Hv.
      assert (Ev : v = JStr (trail_texture_of T)) by (destruct Hv as [<-|[<-|[]]]; reflexivity).
      subst v. destruct T as [|t ts]; [right; split; reflexivity|left].
      exists (asset_filename t), (texture_entry t).
      split; [reflexivity|]. split; [left; reflexivity | apply entry_names].
    + apply in_map_iff in Hin as (mesh & <- & Hmesh).
      destruct (custom_model_module_ids mesh) as (_ & _ & E1 & E2).
      rewrite E1, E2 in Hv. contradiction.
  - intros t ts E. eexists _, _. split; [reflexivity|].
    rewrite E. split; apply trail_module_ids.
Qed.

(** ** The manifest and the files *)

(** C6, as amended: in a run that reaches the end, every entry of
    [BinaryAssets.Geometry] and of [BinaryAssets.Textures] is the
    [{AssetName, Data}] pair of an object that wrote the file of that
    name and appended a record, in the order of these objects; its
    [Data] is valid base64 and decodes to the bytes the record encodes.
    At the end of the run the file of that name holds what that object
    wrote, unless a later object of the same folder, textures before
    sprites, saved under the same name, whether its save returned or
    failed.  What a mesh wrote is what its record encodes, so that the
    sizes agree; for a texture or a sprite this holds when the image
    library writes the same bytes to the file and to the buffer. *)
Theorem asset_data_decodes_to_file (w : world) (saber_file : Path)
    (objects : list ObjectReader) :
  completes w saber_file objects ->
  exists preset textures geometry,
    produced w saber_file = Some preset /\
    list_at [u"BinaryAssets"; u"Textures"] preset = Some textures /\
    list_at [u"BinaryAssets"; u"Geometry"] preset = Some geometry /\
    entries_match geometry (mesh_events objects) (CustomGeometry (run w)) /\
    entries_match textures (texture_events objects) (CustomTextures (run w)) /\
    Forall encodes_the_file (mesh_events objects) /\
    (same_saves objects -> Forall encodes_the_file (texture_events objects)).
Proof.
  intros H.
  exists (preset_of (meshes_of objects) (textures_of objects ++ sprites_of objects)),
         (omap entry_of (texture_events objects)),
         (omap entry_of (mesh_events objects)).
  split; [apply (produced_completes w saber_file objects H)|].
  assert (Et : List.map texture_entry (textures_of objects ++ sprites_of objects)
               = omap entry_of (texture_events objects)).
  { unfold textures_of, sprites_of, texture_events.
    rewrite List.map_app, !image_entries, omap_app. reflexivity. }
  split; [rewrite <- Et; apply preset_with_lists|].
  split; [rewrite <- mesh_entries; apply preset_with_lists|].
  rewrite (run_completes w saber_file objects H). cbn [CustomGeometry CustomTextures].
  destruct (extraction_folders objects (geometry_before w) (textures_before w)
              (first_lines saber_file)) as (-> & ->).
  split.
  { apply events_entries_match.
    eapply Forall_impl; [apply mesh_events_encode|].
    intros ev Hev bs Hbs. exists bs. apply Hev, Hbs. }
  split.
  { apply events_entries_match. unfold texture_events.
    apply Forall_app. split; apply image_events_wrote. }
  split; [apply mesh_events_encode|].
  intros Hs. unfold texture_events. apply Forall_app. split; apply image_events_encode, Hs.
Qed.

(** ** A bundle without meshes, textures or sprites *)

Lemma omap_none {A B : Type} (f : A -> option B) (l : list A) :
  Forall (fun x => f x = None) l -> omap f l = [].
Proof.
  induction 1 as [|x l Hx _ IH]; [reflexivity|].
  simpl. rewrite Hx. exact IH.
Qed.

Lemma nothing_wanted (objects : list ObjectReader) :
  Forall (fun obj => ~ In (type_name obj) wanted) objects ->
  meshes_of objects = [] /\ textures_of objects = [] /\ sprites_of objects = [].
Proof.
  intros H. unfold meshes_of, textures_of, sprites_of.
  repeat split; apply omap_none; (eapply Forall_impl; [exact H|]); intros obj Hobj;
    unfold exported_mesh, exported_image, mesh_payload, image_payload;
    rewrite str_eqb_neq; try reflexivity;
    intros E; apply Hobj; rewrite E; simpl; auto.
Qed.

(** C7: a run that reaches the end on a bundle with no Mesh, no
    Texture2D and no Sprite object exits with status zero and leaves a
    preset whose only module is the trail, with the empty string in
    both texture-id fields, and whose two asset lists are empty; the
    warning that no mesh was extracted is printed. *)
Theorem empty_bundle_preset (w : world) (saber_file : Path) (objects : list ObjectReader) :
  completes w saber_file objects ->
  Forall (fun obj => ~ In (type_name obj) wanted) objects ->
  exit_status (run w) = 0%Z /\
  In (u"[WARN] Warning: No meshes extracted. Preset will be empty.") (printed (run w)) /\
  exists preset trail,
    produced w saber_file = Some preset /\
    list_at [u"Modules"] preset = Some [trail] /\
    get (u"ModuleId") trail = Some (JStr (u"reezonate.simple-trail")) /\
    values_at (u"customTextureId") trail = [JStr (u"")] /\
    values_at (u"opacityTextureId") trail = [JStr (u"")] /\
    list_at [u"BinaryAssets"; u"Textures"] preset = Some [] /\
    list_at [u"BinaryAssets"; u"Geometry"] preset = Some [].
Proof.
  intros H Hnone. destruct (nothing_wanted objects Hnone) as (Em & Et & Es).
  split; [rewrite (run_completes w saber_file objects H); reflexivity|].
  split.
  - rewrite (run_completes w saber_file objects H). cbn [printed].
    apply in_or_app. left. apply in_or_app. left.
    unfold extraction. cbv zeta.
    destruct (passes_lists objects (geometry_before w) (textures_before w)
                (first_lines saber_file)) as (-> & _).
    rewrite Em. cbn [warn print stdout]. apply in_or_app. right. left. reflexivity.
  - exists (preset_of [] []), (trail_module (u"")).
    split; [rewrite (produced_completes w saber_file objects H), Em, Et, Es; reflexivity|].
    repeat split; reflexivity.
Qed.

(** ** Textures before sprites *)

Lemma exported_image_type (tag word : pystr) (objects : list ObjectReader) (a : asset) :
  In a (omap (exported_image tag word) objects) ->
  exists obj, In obj objects /\ type_name obj = tag /\ exported_image tag word obj = Some a.
Proof.
  induction objects as [|obj objects IH]; [contradiction|].
  rewrite omap_cons_eq.
  destruct (exported_image tag word obj) as [a'|] eqn:E.
  - intros [<-|Hin].
    + exists obj. split; [left; reflexivity|]. split; [|exact E].
      unfold exported_image, image_payload in E.
      destruct (str_eqb (type_name obj) tag) eqn:Et; [|discriminate].
      apply str_eqb_eq, Et.
    + destruct (IH Hin) as (o & Ho & Hrest). exists o. split; [right; exact Ho | exact Hrest].
  - intros Hin. destruct (IH Hin) as (o & Ho & Hrest).
    exists o. split; [right; exact Ho | exact Hrest].
Qed.

(** C10: the texture list at the end of the extraction is what the
    Texture2D pass appended, in the order of the objects, followed by
    what the Sprite pass appended, and the manifest lists them in that
    order; so the texture id of the trail module is the file name of
    the first extracted Texture2D asset when there is one, and comes
    from the Sprite pass only when the Texture2D pass extracted
    nothing. *)
Theorem textures_then_sprites (w : world) (saber_file : Path) (objects : list ObjectReader) :
  completes w saber_file objects ->
  texture_data (extraction objects (geometry_before w) (textures_before w)
                  (first_lines saber_file))
  = textures_of objects ++ sprites_of objects /\
  (forall a, In a (textures_of objects) ->
     exists obj, In obj objects /\ type_name obj = u"Texture2D" /\
       exported_image (u"Texture2D") (u"texture") obj = Some a) /\
  (forall a, In a (sprites_of objects) ->
     exists obj, In obj objects /\ type_name obj = u"Sprite" /\
       exported_image (u"Sprite") (u"sprite") obj = Some a) /\
  exists preset trail rest,
    produced w saber_file = Some preset /\
    list_at [u"BinaryAssets"; u"Textures"] preset
    = Some (List.map texture_entry (textures_of objects)
              ++ List.map texture_entry (sprites_of objects)) /\
    list_at [u"Modules"] preset = Some (trail :: rest) /\
    (forall t ts, textures_of objects = t :: ts ->
       values_at (u"customTextureId") trail = [JStr (asset_filename t)]) /\
    (textures_of objects = [] ->
       values_at (u"customTextureId") trail = [JStr (trail_texture_of (sprites_of objects))]).
Proof.
  intros H.
  split; [apply extraction_lists|].
  split; [apply exported_image_type|].
  split; [apply exported_image_type|].
  eexists _, _, _.
  split; [apply (produced_completes w saber_file objects H)|].
  split; [unfold preset_of; rewrite List.map_app; apply preset_with_lists|].
  split; [apply preset_with_lists|].
  split.
  - intros t ts E. rewrite E. apply trail_module_ids.
  - intros E. rewrite E. apply trail_module_ids.
Qed.

(** ** Names made up for nameless objects *)

Lemma name_or_absent (data : Data) (fallback : pystr) :
  name data = None \/ name data = Some [] -> name_or data fallback = fallback.
Proof. unfold name_or. intros [-> | ->]; reflexivity. Qed.

Lemma mesh_names_absent (obj : ObjectReader) (data : Data) :
  name data = None \/ name data = Some [] ->
  mesh_name obj data = u"mesh_" ++ str_of_int (path_id obj) /\
  mesh_name_clean obj data = u"mesh_" ++ str_of_int (path_id obj).
Proof.
  intros H. unfold mesh_name_clean, mesh_name. rewrite (name_or_absent _ _ H).
  split; [reflexivity|]. apply sanitize_clean_fixed, mesh_fallback_clean.
Qed.

Lemma tex_names_absent (word : pystr) (obj : ObjectReader) (data : Data) :
  Forall (fun c => plain c = true) word ->
  name data = None \/ name data = Some [] ->
  tex_name word obj data = word ++ u"_" ++ str_of_int (path_id obj) /\
  tex_name_clean word obj data = word ++ u"_" ++ str_of_int (path_id obj).
Proof.
  intros Hw H. unfold tex_name_clean, tex_name. rewrite (name_or_absent _ _ H).
  split; [reflexivity|]. apply sanitize_clean_fixed, synthesized_clean, Hw.
Qed.

Lemma mesh_step_exported (st : state) (obj : ObjectReader) (data : Data)
    (obj_data : exported) (obj_bytes : bytes) :
  type_name obj = u"Mesh" -> read obj = Returns data ->
  export data = Returns obj_data -> nonempty_export obj_data = true ->
  to_bytes obj_data = Returns obj_bytes ->
  mesh_data (mesh_step st obj) = mesh_data st ++ [mesh_asset obj data obj_bytes].
Proof.
  intros Ht Hr He Hn Hb. unfold mesh_step, mesh_body.
  rewrite Ht, Hr, He, Hn, Hb. reflexivity.
Qed.

Lemma image_step_exported (tag word : pystr) (st : state) (obj : ObjectReader)
    (data : Data) (img : Image) (content png : bytes) :
  type_name obj = tag -> read obj = Returns data -> image data = Returns img ->
  save_file img = FileSaved content -> save_buffer img = Returns png ->
  texture_data (image_step tag word st obj)
  = texture_data st ++ [image_asset word obj data png].
Proof.
  intros Ht Hr Hi Hf Hb. unfold image_step, image_body.
  rewrite Hr, Hi, Hf, Hb. replace (str_eqb (type_name obj) tag) with true; [reflexivity|].
  symmetry. apply str_eqb_eq, Ht.
Qed.

(** A name of which nothing is kept gives way to the fallback. *)

Lemma mesh_names_nothing_kept (obj : ObjectReader) (data : Data) (n : pystr) :
  name data = Some n -> strip (List.filter keep n) = [] ->
  mesh_name_clean obj data = u"mesh_" ++ str_of_int (path_id obj).
Proof.
  intros Hn He. unfold mesh_name_clean, mesh_name, name_or. rewrite Hn.
  destruct n as [|c n'].
  - apply sanitize_clean_fixed, mesh_fallback_clean.
  - unfold sanitize. rewrite He. reflexivity.
Qed.

(** C4, as amended: for an object that is read and whose name is absent
    or empty, the name made up is ["mesh_"], ["texture_"] or
    ["sprite_"] followed by the identity handle in decimal, for a Mesh,
    a Texture2D and a Sprite; this is the lower-cased type name joined
    to the handle for Mesh and Sprite, and the word ["texture"] joined
    to the handle for Texture2D.  It is the name, and the stem of the
    file name, of the record appended when the export succeeds.  A mesh
    whose name keeps no character, or only white space, once the
    characters that are not allowed are removed, is recorded under the
    made-up name as well: with handle 42, under mesh_42.obj. *)
Theorem fallback_names (st : state) (obj : ObjectReader) (data : Data) :
  read obj = Returns data ->
  let id := str_of_int (path_id obj) in
  (name data = None \/ name data = Some [] ->
   type_name obj = u"Mesh" ->
   forall obj_data obj_bytes,
     export data = Returns obj_data -> nonempty_export obj_data = true ->
     to_bytes obj_data = Returns obj_bytes ->
     mesh_data (mesh_step st obj)
     = mesh_data st ++ [named (u"mesh_" ++ id) (u"mesh_" ++ id) (u".obj") obj_bytes] /\
     u"mesh_" ++ id = synthesized_by_type (type_name obj) (path_id obj)) /\
  (name data = None \/ name data = Some [] ->
   type_name obj = u"Texture2D" ->
   forall img content png,
     image data = Returns img -> save_file img = FileSaved content ->
     save_buffer img = Returns png ->
     texture_data (texture_step st obj)
     = texture_data st ++ [named (u"texture_" ++ id) (u"texture_" ++ id) (u".png") png]) /\
  (name data = None \/ name data = Some [] ->
   type_name obj = u"Sprite" ->
   forall img content png,
     image data = Returns img -> save_file img = FileSaved content ->
     save_buffer img = Returns png ->
     texture_data (sprite_step st obj)
     = texture_data st ++ [named (u"sprite_" ++ id) (u"sprite_" ++ id) (u".png") png] /\
     u"sprite_" ++ id = synthesized_by_type (type_name obj) (path_id obj)) /\
  (forall n, name data = Some n -> strip (List.filter keep n) = [] ->
   type_name obj = u"Mesh" ->
   forall obj_data obj_bytes,
     export data = Returns obj_data -> nonempty_export obj_data = true ->
     to_bytes obj_data = Returns obj_bytes ->
     mesh_data (mesh_step st obj)
     = mesh_data st ++ [named (mesh_name obj data) (u"mesh_" ++ id) (u".obj") obj_bytes] /\
     (path_id obj = 42%Z ->
      asset_filename (named (mesh_name obj data) (u"mesh_" ++ id) (u".obj") obj_bytes)
      = u"mesh_42.obj")).
Proof.
  intros Hr id. repeat split.
  - rewrite (mesh_step_exported st obj data obj_data obj_bytes); try assumption.
    unfold mesh_asset. destruct (mesh_names_absent obj data H) as (-> & ->). reflexivity.
  - rewrite H0. reflexivity.
  - intros Hn Ht img content png Hi Hf Hb.
    change (texture_step st obj) with (image_step (u"Texture2D") (u"texture") st obj).
    rewrite (image_step_exported _ _ st obj data img content png); try assumption.
    unfold image_asset.
    destruct (tex_names_absent (u"texture") obj data) as (-> & ->);
      [repeat constructor | exact Hn | reflexivity].
  - change (sprite_step st obj) with (image_step (u"Sprite") (u"sprite") st obj).
    rewrite (image_step_exported _ _ st obj data img content png); try assumption.
    unfold image_asset.
    destruct (tex_names_absent (u"sprite") obj data) as (-> & ->);
      [repeat constructor | assumption | reflexivity].
  - rewrite H0. reflexivity.
  - rewrite (mesh_step_exported st obj data obj_data obj_bytes); try assumption.
    unfold mesh_asset. rewrite (mesh_names_nothing_kept obj data n); try assumption.
    reflexivity.
  - intros H42. subst id. rewrite H42. reflexivity.
Qed.

(** ** Objects that fail to export *)

(** A warning adds one line and nothing else. *)

Lemma warn_effect (msg : pystr) (st : state) :
  stdout (warn msg st) = stdout st ++ [u"[WARN] " ++ msg] /\
  mesh_data (warn msg st) = mesh_data st /\
  texture_data (warn msg st) = texture_data st /\
  OUTPUT_GEO (warn msg st) = OUTPUT_GEO st /\
  OUTPUT_TEX (warn msg st) = OUTPUT_TEX st.
Proof. repeat split; reflexivity. Qed.

(** On a console that accepts every line the bodies of the loops are
    those of the first part. *)




(** Whatever the console accepts, the body of the image loops appends
    the record of an object exactly when the object is exported. *)




(** ** Files the extraction leaves alone *)

Lemma mesh_event_names (objects : list ObjectReader) :
  List.map ev_file (mesh_events objects) = List.map asset_filename (meshes_of objects).
Proof.
  unfold mesh_events, meshes_of. induction objects as [|obj objects IH]; [reflexivity|].
  rewrite !(omap_cons_eq _ obj). unfold mesh_event at 1, exported_mesh at 1.
  destruct (mesh_payload obj) as [[data obj_bytes]|]; [|exact IH].
  cbn [List.map ev_file]. rewrite IH. reflexivity.
Qed.

(** X1: at the end of the extraction a file of [CustomGeometry] whose
    name is not the file name of an extracted mesh is what it was
    before, and so is a file of [CustomTextures] under whose name no
    Texture2D or Sprite object of the bundle reached the save to the
    file; under the file name of every record there is a file. *)
Theorem folders_after_extraction (objects : list ObjectReader)
    (geo tex : gmap pystr bytes) (out : list pystr) (file : pystr) :
  let st := extraction objects geo tex out in
  (~ In file (List.map asset_filename (mesh_data st)) ->
   OUTPUT_GEO st !! file = geo !! file) /\
  (In file (List.map asset_filename (mesh_data st)) ->
   exists bs, OUTPUT_GEO st !! file = Some bs) /\
  (~ In file (List.map ev_file (texture_events objects)) ->
   OUTPUT_TEX st !! file = tex !! file) /\
  (In file (List.map asset_filename (texture_data st)) ->
   exists bs, OUTPUT_TEX st !! file = Some bs).
Proof.
  intros st. subst st.
  destruct (extraction_lists objects geo tex out) as (-> & ->).
  destruct (extraction_folders objects geo tex out) as (-> & ->).
  split; [|split; [|split]].
  - intros Hn. apply after_events_other. rewrite mesh_event_names. exact Hn.
  - intros Hin. apply in_map_iff in Hin as (a & <- & Ha).
    rewrite lookup_after_events. apply left_under_written, mesh_record_event, Ha.
  - apply after_events_other.
  - intros Hin. apply in_map_iff in Hin as (a & <- & Ha).
    rewrite lookup_after_events. apply left_under_written.
    unfold texture_events. apply in_app_or in Ha.
    destruct Ha as [Ha|Ha]; apply image_record_event in Ha as (ev & c & Hev & Hrest);
      exists ev, c; (split; [apply in_or_app|exact Hrest]); [left|right]; exact Hev.
Qed.

(** ** What the passes do not depend on *)

Lemma fold_left_related {S A : Type} (R : S -> S -> Prop) (step : S -> A -> S) :
  (forall s s' a, R s s' -> R (step s a) (step s' a)) ->
  forall l s s', R s s' -> R (fold_left step l s) (fold_left step l s').
Proof.
  intros Hstep l. induction l as [|a l IH]; intros s s' H; simpl; [exact H|].
  apply IH, Hstep, H.
Qed.

(** Two states with the same lists and the same lines. *)

Lemma same_lines_mesh_step (st st' : state) (obj : ObjectReader) :
  mesh_data st = mesh_data st' /\ texture_data st = texture_data st' /\
  stdout st = stdout st' ->
  mesh_data (mesh_step st obj) = mesh_data (mesh_step st' obj) /\
  texture_data (mesh_step st obj) = texture_data (mesh_step st' obj) /\
  stdout (mesh_step st obj) = stdout (mesh_step st' obj).
Proof.
  intros (Hm & Ht & Ho). unfold mesh_step, mesh_body.
  destruct (str_eqb (type_name obj) (u"Mesh")); [|auto].
  destruct (read obj) as [data|e]; [|cbn; rewrite Ho; auto].
  destruct (export data) as [obj_data|e]; [|cbn; rewrite Ho; auto].
  destruct (nonempty_export obj_data); [|cbn; rewrite Ho; auto].
  destruct (to_bytes obj_data) as [obj_bytes|e]; cbn; rewrite ?Hm, ?Ho; auto.
Qed.

Lemma same_lines_image_step (tag word : pystr) (st st' : state) (obj : ObjectReader) :
  mesh_data st = mesh_data st' /\ texture_data st = texture_data st' /\
  stdout st = stdout st' ->
  mesh_data (image_step tag word st obj) = mesh_data (image_step tag word st' obj) /\
  texture_data (image_step tag word st obj) = texture_data (image_step tag word st' obj) /\
  stdout (image_step tag word st obj) = stdout (image_step tag word st' obj).
Proof.
  intros (Hm & Ht & Ho). unfold image_step, image_body.
  destruct (str_eqb (type_name obj) tag); [|auto].
  destruct (read obj) as [data|e]; [|cbn; rewrite Ho; auto].
  destruct (image data) as [img|e]; [|cbn; rewrite Ho; auto].
  destruct (save_file img) as [content|remains e]; [|cbn; rewrite Ho; auto].
  destruct (save_buffer img) as [png|e]; cbn; rewrite ?Ht, ?Ho; auto.
Qed.

Lemma extraction_lines_any_folder (objects : list ObjectReader)
    (geo tex geo' tex' : gmap pystr bytes) (out : list pystr) :
  stdout (extraction objects geo tex out) = stdout (extraction objects geo' tex' out).
Proof.
  set (R := fun st st' : state =>
              mesh_data st = mesh_data st' /\ texture_data st = texture_data st' /\
              stdout st = stdout st').
  assert (Hprint : forall line st st', R st st' -> R (print line st) (print line st')).
  { intros line st st' (Hm & Ht & Ho). repeat split; cbn; congruence. }
  assert (H : R (passes objects geo tex out) (passes objects geo' tex' out)).
  { unfold passes. cbv zeta.
    match goal with
    | |- R (log _ (log _ (log _ ?a))) (log _ (log _ (log _ ?b))) =>
        assert (Hab : R a b); [|revert Hab; generalize a, b]
    end.
    { apply (fold_left_related R sprite_step);
        [intros s s' a; apply (same_lines_image_step (u"Sprite") (u"sprite"))|].
      apply Hprint.
      apply (fold_left_related R texture_step);
        [intros s s' a; apply (same_lines_image_step (u"Texture2D") (u"texture"))|].
      apply Hprint.
      apply (fold_left_related R mesh_step); [apply same_lines_mesh_step|].
      apply Hprint. repeat split. }
    intros a b (Hm & Ht & Ho). unfold R, log, print. cbn [mesh_data texture_data stdout].
    rewrite Hm, Ht, Ho. repeat split. }
  unfold extraction. cbv zeta. destruct H as (Hm & Ht & Ho). rewrite <- Hm.
  destruct (mesh_data (passes objects geo tex out)); unfold warn, print;
    cbn [stdout]; rewrite Ho; reflexivity.
Qed.

Lemma completes_rerun (w : world) (o : outcome) (saber_file : Path)
    (objects : list ObjectReader) :
  completes w saber_file objects -> completes (rerun w o) saber_file objects.
Proof. intros H. exact H. Qed.

(** X2: a second run on the folders the first complete run left gives
    the same outcome: the same exit status, the same lines, the same
    three folders. *)
Theorem rerun_same_outcome (w : world) (saber_file : Path) (objects : list ObjectReader) :
  completes w saber_file objects ->
  run (rerun w (run w)) = run w.
Proof.
  intros H.
  rewrite (run_completes (rerun w (run w)) saber_file objects
             (completes_rerun w (run w) saber_file objects H)).
  rewrite (run_completes w saber_file objects H).
  cbv zeta. cbn [rerun geometry_before textures_before presets_before
                 CustomGeometry CustomTextures Presets].
  set (geo := geometry_before w). set (tex := textures_before w).
  set (out := first_lines saber_file).
  set (st := extraction objects geo tex out).
  set (st' := extraction objects (OUTPUT_GEO st) (OUTPUT_TEX st) out).
  assert (Ho : stdout st' = stdout st) by apply extraction_lines_any_folder.
  destruct (extraction_lists objects geo tex out) as (Em & Et).
  destruct (extraction_lists objects (OUTPUT_GEO st) (OUTPUT_TEX st) out) as (Em' & Et').
  destruct (extraction_folders objects geo tex out) as (Eg & Ex).
  destruct (extraction_folders objects (OUTPUT_GEO st) (OUTPUT_TEX st) out) as (Eg' & Ex').
  fold st in Em, Et, Eg, Ex. fold st' in Em', Et', Eg', Ex'.
  rewrite Eg', Ex', Ho, Em', Et', Eg, Ex, Em, Et, !after_events_idempotent, insert_insert_eq.
  reflexivity.
Qed.

(** ** Objects of other types *)

Lemma fold_left_filter_skip {S A : Type} (keep_it : A -> bool) (step : S -> A -> S) :
  (forall s a, keep_it a = false -> step s a = s) ->
  forall l s, fold_left step (List.filter keep_it l) s = fold_left step l s.
Proof.
  intros Hskip l. induction l as [|a l IH]; intros s; [reflexivity|].
  cbn [List.filter fold_left]. destruct (keep_it a) eqn:E.
  - cbn [fold_left]. apply IH.
  - rewrite (Hskip s a E). apply IH.
Qed.

Lemma not_wanted_type (obj : ObjectReader) (tag : pystr) :
  In tag wanted -> is_wanted obj = false -> str_eqb (type_name obj) tag = false.
Proof.
  unfold is_wanted. intros Hin H.
  destruct (str_eqb (type_name obj) tag) eqn:E; [|reflexivity].
  assert (existsb (str_eqb (type_name obj)) wanted = true); [|congruence].
  apply existsb_exists. exists tag. split; assumption.
Qed.

(** X3: objects whose type is not Mesh, Texture2D or Sprite play no
    part: the extraction gives the same state, lists, folders and
    lines, with those objects removed from the bundle. *)
Theorem other_types_ignored (objects : list ObjectReader)
    (geo tex : gmap pystr bytes) (out : list pystr) :
  extraction (List.filter is_wanted objects) geo tex out = extraction objects geo tex out.
Proof.
  assert (H : passes (List.filter is_wanted objects) geo tex out
              = passes objects geo tex out).
  { unfold passes, extract_meshes, extract_textures, extract_sprites. cbv zeta.
    rewrite (fold_left_filter_skip is_wanted mesh_step).
    2:{ intros s a Ha. unfold mesh_step.
        rewrite (not_wanted_type a (u"Mesh")); [reflexivity | simpl; auto | exact Ha]. }
    rewrite (fold_left_filter_skip is_wanted texture_step).
    2:{ intros s a Ha. unfold texture_step.
        rewrite (not_wanted_type a (u"Texture2D")); [reflexivity | simpl; auto | exact Ha]. }
    rewrite (fold_left_filter_skip is_wanted sprite_step).
    2:{ intros s a Ha. unfold sprite_step.
        rewrite (not_wanted_type a (u"Sprite")); [reflexivity | simpl; auto | exact Ha]. }
    reflexivity. }
  unfold extraction. rewrite H. reflexivity.
Qed.

(** ** The names of the records *)

Lemma keep_separators :
  keep 47 = false /\ keep 92 = false /\ keep 46 = false /\ keep 58 = false /\ keep 0 = false.
Proof. repeat split; reflexivity. Qed.

Lemma clean_no_separator (s : pystr) :
  clean s -> ~ In 47 s /\ ~ In 92 s /\ ~ In 46 s /\ ~ In 58 s /\ ~ In 0 s.
Proof.
  intros (Hk & _ & _). rewrite Forall_forall in Hk.
  destruct keep_separators as (H1 & H2 & H3 & H4 & H5).
  repeat split; intros Hin; apply list_elem_of_In in Hin; apply Hk in Hin; congruence.
Qed.

Lemma mesh_name_clean_clean (obj : ObjectReader) (data : Data) :
  clean (mesh_name_clean obj data).
Proof.
  unfold mesh_name_clean.
  destruct (sanitize_cases (mesh_name obj data) (u"mesh_" ++ str_of_int (path_id obj)))
    as [-> | H]; [apply mesh_fallback_clean | exact H].
Qed.

Lemma tex_name_clean_clean (word : pystr) (obj : ObjectReader) (data : Data) :
  Forall (fun c => plain c = true) word -> clean (tex_name_clean word obj data).
Proof.
  intros Hw. unfold tex_name_clean.
  destruct (sanitize_cases (tex_name word obj data)
              (word ++ u"_" ++ str_of_int (path_id obj)))
    as [-> | H]; [apply synthesized_clean, Hw | exact H].
Qed.

Lemma exported_mesh_In (objects : list ObjectReader) (a : asset) :
  In a (meshes_of objects) ->
  exists obj data obj_bytes, In obj objects /\ a = mesh_asset obj data obj_bytes.
Proof.
  unfold meshes_of. induction objects as [|obj objects IH]; [contradiction|].
  rewrite omap_cons_eq. unfold exported_mesh at 1.
  destruct (mesh_payload obj) as [[data obj_bytes]|].
  - intros [<-|Hin].
    + exists obj, data, obj_bytes. split; [left|]; reflexivity.
    + destruct (IH Hin) as (o & d & b & Ho & E). exists o, d, b. split; [right|]; assumption.
  - intros Hin. destruct (IH Hin) as (o & d & b & Ho & E).
    exists o, d, b. split; [right|]; assumption.
Qed.

Lemma exported_image_In (tag word : pystr) (objects : list ObjectReader) (a : asset) :
  In a (omap (exported_image tag word) objects) ->
  exists obj data png, In obj objects /\ a = image_asset word obj data png.
Proof.
  induction objects as [|obj objects IH]; [contradiction|].
  rewrite omap_cons_eq. unfold exported_image at 1.
  destruct (image_payload tag obj) as [[data png]|].
  - intros [<-|Hin].
    + exists obj, data, png. split; [left|]; reflexivity.
    + destruct (IH Hin) as (o & d & b & Ho & E). exists o, d, b. split; [right|]; assumption.
  - intros Hin. destruct (IH Hin) as (o & d & b & Ho & E).
    exists o, d, b. split; [right|]; assumption.
Qed.

(** X4: every record the extraction leaves has a name that is not
    empty, is made of kept characters only, has no white space at
    either end and holds no slash, backslash, dot, colon or NUL; the
    file name is that name followed by [.obj] for a mesh and by [.png]
    for a texture or a sprite. *)
Theorem record_names_safe (objects : list ObjectReader)
    (geo tex : gmap pystr bytes) (out : list pystr) (a : asset) :
  let st := extraction objects geo tex out in
  (In a (mesh_data st) ->
   clean (asset_name a) /\ asset_filename a = asset_name a ++ u".obj" /\
   ~ In 47 (asset_name a) /\ ~ In 92 (asset_name a) /\ ~ In 46 (asset_name a) /\
   ~ In 58 (asset_name a) /\ ~ In 0 (asset_name a)) /\
  (In a (texture_data st) ->
   clean (asset_name a) /\ asset_filename a = asset_name a ++ u".png" /\
   ~ In 47 (asset_name a) /\ ~ In 92 (asset_name a) /\ ~ In 46 (asset_name a) /\
   ~ In 58 (asset_name a) /\ ~ In 0 (asset_name a)).
Proof.
  intros st. subst st.
  destruct (extraction_lists objects geo tex out) as (-> & ->).
  split.
  - intros Hin. apply exported_mesh_In in Hin as (obj & data & obj_bytes & _ & ->).
    cbn [mesh_asset asset_name asset_filename].
    pose proof (mesh_name_clean_clean obj data) as Hc.
    split; [exact Hc|]. split; [reflexivity|]. apply clean_no_separator, Hc.
  - intros Hin. apply in_app_or in Hin.
    assert (Hw : exists word obj data png,
                   Forall (fun c => plain c = true) word /\ a = image_asset word obj data png).
    { destruct Hin as [Hin|Hin]; apply exported_image_In in Hin as (obj & data & png & _ & ->).
      - exists (u"texture"), obj, data, png. split; [repeat constructor | reflexivity].
      - exists (u"sprite"), obj, data, png. split; [repeat constructor | reflexivity]. }
    destruct Hw as (word & obj & data & png & Hw & ->).
    cbn [image_asset asset_name asset_filename].
    pose proof (tex_name_clean_clean word obj data Hw) as Hc.
    split; [exact Hc|]. split; [reflexivity|]. apply clean_no_separator, Hc.
Qed.

(** ** Text exports and UTF-8 *)

Lemma utf8_char_scalar (c : N) :
  scalar c ->
  exists b, utf8_char c = Some b /\ (1 <= length b <= 4)%nat /\
            (c < 128 -> length b = 1%nat).
Proof.
  intros (Hlt & Hs). unfold utf8_char.
  destruct (N.ltb_spec c 128); [eexists; split; [reflexivity|]; cbn; split; [lia|auto]|].
  destruct (N.ltb_spec c 2048); [eexists; split; [reflexivity|]; cbn; split; lia|].
  destruct (N.ltb_spec c 65536).
  - destruct (N.leb_spec 55296 c); destruct (N.leb_spec c 57343); cbn [andb];
      try (eexists; split; [reflexivity|]; cbn; split; lia).
    exfalso. apply Hs. split; assumption.
  - destruct (N.ltb_spec c 1114112); [|lia].
    eexists; split; [reflexivity|]; cbn; split; lia.
Qed.

Lemma utf8_char_surrogate (c : N) : 55296 <= c /\ c <= 57343 -> utf8_char c = None.
Proof.
  intros (H1 & H2). unfold utf8_char.
  destruct (N.ltb_spec c 128); [lia|].
  destruct (N.ltb_spec c 2048); [lia|].
  destruct (N.ltb_spec c 65536); [|lia].
  destruct (N.leb_spec 55296 c); [|lia].
  destruct (N.leb_spec c 57343); [reflexivity|lia].
Qed.

Lemma utf8_scalars (s : pystr) :
  Forall scalar s ->
  exists b, utf8 s = Some b /\ (length s <= length b <= 4 * length s)%nat /\
            (Forall (fun c => c < 128) s -> length b = length s).
Proof.
  induction 1 as [|c s Hc _ (bs & E & Hlen & Hascii)].
  - exists []. repeat split; cbn; lia.
  - destruct (utf8_char_scalar c Hc) as (b & Eb & Hb & Hb1).
    exists (b ++ bs). cbn [utf8]. rewrite Eb, E. split; [reflexivity|].
    rewrite length_app. cbn [length]. split; [lia|].
    intros Ha. inversion Ha; subst. rewrite Hb1, Hascii; auto.
Qed.

Lemma utf8_surrogate (s : pystr) :
  Exists (fun c => 55296 <= c /\ c <= 57343) s -> utf8 s = None.
Proof.
  induction 1 as [c s Hc | c s _ IH]; cbn [utf8].
  - rewrite (utf8_char_surrogate c Hc). reflexivity.
  - rewrite IH. destruct (utf8_char c); reflexivity.
Qed.

(** X8: a Mesh object that is read and exports a text that is not
    empty.  If the text holds a surrogate code point it cannot be
    encoded: the step is one warning and nothing else.  If all its code
    points can be encoded, the file written holds its UTF-8 encoding,
    the record carries the base64 of the same bytes, and the bytes are
    at least as many as the code points and at most four times as
    many; as many, if the text is ASCII. *)
Theorem mesh_text_export (st : state) (obj : ObjectReader) (data : Data)
    (c : N) (s : pystr) :
  type_name obj = u"Mesh" -> read obj = Returns data ->
  export data = Returns (ExpStr (c :: s)) ->
  (Exists (fun c => 55296 <= c /\ c <= 57343) (c :: s) ->
   mesh_step st obj
   = warn (u"Failed to export mesh '" ++ mesh_name_clean obj data ++ u"': "
             ++ utf8_error (c :: s)) st) /\
  (Forall scalar (c :: s) ->
   exists obj_bytes,
     utf8 (c :: s) = Some obj_bytes /\
     mesh_data (mesh_step st obj) = mesh_data st ++ [mesh_asset obj data obj_bytes] /\
     OUTPUT_GEO (mesh_step st obj) !! (mesh_name_clean obj data ++ u".obj") = Some obj_bytes /\
     b64decode (asset_data (mesh_asset obj data obj_bytes)) = Some obj_bytes /\
     (length (c :: s) <= length obj_bytes <= 4 * length (c :: s))%nat /\
     (Forall (fun c => c < 128) (c :: s) -> length obj_bytes = length (c :: s))).
Proof.
  intros Ht Hr He. split.
  - intros Hs. unfold mesh_step, mesh_body. rewrite Ht, Hr, He.
    cbn [str_eqb nonempty_export to_bytes]. unfold encode_utf8.
    rewrite (utf8_surrogate _ Hs).
    replace (str_eqb (u"Mesh") (u"Mesh")) with true by reflexivity. reflexivity.
  - intros Hs. destruct (utf8_scalars _ Hs) as (b & E & Hlen & Hascii).
    exists b. split; [exact E|].
    assert (Hstep : mesh_step st obj
                    = log (u"Extracted mesh: " ++ mesh_name_clean obj data ++ u".obj ("
                             ++ len_str b ++ u" bytes)")
                        (append_mesh (mesh_asset obj data b)
                           (write_geo (mesh_name_clean obj data ++ u".obj") b st))).
    { unfold mesh_step, mesh_body. rewrite Ht, Hr, He.
      cbn [nonempty_export to_bytes]. unfold encode_utf8. rewrite E.
      replace (str_eqb (u"Mesh") (u"Mesh")) with true by reflexivity. reflexivity. }
    rewrite Hstep. cbn [log print append_mesh write_geo mesh_data OUTPUT_GEO].
    split; [reflexivity|]. split; [apply lookup_insert_eq|].
    split; [apply b64_roundtrip|]. split; assumption.
Qed.

(** ** The manifest beside the modules *)

Lemma omap_entry_names (entry : asset -> json) (assets : list asset) :
  (forall a, get (u"AssetName") (entry a) = Some (JStr (asset_filename a))) ->
  omap (get (u"AssetName")) (List.map entry assets)
  = List.map (fun a => JStr (asset_filename a)) assets.
Proof.
  intros Hentry. induction assets as [|a assets IH]; [reflexivity|].
  cbn [List.map]. rewrite omap_cons_eq, Hentry, IH. reflexivity.
Qed.

Lemma model_ids_of_modules (t : pystr) (meshes : list asset) :
  flat_map (values_at (u"modelId"))
    (trail_module t :: List.map custom_model_module meshes)
  = List.map (fun mesh => JStr (asset_filename mesh)) meshes.
Proof.
  cbn [flat_map]. destruct (trail_module_ids t) as (_ & -> & _). cbn [app].
  induction meshes as [|mesh meshes IH]; [reflexivity|].
  cbn [List.map flat_map]. rewrite IH.
  destruct (custom_model_module_ids mesh) as (_ & -> & _). reflexivity.
Qed.

(** X9: in a run that reaches the end the manifest has one
    [Geometry] entry for each extracted mesh and one [Textures] entry
    for each extracted texture or sprite, duplicates of a name
    included, in the order of extraction: the names of the [Geometry]
    entries are, one for one and in the same order, the [modelId]s of
    the modules, and there is exactly one module more than there are
    [Geometry] entries. *)
Theorem manifest_follows_modules (w : world) (saber_file : Path)
    (objects : list ObjectReader) :
  completes w saber_file objects ->
  exists preset modules textures geometry,
    produced w saber_file = Some preset /\
    list_at [u"Modules"] preset = Some modules /\
    list_at [u"BinaryAssets"; u"Textures"] preset = Some textures /\
    list_at [u"BinaryAssets"; u"Geometry"] preset = Some geometry /\
    omap (get (u"AssetName")) geometry = flat_map (values_at (u"modelId")) modules /\
    length geometry = length (meshes_of objects) /\
    length modules = S (length geometry) /\
    length textures = (length (textures_of objects) + length (sprites_of objects))%nat /\
    omap (get (u"AssetName")) textures
    = List.map (fun a => JStr (asset_filename a)) (textures_of objects ++ sprites_of objects).
Proof.
  intros H. eexists _, _, _, _.
  split; [apply (produced_completes w saber_file objects H)|].
  split; [apply preset_with_lists|].
  split; [apply preset_with_lists|].
  split; [apply preset_with_lists|].
  split.
  { rewrite model_ids_of_modules. apply omap_entry_names. intros a. apply entry_names. }
  split; [apply length_map|].
  split; [cbn [length]; rewrite !length_map; reflexivity|].
  split; [rewrite length_map, length_app; reflexivity|].
  apply omap_entry_names. intros a. apply entry_names.
Qed.

(** ** The counts of the summary *)

Lemma len_str_map {A B : Type} (f : A -> B) (l : list A) :
  len_str (List.map f l) = len_str l.
Proof. unfold len_str. rewrite length_map. reflexivity. Qed.

Lemma passes_summary (objects : list ObjectReader)
    (geo tex : gmap pystr bytes) (out : list pystr) :
  exists before,
    stdout (passes objects geo tex out)
    = before ++ [u"[INFO] " ++ [10] ++ u"Extraction complete:";
                 u"[INFO] " ++ u"  Meshes: " ++ len_str (meshes_of objects);
                 u"[INFO] " ++ u"  Textures: "
                   ++ len_str (textures_of objects ++ sprites_of objects)].
Proof.
  destruct (passes_lists objects geo tex out) as (Em & Et).
  unfold passes in *. cbv zeta in *.
  match goal with
  | |- context [extract_sprites objects ?s] => generalize dependent (extract_sprites objects s)
  end.
  intros st3 Em Et. unfold log, print in *. cbn [mesh_data texture_data stdout] in *.
  rewrite Em, Et. exists (stdout st3). rewrite <- !app_assoc. reflexivity.
Qed.

(** X10: in a run that reaches the end the two counts printed after
    the extraction, and the two counts of the closing lines, are the
    lengths of the [Geometry] and [Textures] lists of the manifest. *)
Theorem summary_counts_match_manifest (w : world) (saber_file : Path)
    (objects : list ObjectReader) :
  completes w saber_file objects ->
  exists preset textures geometry,
    produced w saber_file = Some preset /\
    list_at [u"BinaryAssets"; u"Textures"] preset = Some textures /\
    list_at [u"BinaryAssets"; u"Geometry"] preset = Some geometry /\
    In (u"[INFO] " ++ u"  Meshes: " ++ len_str geometry) (printed (run w)) /\
    In (u"[INFO] " ++ u"  Textures: " ++ len_str textures) (printed (run w)) /\
    In (u"[INFO] " ++ u"  - " ++ len_str geometry ++ u" mesh(es) " ++ [8594]
          ++ u" CustomGeometry/") (printed (run w)) /\
    In (u"[INFO] " ++ u"  - " ++ len_str textures ++ u" texture(s) " ++ [8594]
          ++ u" CustomTextures/") (printed (run w)).
Proof.
  intros H.
  exists (preset_of (meshes_of objects) (textures_of objects ++ sprites_of objects)),
    (List.map texture_entry (textures_of objects ++ sprites_of objects)),
    (List.map geometry_entry (meshes_of objects)).
  split; [apply (produced_completes w saber_file objects H)|].
  split; [apply preset_with_lists|].
  split; [apply preset_with_lists|].
  rewrite !len_str_map.
  rewrite (run_completes w saber_file objects H). cbn [printed].
  destruct (extraction_lists objects (geometry_before w) (textures_before w)
              (first_lines saber_file)) as (Em & Et).
  rewrite Em, Et.
  set (geo := geometry_before w). set (tex := textures_before w).
  set (out := first_lines saber_file).
  assert (Hsum : forall line,
            In line [u"[INFO] " ++ [10] ++ u"Extraction complete:";
                     u"[INFO] " ++ u"  Meshes: " ++ len_str (meshes_of objects);
                     u"[INFO] " ++ u"  Textures: "
                       ++ len_str (textures_of objects ++ sprites_of objects)] ->
            In line (stdout (extraction objects geo tex out))).
  { intros line Hin. unfold extraction. cbv zeta.
    destruct (passes_summary objects geo tex out) as (before & E).
    destruct (mesh_data (passes objects geo tex out)).
    - unfold warn, print. cbn [stdout]. rewrite E.
      apply in_or_app. left. apply in_or_app. right. exact Hin.
    - rewrite E. apply in_or_app. right. exact Hin. }
  split; [|split; [|split]].
  - apply in_or_app. left. apply in_or_app. left. apply Hsum.
    right. left. reflexivity.
  - apply in_or_app. left. apply in_or_app. left. apply Hsum.
    right. right. left. reflexivity.
  - apply in_or_app. right. unfold closing_lines. cbn [List.map In].
    do 6 right. left. reflexivity.
  - apply in_or_app. right. unfold closing_lines. cbn [List.map In].
    do 7 right. left. reflexivity.
Qed.

(** ** The shape of the preset *)

(** X11: in a run that reaches the end the root of the preset holds
    the fixed version tags whatever the bundle, every module is a
    dictionary with exactly the keys [ModuleId], [Version], [Config]
    and [Children], in that order, with version 1 and no children, its
    [ModuleId] being the trail's or the custom model's, and the two
    texture ids of the trail module are equal. *)
Theorem preset_shape (w : world) (saber_file : Path) (objects : list ObjectReader) :
  completes w saber_file objects ->
  exists preset modules trail rest,
    produced w saber_file = Some preset /\
    get (u"ModVersion") preset = Some (JStr (u"0.3.17")) /\
    get (u"Version") preset = Some (JInt 1) /\
    get_path [u"RootSettings"; u"Type"] preset = Some (JInt 0) /\
    list_at [u"Modules"] preset = Some modules /\
    Forall (fun module =>
              exists id config,
                module = JDict [(u"ModuleId", JStr id); (u"Version", JInt 1);
                                (u"Config", config); (u"Children", JList [])] /\
                (id = u"reezonate.simple-trail" \/ id = u"reezonate.custom-model"))
      modules /\
    modules = trail :: rest /\
    values_at (u"customTextureId") trail = values_at (u"opacityTextureId") trail.
Proof.
  intros H. eexists _, _, _, _.
  split; [apply (produced_completes w saber_file objects H)|].
  split; [reflexivity|]. split; [reflexivity|]. split; [reflexivity|].
  split; [apply preset_with_lists|].
  split; [|split; [reflexivity|]].
  - constructor.
    + eexists _, _. split; [reflexivity|]. left. reflexivity.
    + apply Forall_forall. intros module Hin. apply list_elem_of_In in Hin.
      apply in_map_iff in Hin as (mesh & <- & _).
      eexists _, _. split; [reflexivity|]. right. reflexivity.
  - destruct (trail_module_ids
                (trail_texture_of (textures_of objects ++ sprites_of objects)))
      as (_ & _ & -> & ->). reflexivity.
Qed.

(** ** Case in the classification *)

Lemma lower_ascii (s : pystr) :
  Forall (fun c => c < 128) s -> lower s = List.map ascii_lower s.
Proof.
  intros H. unfold lower.
  rewrite <- (app_nil_r s) at 1. rewrite (lower_from_ascii_app [] s [] H).
  apply app_nil_r.
Qed.

(** X12: two names written in ASCII that differ only in the case of
    their letters are classified alike. *)
Theorem categorize_mesh_ignores_case (a b : pystr) :
  Forall (fun c => c < 128) a -> Forall (fun c => c < 128) b ->
  List.map ascii_lower a = List.map ascii_lower b ->
  categorize_mesh a = categorize_mesh b.
Proof.
  intros Ha Hb E. unfold categorize_mesh.
  rewrite (lower_ascii a Ha), (lower_ascii b Hb), E. reflexivity.
Qed.

(** ** The shape of base64 text *)

Lemma b64_char_ascii (n : N) : n < 64 -> b64_char n < 128.
Proof.
  intros H.
  assert (E : forallb (fun n => b64_char n <? 128) (List.map N.of_nat (seq 0 64)) = true)
    by (vm_compute; reflexivity).
  rewrite forallb_forall in E. apply N.ltb_lt. apply E, upto_In, H.
Qed.

Lemma b64_char_text (n : N) : n < 64 -> b64_text_char (b64_char n).
Proof.
  intros H. split; [apply b64_char_ascii, H|].
  right. exists n. split; [exact H | apply b64_index_char, H].
Qed.

Lemma b64_pad_text : b64_text_char b64_pad.
Proof. split; [reflexivity | left; reflexivity]. Qed.

Lemma div3_step (n : nat) : ((n + 3 + 2) / 3 = S ((n + 2) / 3))%nat.
Proof.
  clear. replace (n + 3 + 2)%nat with (n + 2 + 1 * 3)%nat by lia.
  rewrite Nat.div_add by lia. lia.
Qed.

(** X13: the base64 text of [n] bytes has [4 * ceil(n / 3)]
    characters, all of them ASCII: characters of the alphabet, and
    padding. *)
Theorem b64encode_shape (bs : bytes) :
  length (b64encode bs) = (4 * ((length bs + 2) / 3))%nat /\
  Forall b64_text_char (b64encode bs).
Proof.
  induction bs as [|a|a b|a b c r (IHl & IHf)] using bytes_ind3.
  - split; [reflexivity | constructor].
  - destruct (sextets (Byte.to_N a) 0 0 (to_N_lt a) eq_refl eq_refl)
      as (L1 & L2 & _).
    change (0 / 16) with 0 in L2. rewrite N.add_0_r in L2.
    split; [reflexivity|]. cbn [b64encode].
    repeat (constructor; [first [apply b64_char_text; assumption | apply b64_pad_text]|]).
    constructor.
  - destruct (sextets (Byte.to_N a) (Byte.to_N b) 0 (to_N_lt a) (to_N_lt b) eq_refl)
      as (L1 & L2 & L3 & _).
    change (0 / 64) with 0 in L3. rewrite N.add_0_r in L3.
    split; [reflexivity|]. cbn [b64encode].
    repeat (constructor; [first [apply b64_char_text; assumption | apply b64_pad_text]|]).
    constructor.
  - destruct (sextets (Byte.to_N a) (Byte.to_N b) (Byte.to_N c)
                (to_N_lt a) (to_N_lt b) (to_N_lt c))
      as (L1 & L2 & L3 & L4 & _).
    rewrite b64encode_triple. split.
    + rewrite length_app, IHl. cbn [length].
      replace (S (S (S (length r))) + 2)%nat with (length r + 3 + 2)%nat by lia.
      rewrite div3_step. lia.
    + apply Forall_app. split; [|exact IHf].
      repeat (constructor; [apply b64_char_text; assumption|]). constructor.
Qed.

(** ** References and files *)

(** X14: in a run that reaches the end every [modelId] of the preset
    names a file that is in [CustomGeometry] after the run, and every
    texture id of the preset is the empty string or names a file that
    is in [CustomTextures] after the run. *)
Theorem references_resolve_on_disk (w : world) (saber_file : Path)
    (objects : list ObjectReader) :
  completes w saber_file objects ->
  exists preset modules,
    produced w saber_file = Some preset /\
    list_at [u"Modules"] preset = Some modules /\
    (forall module v, In module modules -> In v (values_at (u"modelId") module) ->
       exists file bs, v = JStr file /\ CustomGeometry (run w) !! file = Some bs) /\
    (forall module v, In module modules ->
       In v (values_at (u"customTextureId") module
               ++ values_at (u"opacityTextureId") module) ->
       v = JStr (u"") \/
       exists file bs, v = JStr file /\ CustomTextures (run w) !! file = Some bs).
Proof.
  intros H. eexists _, _.
  split; [apply (produced_completes w saber_file objects H)|].
  split; [apply preset_with_lists|].
  rewrite (run_completes w saber_file objects H). cbn [CustomGeometry CustomTextures].
  destruct (extraction_folders objects (geometry_before w) (textures_before w)
              (first_lines saber_file)) as (-> & ->).
  set (T := textures_of objects ++ sprites_of objects).
  split.
  - intros module v [<-|Hin] Hv.
    + destruct (trail_module_ids (trail_texture_of T)) as (_ & E & _).
      rewrite E in Hv. contradiction.
    + apply in_map_iff in Hin as (mesh & <- & Hmesh).
      destruct (custom_model_module_ids mesh) as (_ & E & _).
      rewrite E in Hv. destruct Hv as [<-|[]].
      destruct (left_under_written (asset_filename mesh) (mesh_events objects)
                  (geometry_before w !! asset_filename mesh)
                  (mesh_record_event objects mesh Hmesh)) as (bs & Hbs).
      exists (asset_filename mesh), bs. split; [reflexivity|].
      rewrite lookup_after_events. exact Hbs.
  - intros module v [<-|Hin] Hv.
    + destruct (trail_module_ids (trail_texture_of T)) as (_ & _ & E1 & E2).
      rewrite E1, E2 in Hv.
      assert (Ev : v = JStr (trail_texture_of T)) by (destruct Hv as [<-|[<-|[]]]; reflexivity).
      subst v. destruct T as [|t ts] eqn:ET; [left; reflexivity|right].
      assert (Ht : In t (textures_of objects ++ sprites_of objects)).
      { fold T. rewrite ET. left. reflexivity. }
      destruct (left_under_written (asset_filename t) (texture_events objects)
                  (textures_before w !! asset_filename t)) as (bs & Hbs).
      { unfold texture_events. apply in_app_or in Ht.
        destruct Ht as [Ht|Ht]; apply image_record_event in Ht as (ev & c & Hev & Hrest);
          exists ev, c; (split; [apply in_or_app|exact Hrest]); [left|right]; exact Hev. }
      exists (asset_filename t), bs. split; [reflexivity|].
      rewrite lookup_after_events. exact Hbs.
    + apply in_map_iff in Hin as (mesh & <- & Hmesh).
      destruct (custom_model_module_ids mesh) as (_ & _ & E1 & E2).
      rewrite E1, E2 in Hv. contradiction.
Qed.

(** X15: when several objects save under one file name the file holds
    what the last of them left: what an object wrote, or the bytes its
    failed save left, is what the folder holds at the end of the
    extraction when no later object of the same folder saves under
    that name.  In [CustomTextures] the sprites come after the
    textures. *)
Theorem last_write_wins (objects : list ObjectReader)
    (geo tex : gmap pystr bytes) (out : list pystr)
    (l1 l2 : list event) (ev : event) (v : bytes) :
  Forall (fun ev' => ev_file ev' <> ev_file ev) l2 ->
  (mesh_events objects = l1 ++ ev :: l2 -> ev_effect ev = Wrote v ->
   OUTPUT_GEO (extraction objects geo tex out) !! ev_file ev = Some v) /\
  (texture_events objects = l1 ++ ev :: l2 ->
   ev_effect ev = Wrote v \/ ev_effect ev = Failed (Holding v) ->
   OUTPUT_TEX (extraction objects geo tex out) !! ev_file ev = Some v).
Proof.
  intros Hn. destruct (extraction_folders objects geo tex out) as (-> & ->).
  split; intros ->.
  - intros He. rewrite (after_events_last l1 l2 ev geo Hn), He. reflexivity.
  - intros [He|He]; rewrite (after_events_last l1 l2 ev tex Hn), He; reflexivity.
Qed.

(** ** The script when [print] raises *)

Section Accepting.

Hypothesis accepted : forall line, stdout_accepts line = true.

Set Default Proof Using "Type accepted".








(** On a console that accepts every line the script is [run]. *)


End Accepting.

Set Default Proof Using "Type".

(** [error] ends with status 1 whether its line is printed or not. *)




(** [error] and the two first reports leave the folders alone. *)

Lemma error_on_folders (msg : pystr) (presets : gmap pystr json_file) (st : state) :
  exit_status (error_on msg presets st) = 1%Z /\
  CustomGeometry (error_on msg presets st) = OUTPUT_GEO st /\
  CustomTextures (error_on msg presets st) = OUTPUT_TEX st /\
  Presets (error_on msg presets st) = presets.
Proof. unfold error_on, print_to. destruct (stdout_accepts _); repeat split. Qed.

Lemma two_logs_folders (m1 m2 : pystr) (st : state) :
  OUTPUT_GEO (state_of (and_then (log_on m1 st) (log_on m2))) = OUTPUT_GEO st /\
  OUTPUT_TEX (state_of (and_then (log_on m1 st) (log_on m2))) = OUTPUT_TEX st.
Proof.
  unfold log_on, print_to.
  destruct (stdout_accepts (u"[INFO] " ++ m1)); cbn [and_then state_of]; [|split; reflexivity].
  destruct (stdout_accepts (u"[INFO] " ++ m2)); split; reflexivity.
Qed.

(** X7: when UnityPy does not import, when [input/] holds no [.saber]
    file, or when the first one does not load, the script ends with
    status 1 and the three output folders are what they were.  In
    every run the files of [Presets] other than the preset of the
    [.saber] file are what they were. *)
Theorem failed_run_outcome (w : world) :
  (unitypy_installed w = false \/ saber_files w = [] \/
   (exists saber_file others e,
      saber_files w = saber_file :: others /\ load w saber_file = Raises e) ->
   exit_status (script_on w) = 1%Z /\
   CustomGeometry (script_on w) = geometry_before w /\
   CustomTextures (script_on w) = textures_before w /\
   Presets (script_on w) = presets_before w) /\
  (forall file,
     (forall saber_file others,
        saber_files w = saber_file :: others -> file <> stem saber_file ++ u".json") ->
     Presets (script_on w) !! file = presets_before w !! file).
Proof.
  split.
  - intros Hfail. unfold script_on. cbv zeta.
    destruct (unitypy_installed w) eqn:Hi; cbn [negb]; [|apply error_on_folders].
    destruct (saber_files w) as [|saber_file others] eqn:Hf; [apply error_on_folders|].
    destruct Hfail as [Hfail|[Hfail|(f & o & e & Hfail & Hl)]]; try discriminate.
    injection Hfail as <- <-.
    pose proof (two_logs_folders (u"Found .saber file: " ++ file_name saber_file)
                  (u"Loading AssetBundle...")
                  {| mesh_data := []; texture_data := [];
                     OUTPUT_GEO := geometry_before w; OUTPUT_TEX := textures_before w;
                     stdout := [] |}) as (Hg & Ht).
    destruct (and_then (log_on _ _) (log_on _)) as [st0|st0 raised];
      cbn [state_of OUTPUT_GEO OUTPUT_TEX] in Hg, Ht.
    + rewrite Hl. destruct (error_on_folders (u"Failed to load .saber file: " ++ e)
                              (presets_before w) st0) as (E1 & E2 & E3 & E4).
      rewrite E1, E2, E3, E4, Hg, Ht. repeat split.
    + unfold ended. cbn [exit_status CustomGeometry CustomTextures Presets].
      rewrite Hg, Ht. repeat split.
  - intros file Hfile. unfold script_on. cbv zeta.
    assert (Herr : forall msg presets st,
              Presets (error_on msg presets st) !! file = presets !! file).
    { intros msg presets st.
      destruct (error_on_folders msg presets st) as (_ & _ & _ & ->). reflexivity. }
    destruct (unitypy_installed w); cbn [negb]; [|apply Herr].
    destruct (saber_files w) as [|saber_file others] eqn:Hf; [apply Herr|].
    specialize (Hfile saber_file others eq_refl).
    destruct (and_then (log_on _ _) (log_on _)) as [st0|st0 raised]; [|reflexivity].
    destruct (load w saber_file) as [objects|e]; [|apply Herr].
    destruct (and_then (extraction_on _ _ _ _) _) as [st|st raised]; [|reflexivity].
    destruct (dump_error w) as [[e|e]|].
    + apply Herr.
    + rewrite Herr. apply lookup_insert_ne. congruence.
    + destruct (print_to _ st) as [st1|e].
      * destruct (logs_on _ st1) as [st2|st2 raised];
          cbn [ended Presets]; apply lookup_insert_ne; congruence.
      * rewrite Herr. apply lookup_insert_ne. congruence.
Qed.

End Script.

(** * The properties on the sample bundles *)

Lemma scenario_a_completes : completes (world_of scenario_a) a_saber scenario_a.
Proof. repeat split; reflexivity. Defined.

Lemma modules_trail_then_meshes_witness :
  completes (world_of scenario_a) a_saber scenario_a /\
  exists preset modules,
    produced no_class no_class surrogates (world_of scenario_a) a_saber = Some preset /\
    list_at [u"Modules"] preset = Some modules /\
    length modules = 2%nat /\
    flat_map (values_at (u"modelId")) modules = [JStr (u"Hilt_Base.obj")].
Proof.
  split; [exact scenario_a_completes|].
  destruct (modules_trail_then_meshes no_class no_class surrogates
              (world_of scenario_a) a_saber scenario_a scenario_a_completes)
    as (preset & modules & Hp & Hl & _ & Hlen & _ & Hids).
  exists preset, modules.
  split; [exact Hp|]. split; [exact Hl|].
  split; [rewrite Hlen | rewrite Hids]; reflexivity.
Defined.

Lemma referenced_assets_present_witness :
  completes (world_of scenario_a) a_saber scenario_a /\
  exists preset trail rest,
    produced no_class no_class surrogates (world_of scenario_a) a_saber = Some preset /\
    list_at [u"Modules"] preset = Some (trail :: rest) /\
    values_at (u"customTextureId") trail = [JStr (u"Blade_Glow.png")] /\
    values_at (u"opacityTextureId") trail = [JStr (u"Blade_Glow.png")].
Proof.
  split; [exact scenario_a_completes|].
  destruct (referenced_assets_present no_class no_class surrogates
              (world_of scenario_a) a_saber scenario_a scenario_a_completes)
    as (preset & modules & textures & geometry & Hp & Hl & _ & _ & _ & _ & Htrail).
  destruct (Htrail _ _ eq_refl) as (trail & rest & -> & Hc & Ho).
  exists preset, trail, rest. repeat split; assumption.
Defined.

Lemma sanitize_keeps_strips_or_falls_back_witness :
  strip no_class (List.filter (keep no_class) (u"###")) = [] /\
  sanitize no_class no_class (u"###") (u"mesh_42") = u"mesh_42" /\
  sanitize no_class no_class (u"  Hilt #1 ") (u"mesh_42") = u"Hilt 1".
Proof.
  split; [reflexivity|]. split.
  - destruct (sanitize_keeps_strips_or_falls_back no_class no_class (u"###") (u"mesh_42"))
      as (_ & _ & _ & _ & H & _).
    apply H. reflexivity.
  - destruct (sanitize_keeps_strips_or_falls_back no_class no_class
                (u"  Hilt #1 ") (u"mesh_42")) as (_ & _ & _ & H & _).
    rewrite H; [reflexivity | discriminate].
Defined.

Lemma sanitize_idempotent_witness :
  script_fallback (u"mesh_42") /\
  sanitize no_class no_class (sanitize no_class no_class (u"###") (u"mesh_42")) (u"mesh_42")
  = sanitize no_class no_class (u"###") (u"mesh_42").
Proof.
  assert (H : script_fallback (u"mesh_42")) by (exists 42%Z; left; reflexivity).
  split; [exact H|].
  apply (sanitize_idempotent no_class no_class (u"###") (u"mesh_42") H).
Defined.

Lemma categorize_mesh_spec_witness :
  contains_caseless (u"hilt") (u"Dark HiLt") /\
  categorize_mesh same_case (u"Dark HiLt") = u"hilt" /\
  categorize_mesh same_case (u"My BLADE") = u"blade".
Proof.
  assert (Hh : contains_caseless (u"hilt") (u"Dark HiLt")).
  { exists (u"Dark "), (u"HiLt"), []. split; reflexivity. }
  split; [exact Hh|]. split.
  - destruct (categorize_mesh_spec same_case (u"Dark HiLt")) as (_ & _ & _ & H & _).
    apply H, Hh.
  - destruct (categorize_mesh_spec same_case (u"My BLADE")) as (_ & _ & _ & _ & H & _).
    apply H.
    + exists (u"blade"). split; [left; reflexivity|].
      exists (u"My "), (u"BLADE"), []. split; reflexivity.
    + intros Hk. apply has_keyword_existsb in Hk. vm_compute in Hk. discriminate.
Defined.

(** The name made up for it starts with the word "texture", not with
    the lower-cased type name "texture2d". *)

Lemma texture_fallback_not_lowercased_type :
  List.map asset_original_name
    (texture_data (texture_step no_class no_class empty_state nameless_texture))
  = [u"texture_7"] /\
  synthesized_by_type same_case (type_name nameless_texture) (path_id nameless_texture)
  = u"texture2d_7" /\
  List.map asset_original_name
    (texture_data (texture_step no_class no_class empty_state nameless_texture))
  <> [synthesized_by_type same_case (type_name nameless_texture) (path_id nameless_texture)].
Proof.
  split; [reflexivity|]. split; [reflexivity|]. vm_compute. discriminate.
Qed.

Lemma fallback_names_witness :
  read nameless_texture
  = Returns {| name := None; export := Raises (u"export");
               image := Returns {| save_file := FileSaved [Byte.x89; Byte.x50];
                                   save_buffer := Returns [Byte.x89; Byte.x50] |} |} /\
  texture_data (texture_step no_class no_class empty_state nameless_texture)
  = [named (u"texture_7") (u"texture_7") (u".png") [Byte.x89; Byte.x50]] /\
  strip no_class (List.filter (keep no_class) (u"###")) = [] /\
  mesh_data (mesh_step no_class no_class surrogates empty_state
               (mesh_object 42 (Some (u"###")) (Returns (ExpStr (u"v 0 0 0")))))
  = [named (u"###") (u"mesh_42") (u".obj")
       [Byte.x76; Byte.x20; Byte.x30; Byte.x20; Byte.x30; Byte.x20; Byte.x30]] /\
  asset_filename
    (named (u"###") (u"mesh_42") (u".obj")
       [Byte.x76; Byte.x20; Byte.x30; Byte.x20; Byte.x30; Byte.x20; Byte.x30])
  = u"mesh_42.obj".
Proof.
  split; [reflexivity|]. split.
  - destruct (fallback_names no_class no_class same_case surrogates empty_state
                nameless_texture _ eq_refl) as (_ & H & _).
    apply (H (or_introl eq_refl) eq_refl _ _ _ eq_refl eq_refl eq_refl).
  - split; [reflexivity|].
    destruct (fallback_names no_class no_class same_case surrogates empty_state
                (mesh_object 42 (Some (u"###")) (Returns (ExpStr (u"v 0 0 0")))) _ eq_refl)
      as (_ & _ & _ & H).
    destruct (H (u"###") eq_refl eq_refl eq_refl _ _ eq_refl eq_refl eq_refl)
      as (Hrecord & Hfile).
    split; [exact Hrecord | exact (Hfile eq_refl)].
Defined.

(** The texture loop skips the texture whose image cannot be encoded
    and leaves the file the failed save began; it skips the texture
    whose second save fails and leaves the file the first save wrote. *)



Lemma same_name_sizes_differ :
  exists preset geometry e data decoded file,
    produced no_class no_class surrogates (world_of same_name_twice) a_saber = Some preset /\
    list_at [u"BinaryAssets"; u"Geometry"] preset = Some geometry /\
    geometry !! 0%nat = Some e /\
    get (u"AssetName") e = Some (JStr (u"A.obj")) /\
    get (u"Data") e = Some (JStr data) /\
    b64decode data = Some decoded /\
    CustomGeometry (run no_class no_class surrogates (world_of same_name_twice)) !! u"A.obj"
    = Some file /\
    length decoded <> length file.
Proof.
  do 6 eexists.
  split; [vm_compute; reflexivity|].
  split; [vm_compute; reflexivity|].
  split; [vm_compute; reflexivity|].
  split; [vm_compute; reflexivity|].
  split; [vm_compute; reflexivity|].
  split; [vm_compute; reflexivity|].
  split; [vm_compute; reflexivity|].
  vm_compute. discriminate.
Qed.

Lemma scenario_a_same_saves : same_saves scenario_a.
Proof.
  intros obj data img content png Hin Hr Hi Hf Hb.
  destruct Hin as [<-|[<-|[]]]; injection Hr as <-; cbn in Hi; [discriminate|].
  injection Hi as <-. cbn in Hf, Hb. congruence.
Defined.

Lemma asset_data_decodes_to_file_witness :
  completes (world_of scenario_a) a_saber scenario_a /\
  same_saves scenario_a /\
  exists preset textures geometry,
    produced no_class no_class surrogates (world_of scenario_a) a_saber = Some preset /\
    list_at [u"BinaryAssets"; u"Textures"] preset = Some textures /\
    list_at [u"BinaryAssets"; u"Geometry"] preset = Some geometry /\
    entries_match geometry (mesh_events no_class no_class surrogates scenario_a)
      (CustomGeometry (run no_class no_class surrogates (world_of scenario_a))) /\
    entries_match textures (texture_events no_class no_class scenario_a)
      (CustomTextures (run no_class no_class surrogates (world_of scenario_a))) /\
    Forall encodes_the_file (mesh_events no_class no_class surrogates scenario_a) /\
    Forall encodes_the_file (texture_events no_class no_class scenario_a).
Proof.
  split; [exact scenario_a_completes|]. split; [exact scenario_a_same_saves|].
  destruct (asset_data_decodes_to_file no_class no_class surrogates
              (world_of scenario_a) a_saber scenario_a scenario_a_completes)
    as (preset & textures & geometry & Hp & Ht & Hg & Hm & Hx & He & Hi).
  exists preset, textures, geometry.
  split; [exact Hp|]. split; [exact Ht|]. split; [exact Hg|]. split; [exact Hm|].
  split; [exact Hx|]. split; [exact He|]. exact (Hi scenario_a_same_saves).
Defined.

Lemma empty_bundle_preset_witness :
  completes (world_of scenario_b) a_saber scenario_b /\
  Forall (fun obj => ~ In (type_name obj) wanted) scenario_b /\
  exit_status (run no_class no_class surrogates (world_of scenario_b)) = 0%Z /\
  In (u"[WARN] Warning: No meshes extracted. Preset will be empty.")
    (printed (run no_class no_class surrogates (world_of scenario_b))).
Proof.
  assert (Hc : completes (world_of scenario_b) a_saber scenario_b)
    by (repeat split; reflexivity).
  assert (Hn : Forall (fun obj => ~ In (type_name obj) wanted) scenario_b).
  { repeat constructor. simpl. intros [H|[H|[H|[]]]]; discriminate. }
  split; [exact Hc|]. split; [exact Hn|].
  destruct (empty_bundle_preset no_class no_class surrogates
              (world_of scenario_b) a_saber scenario_b Hc Hn) as (He & Hw & _).
  split; assumption.
Defined.

Lemma textures_then_sprites_witness :
  completes (world_of sprite_then_texture) a_saber sprite_then_texture /\
  exists preset trail rest,
    produced no_class no_class surrogates (world_of sprite_then_texture) a_saber
    = Some preset /\
    list_at [u"Modules"] preset = Some (trail :: rest) /\
    values_at (u"customTextureId") trail = [JStr (u"Blade_Glow.png")] /\
    List.map asset_filename
      (texture_data (extraction no_class no_class surrogates sprite_then_texture ∅ ∅
                       (first_lines a_saber)))
    = [u"Blade_Glow.png"; u"Icon.png"].
Proof.
  assert (Hc : completes (world_of sprite_then_texture) a_saber sprite_then_texture)
    by (repeat split; reflexivity).
  split; [exact Hc|].
  destruct (textures_then_sprites no_class no_class surrogates
              (world_of sprite_then_texture) a_saber sprite_then_texture Hc)
    as (Hlist & _ & _ & preset & trail & rest & Hp & _ & Hm & Hfirst & _).
  exists preset, trail, rest.
  split; [exact Hp|]. split; [exact Hm|].
  split; [apply (Hfirst _ _ eq_refl)|].
  cbn [world_of geometry_before textures_before] in Hlist. rewrite Hlist. reflexivity.
Defined.

Lemma folders_after_extraction_witness :
  OUTPUT_GEO (extraction no_class no_class surrogates scenario_a old_geometry ∅ [])
    !! u"old.obj" = Some [Byte.x01] /\
  exists bs,
    OUTPUT_GEO (extraction no_class no_class surrogates scenario_a old_geometry ∅ [])
      !! u"Hilt_Base.obj" = Some bs.
Proof.
  split.
  - destruct (folders_after_extraction no_class no_class surrogates scenario_a
                old_geometry ∅ [] (u"old.obj")) as (H & _).
    transitivity (old_geometry !! u"old.obj"); [apply H | vm_compute; reflexivity].
    vm_compute. intros [E|[]]. discriminate E.
  - destruct (folders_after_extraction no_class no_class surrogates scenario_a
                old_geometry ∅ [] (u"Hilt_Base.obj")) as (_ & H & _).
    cbv zeta in H. destruct H as (bs & Hbs); [vm_compute; left; reflexivity|].
    exists bs. exact Hbs.
Defined.

Lemma rerun_same_outcome_witness :
  completes (world_of scenario_a) a_saber scenario_a /\
  run no_class no_class surrogates
    (rerun (world_of scenario_a) (run no_class no_class surrogates (world_of scenario_a)))
  = run no_class no_class surrogates (world_of scenario_a).
Proof.
  split; [exact scenario_a_completes|].
  apply (rerun_same_outcome no_class no_class surrogates
           (world_of scenario_a) a_saber scenario_a scenario_a_completes).
Defined.

Lemma record_names_safe_witness :
  In (named (u"Hilt_Base") (u"Hilt_Base") (u".obj")
        [Byte.x76; Byte.x20; Byte.x30; Byte.x20; Byte.x30; Byte.x20; Byte.x30])
    (mesh_data (extraction no_class no_class surrogates scenario_a ∅ ∅ [])) /\
  clean no_class no_class (u"Hilt_Base") /\ ~ In 47 (u"Hilt_Base").
Proof.
  assert (Hin : In (named (u"Hilt_Base") (u"Hilt_Base") (u".obj")
                      [Byte.x76; Byte.x20; Byte.x30; Byte.x20; Byte.x30; Byte.x20; Byte.x30])
                  (mesh_data (extraction no_class no_class surrogates scenario_a ∅ ∅ [])))
    by (left; reflexivity).
  split; [exact Hin|].
  destruct (record_names_safe no_class no_class surrogates scenario_a ∅ ∅ []
              (named (u"Hilt_Base") (u"Hilt_Base") (u".obj")
                 [Byte.x76; Byte.x20; Byte.x30; Byte.x20; Byte.x30; Byte.x20; Byte.x30]))
    as (H & _).
  destruct (H Hin) as (Hc & _ & Hs & _).
  split; [exact Hc | exact Hs].
Defined.

(** With every line accepted the sample run ends with status 0; on a
    console that refuses surrogates the same bundle in a file whose
    name holds one ends with status 1, the four conditions holding. *)


Lemma failed_run_outcome_witness :
  saber_files no_input_world = [] /\
  exit_status (script_on no_class no_class surrogates utf8_console cannot_encode
                 no_input_world) = 1%Z /\
  CustomGeometry (script_on no_class no_class surrogates utf8_console cannot_encode
                    no_input_world) = old_geometry /\
  printed (script_on no_class no_class surrogates utf8_console cannot_encode no_input_world)
  = [u"[ERROR] No .saber file found in input/ folder. Place your .saber file there."].
Proof.
  split; [reflexivity|].
  destruct (failed_run_outcome no_class no_class surrogates utf8_console cannot_encode
              no_input_world) as (H & _).
  destruct (H (or_intror (or_introl eq_refl))) as (H1 & H2 & _).
  split; [exact H1|]. split; [exact H2|]. reflexivity.
Defined.

Lemma mesh_text_export_witness :
  type_name surrogate_mesh = u"Mesh" /\
  Exists (fun c => 55296 <= c /\ c <= 57343) [118; 55296] /\
  mesh_data (mesh_step no_class no_class surrogates empty_state surrogate_mesh) = [] /\
  Forall scalar [118; 32; 48] /\
  exists obj_bytes,
    utf8 [118; 32; 48] = Some obj_bytes /\ length obj_bytes = 3%nat.
Proof.
  assert (Hs : Exists (fun c => 55296 <= c /\ c <= 57343) [118; 55296]).
  { right. left. split; [reflexivity | discriminate]. }
  assert (Hv : Forall scalar [118; 32; 48]).
  { repeat constructor; try reflexivity; intros (H & _); exact (H eq_refl). }
  split; [reflexivity|]. split; [exact Hs|]. split; [|split; [exact Hv|]].
  - destruct (mesh_text_export no_class no_class surrogates empty_state surrogate_mesh
                _ 118 [55296] eq_refl eq_refl eq_refl) as (H & _).
    rewrite (H Hs). reflexivity.
  - destruct (mesh_text_export no_class no_class surrogates empty_state
                (mesh_object 1 (Some (u"A")) (Returns (ExpStr [118; 32; 48])))
                _ 118 [32; 48] eq_refl eq_refl eq_refl) as (_ & H).
    destruct (H Hv) as (b & E & _ & _ & _ & _ & Hlen).
    exists b. split; [exact E|]. apply Hlen.
    repeat constructor.
Defined.

Lemma manifest_follows_modules_witness :
  completes (world_of scenario_a) a_saber scenario_a /\
  exists preset geometry,
    produced no_class no_class surrogates (world_of scenario_a) a_saber = Some preset /\
    list_at [u"BinaryAssets"; u"Geometry"] preset = Some geometry /\
    omap (get (u"AssetName")) geometry = [JStr (u"Hilt_Base.obj")].
Proof.
  split; [exact scenario_a_completes|].
  destruct (manifest_follows_modules no_class no_class surrogates
              (world_of scenario_a) a_saber scenario_a scenario_a_completes)
    as (preset & modules & textures & geometry & Hp & Hm & _ & Hg & Hn & _).
  exists preset, geometry. split; [exact Hp|]. split; [exact Hg|].
  rewrite Hn.
  assert (E : modules = trail_module (u"Blade_Glow.png")
                          :: List.map custom_model_module
                               (meshes_of no_class no_class surrogates scenario_a)).
  { rewrite (produced_completes _ _ _ _ _ _ scenario_a_completes) in Hp.
    injection Hp as <-. injection Hm as <-. reflexivity. }
  rewrite E. reflexivity.
Defined.

Lemma summary_counts_match_manifest_witness :
  completes (world_of scenario_a) a_saber scenario_a /\
  In (u"[INFO]   Meshes: 1")
    (printed (run no_class no_class surrogates (world_of scenario_a))).
Proof.
  split; [exact scenario_a_completes|].
  destruct (summary_counts_match_manifest no_class no_class surrogates
              (world_of scenario_a) a_saber scenario_a scenario_a_completes)
    as (preset & textures & geometry & Hp & _ & Hg & Hin & _).
  assert (E : geometry = List.map geometry_entry
                           (meshes_of no_class no_class surrogates scenario_a)).
  { rewrite (produced_completes _ _ _ _ _ _ scenario_a_completes) in Hp.
    injection Hp as <-. injection Hg as <-. reflexivity. }
  rewrite E in Hin. exact Hin.
Defined.

Lemma preset_shape_witness :
  completes (world_of scenario_a) a_saber scenario_a /\
  exists preset,
    produced no_class no_class surrogates (world_of scenario_a) a_saber = Some preset /\
    get (u"ModVersion") preset = Some (JStr (u"0.3.17")).
Proof.
  split; [exact scenario_a_completes|].
  destruct (preset_shape no_class no_class surrogates
              (world_of scenario_a) a_saber scenario_a scenario_a_completes)
    as (preset & modules & trail & rest & Hp & Hv & _).
  exists preset. split; assumption.
Defined.

Lemma categorize_mesh_ignores_case_witness :
  Forall (fun c => c < 128) (u"My BLADE") /\
  List.map ascii_lower (u"My BLADE") = List.map ascii_lower (u"my blade") /\
  categorize_mesh same_case (u"My BLADE") = categorize_mesh same_case (u"my blade").
Proof.
  assert (Ha : Forall (fun c => c < 128) (u"My BLADE")) by (repeat constructor).
  split; [exact Ha|]. split; [reflexivity|].
  apply (categorize_mesh_ignores_case same_case (u"My BLADE") (u"my blade") Ha).
  - repeat constructor.
  - reflexivity.
Defined.

Lemma references_resolve_on_disk_witness :
  completes (world_of scenario_a) a_saber scenario_a /\
  exists bs,
    CustomGeometry (run no_class no_class surrogates (world_of scenario_a))
      !! u"Hilt_Base.obj" = Some bs.
Proof.
  split; [exact scenario_a_completes|].
  destruct (references_resolve_on_disk no_class no_class surrogates
              (world_of scenario_a) a_saber scenario_a scenario_a_completes)
    as (preset & modules & Hp & Hm & Hmodel & _).
  assert (E : modules = trail_module (u"Blade_Glow.png")
                          :: List.map custom_model_module
                               (meshes_of no_class no_class surrogates scenario_a)).
  { rewrite (produced_completes _ _ _ _ _ _ scenario_a_completes) in Hp.
    injection Hp as <-. injection Hm as <-. reflexivity. }
  subst modules.
  destruct (Hmodel _ (JStr (u"Hilt_Base.obj")) (or_intror (or_introl eq_refl)))
    as (file & bs & Ev & Hbs); [left; reflexivity|].
  injection Ev as <-. exists bs. exact Hbs.
Defined.

Lemma last_write_wins_witness :
  Forall (fun ev' : event => ev_file ev' <> u"T.png") [] /\
  OUTPUT_TEX (extraction no_class no_class surrogates texture_then_failure ∅ ∅ [])
    !! u"T.png" = Some png_signature.
Proof.
  split; [constructor|].
  destruct (last_write_wins no_class no_class surrogates texture_then_failure ∅ ∅ []
              [{| ev_file := u"T.png"; ev_effect := Wrote [Byte.x89; Byte.x50];
                  ev_encoded := Some [Byte.x89; Byte.x50] |}]
              []
              {| ev_file := u"T.png"; ev_effect := Failed (Holding png_signature);
                 ev_encoded := None |}
              png_signature) as (_ & H).
  { constructor. }
  apply H; [reflexivity | right; reflexivity].
Defined.
